(** * Disk classification, discovery and plug state of the test framework

    A shallow embedding of [storage_devices/disk.py] and
    [test_utils/disk_finder.py].  Python objects that are mutated in place
    (the [Disk] instance, the candidate pool, the result list) are threaded
    through a state-and-exception monad; the target machine is reached only
    through the command executor, which is an oracle of the development. *)

From Stdlib Require Import ZArith Ascii Lia.
From Stdlib Require QArith_base.
From stdpp Require Import base decidable option list gmap sets strings pretty.

Local Open Scope Z_scope.
Local Arguments String.append !_ _ / : simpl nomatch.

(** ** Python values used by both modules *)

(** [Output] of the command executor. *)
Record Output := mkOutput {
  exit_code : Z;
  stdout : string;
  stderr : string
}.

(** The exception classes that the two modules raise or meet. *)
Inductive exn :=
| Exception (msg : string)
| LookupError (msg : string)
| KeyError (msg : string)
| ValueError (msg : string)
| IndexError (msg : string)
| TypeError (msg : string)
| RecursionError (msg : string)
| OverflowError (msg : string)
| CmdException (msg : string) (output : Output).

(** [str(e)]. *)
Definition exn_str (e : exn) : string :=
  match e with
  | Exception m | LookupError m | KeyError m | ValueError m
  | IndexError m | TypeError m | RecursionError m | OverflowError m => m
  | CmdException m _ => m
  end.

Inductive result (A : Type) :=
| Ok (a : A)
| Raise (e : exn).
Arguments Ok {A} a.
Arguments Raise {A} e.

(** ** [storage_devices/disk.py]: [DiskType] *)

Inductive DiskType := hdd | hdd4k | sata | nand | optane.

(** The integer value of each member of the [IntEnum]. *)
Definition value (t : DiskType) : Z :=
  match t with
  | hdd => 0
  | hdd4k => 1
  | sata => 2
  | nand => 3
  | optane => 4
  end.

(** [t.name]. *)
Definition name (t : DiskType) : string :=
  match t with
  | hdd => "hdd"
  | hdd4k => "hdd4k"
  | sata => "sata"
  | nand => "nand"
  | optane => "optane"
  end.

(** [[*DiskType]]: the members in definition order. *)
Definition all_DiskType : list DiskType := [hdd; hdd4k; sata; nand; optane].

Global Instance DiskType_eq_dec : EqDecision DiskType.
Proof. solve_decision. Defined.

Definition DiskType_of_value (z : Z) : option DiskType :=
  match z with
  | 0 => Some hdd
  | 1 => Some hdd4k
  | 2 => Some sata
  | 3 => Some nand
  | 4 => Some optane
  | _ => None
  end.

Global Instance DiskType_countable : Countable DiskType.
Proof.
  apply (inj_countable value DiskType_of_value).
  intros []; reflexivity.
Defined.

(** ** The [Disk] object *)

Record Partition := mkPartition {
  part_path : string;
  number : Z
}.

(** The two concrete classes; only a [SataDisk] has a [plug_command]. *)
Inductive DiskClass :=
| NvmeDisk
| SataDisk (plug_command : string).

Record Disk := mkDisk {
  path : option string;
  disk_type : DiskType;
  serial_number : option string;
  block_size : Z;
  partitions : list Partition;
  features : list string;
  class : DiskClass
}.

(** Truth value of an attribute that is [None] or a string. *)
Definition truthy (v : option string) : bool :=
  match v with
  | None => false
  | Some s => negb (bool_decide (s = ""))
  end.

(** ** Type-constraint expressions *)

Inductive DiskTypeSetBase :=
| DiskTypeSet (types_ : gset DiskType)
| DiskTypeLowerThan (disk_name : string).

(** [DiskTypeSet(args)] stores [set(args)]. *)
Definition DiskTypeSet_init (args : list DiskType) : DiskTypeSetBase :=
  DiskTypeSet (list_to_set args).

(** [m] is the least member of [s]. *)
Definition least (s : gset DiskType) (m : DiskType) : Prop :=
  m ∈ s ∧ ∀ x, x ∈ s → value m ≤ value x.

Section TypeConstraints.

(** [TestRun.disks], the registry of the test run. *)
Variable disks : gmap string Disk.

Definition resolved (self : DiskTypeSetBase) : bool :=
  match self with
  | DiskTypeSet _ => true
  | DiskTypeLowerThan disk_name => bool_decide (disk_name ∈ dom disks)
  end.

Definition types (self : DiskTypeSetBase) : result (gset DiskType) :=
  match self with
  | DiskTypeSet s => Ok s
  | DiskTypeLowerThan disk_name =>
      if negb (resolved self) then Raise (LookupError "Disk type not resolved!")
      else match disks !! disk_name with
           | None => Raise (KeyError disk_name)
           | Some d =>
               Ok (list_to_set
                     (filter (λ t, value t < value (disk_type d)) all_DiskType))
           end
  end.

(** One step of [min]: the item [y] replaces the current minimum [m]
    when it compares lower. *)
Definition lower (m y : DiskType) : DiskType :=
  if bool_decide (value y < value m) then y else m.

(** [min(iterable)]: keeps the first item and replaces it by each later
    item that compares lower; an empty iterable is a [ValueError]. *)
Definition py_min (items : list DiskType) : result DiskType :=
  match items with
  | [] => Raise (ValueError "min() arg is an empty sequence")
  | x :: rest => Ok (fold_left lower rest x)
  end.

(** [min(e.types())]; a set is iterated in the order [elements] gives. *)
Definition min_types (e : DiskTypeSetBase) : result DiskType :=
  match types e with
  | Raise err => Raise err
  | Ok s => py_min (elements s)
  end.

(** The two operands are evaluated left to right. *)
Definition on_mins (f : Z → Z → bool) (self other : DiskTypeSetBase) : result bool :=
  match min_types self with
  | Raise err => Raise err
  | Ok a =>
      match min_types other with
      | Raise err => Raise err
      | Ok b => Ok (f (value a) (value b))
      end
  end.

Definition __lt__ := on_mins (λ a b, bool_decide (a < b)).
Definition __le__ := on_mins (λ a b, bool_decide (a ≤ b)).
Definition __eq__ := on_mins (λ a b, bool_decide (a = b)).
Definition __ne__ := on_mins (λ a b, bool_decide (a ≠ b)).
Definition __gt__ := on_mins (λ a b, bool_decide (a > b)).
Definition __ge__ := on_mins (λ a b, bool_decide (a >= b)).

End TypeConstraints.

(** ** Python strings and lists *)

Module Py.

Definition nl : string := String "010"%char "".
Definition dq : string := String "034"%char "".

(** [s.startswith(p)], [sub in s]. *)
Definition startswith (p s : string) : bool := String.prefix p s.

Fixpoint contains (sub s : string) : bool :=
  String.prefix sub s ||
  match s with
  | "" => false
  | String _ s' => contains sub s'
  end.

Definition snoc (s : string) (c : ascii) : string := s +:+ String c "".

(** [s.split(sep)] for a non-empty separator: [skip] counts the
    characters of a separator just matched that are still to be passed. *)
Fixpoint split_go (sep : string) (skip : nat) (cur s : string) : list string :=
  match s with
  | "" => [cur]
  | String c s' =>
      match skip with
      | S k => split_go sep k cur s'
      | O =>
          if String.prefix sep s
          then cur :: split_go sep (String.length sep - 1) "" s'
          else split_go sep 0 (snoc cur c) s'
      end
  end.
Definition split (sep s : string) : list string := split_go sep 0 "" s.

(** Whitespace of [str.split()] and [str.strip()] in the ASCII range. *)
Definition isspace (c : ascii) : bool :=
  let n := nat_of_ascii c in
  ((9 <=? n)%nat && (n <=? 13)%nat) || ((28 <=? n)%nat && (n <=? 32)%nat).

(** [s.split()]: the maximal runs of characters that are not whitespace. *)
Fixpoint words_go (cur s : string) : list string :=
  match s with
  | "" => if bool_decide (cur = "") then [] else [cur]
  | String c s' =>
      if isspace c
      then (if bool_decide (cur = "") then words_go "" s' else cur :: words_go "" s')
      else words_go (snoc cur c) s'
  end.
Definition words (s : string) : list string := words_go "" s.

Fixpoint lstrip (s : string) : string :=
  match s with
  | "" => ""
  | String c s' => if isspace c then lstrip s' else s
  end.
Definition strip (s : string) : string :=
  String.rev (lstrip (String.rev (lstrip s))).

(** Line boundaries of [str.splitlines()] in the ASCII range. *)
Definition islinebreak (c : ascii) : bool :=
  let n := nat_of_ascii c in
  ((10 <=? n)%nat && (n <=? 13)%nat) || ((28 <=? n)%nat && (n <=? 30)%nat).

(** [s.splitlines()]: a carriage return followed by a line feed is one
    boundary, and a final boundary opens no further line. *)
Fixpoint splitlines_go (cur s : string) : list string :=
  match s with
  | "" => if bool_decide (cur = "") then [] else [cur]
  | String c s' =>
      if islinebreak c then
        match s' with
        | String c' s'' =>
            if bool_decide (c = "013"%char) && bool_decide (c' = "010"%char)
            then cur :: splitlines_tail s''
            else cur :: splitlines_tail s'
        | "" => [cur]
        end
      else splitlines_go (snoc cur c) s'
  end
with splitlines_tail (s : string) : list string :=
  match s with
  | "" => []
  | String c s' =>
      if islinebreak c then
        match s' with
        | String c' s'' =>
            if bool_decide (c = "013"%char) && bool_decide (c' = "010"%char)
            then "" :: splitlines_tail s''
            else "" :: splitlines_tail s'
        | "" => [""]
        end
      else splitlines_go (String c "") s'
  end.
Definition splitlines (s : string) : list string := splitlines_tail s.

(** [s.replace(old, new)] for a non-empty [old]. *)
Fixpoint replace_go (old new : string) (skip : nat) (s : string) : string :=
  match s with
  | "" => ""
  | String c s' =>
      match skip with
      | S k => replace_go old new k s'
      | O =>
          if String.prefix old s
          then new +:+ replace_go old new (String.length old - 1) s'
          else String c (replace_go old new 0 s')
      end
  end.
Definition replace (old new s : string) : string := replace_go old new 0 s.

(** [sep.join(items)]. *)
Fixpoint join (sep : string) (items : list string) : string :=
  match items with
  | [] => ""
  | [x] => x
  | x :: rest => x +:+ sep +:+ join sep rest
  end.

(** [os.path.join(a, b)] on a POSIX host. *)
Definition path_join (a b : string) : string :=
  if startswith "/" b then b
  else if bool_decide (a = "") || startswith "/" (String.rev a) then a +:+ b
  else a +:+ "/" +:+ b.

(** [itertools.takewhile]. *)
Fixpoint takewhile {A} (p : A → bool) (l : list A) : list A :=
  match l with
  | [] => []
  | x :: r => if p x then x :: takewhile p r else []
  end.

Definition isdigit (c : ascii) : bool :=
  let n := nat_of_ascii c in (48 <=? n)%nat && (n <=? 57)%nat.

Definition digit_value (c : ascii) : Z := Z.of_nat (nat_of_ascii c) - 48.

(** The digits at the head of a string and what follows them. *)
Fixpoint span_digits (s : string) : string * string :=
  match s with
  | "" => ("", "")
  | String c s' =>
      if isdigit c
      then let '(d, r) := span_digits s' in (String c d, r)
      else ("", s)
  end.

Fixpoint digits_value (acc : Z) (s : string) : Z :=
  match s with
  | "" => acc
  | String c s' => digits_value (10 * acc + digit_value c) s'
  end.

Fixpoint all_digits (s : string) : bool :=
  match s with
  | "" => true
  | String c s' => isdigit c && all_digits s'
  end.

(** The digits of the body of a decimal literal: at least one digit, and
    single underscores only between two digits.  [after_digit] tells
    whether the character before was a digit. *)
Fixpoint literal_digits (after_digit : bool) (s : string) : option string :=
  match s with
  | "" => if after_digit then Some "" else None
  | String c r =>
      if isdigit c then String c <$> literal_digits true r
      else if bool_decide (c = "_"%char) && after_digit then
        match r with
        | String d _ => if isdigit d then literal_digits false r else None
        | "" => None
        end
      else None
  end.

Definition backslash : ascii := "092"%char.
Definition apostrophe : ascii := "039"%char.

Definition hex (n : nat) : ascii :=
  ascii_of_nat (if (n <? 10)%nat then 48 + n else 87 + n).

(** One character of [repr(s)] between the quotes [q], for a text in the
    ASCII range. *)
Definition repr_char (q c : ascii) : string :=
  let n := nat_of_ascii c in
  if bool_decide (c = backslash) then String backslash (String backslash "")
  else if bool_decide (c = q) then String backslash (String c "")
  else if bool_decide (n = 9%nat) then String backslash "t"
  else if bool_decide (n = 10%nat) then String backslash "n"
  else if bool_decide (n = 13%nat) then String backslash "r"
  else if (n <? 32)%nat || bool_decide (n = 127%nat)
       then String backslash (String "x" (String (hex (n / 16)) (String (hex (n mod 16)) "")))
  else String c "".

Fixpoint repr_body (q : ascii) (s : string) : string :=
  match s with
  | "" => ""
  | String c r => repr_char q c +:+ repr_body q r
  end.

(** [repr(s)]: single quotes, unless the text has a single quote and no
    double quote. *)
Definition repr (s : string) : string :=
  let q := if contains (String apostrophe "") s && negb (contains dq s)
           then "034"%char else apostrophe in
  String q "" +:+ repr_body q s +:+ String q "".

(** [int(s)] for a text: surrounding whitespace and one sign are
    accepted around a decimal literal; anything else is a [ValueError]. *)
Definition int_of_str (s : string) : result Z :=
  let t := strip s in
  let '(neg, body) :=
    match t with
    | String "-" r => (true, r)
    | String "+" r => (false, r)
    | _ => (false, t)
    end in
  match literal_digits false body with
  | Some digits => Ok (if neg then - digits_value 0 digits else digits_value 0 digits)
  | None => Raise (ValueError ("invalid literal for int() with base 10: " +:+ repr s))
  end.

(** A value that [int()] is applied to.  The block size that
    [disk_utils.get_block_size] returns is such a value: the helper is in
    another module, and the code neither fixes nor checks its type.  A
    finite float is given by the fraction it is equal to. *)
Inductive scalar :=
| Int (n : Z)
| Float (q : QArith_base.Q)
| Inf (negative : bool)
| NaN
| Str (s : string).

(** [int(v)]: a float is truncated towards zero. *)
Definition int (v : scalar) : result Z :=
  match v with
  | Int n => Ok n
  | Float q => Ok (Z.quot (QArith_base.Qnum q) (Z.pos (QArith_base.Qden q)))
  | Inf _ => Raise (OverflowError "cannot convert float infinity to integer")
  | NaN => Raise (ValueError "cannot convert float NaN to integer")
  | Str s => int_of_str s
  end.


(** [l[i]], with negative indices counted from the end. *)
Definition index {A} (l : list A) (i : Z) : result A :=
  let n := Z.of_nat (length l) in
  let j := if bool_decide (i < 0) then i + n else i in
  if bool_decide (0 ≤ j < n)
  then match l !! Z.to_nat j with
       | Some x => Ok x
       | None => Raise (IndexError "list index out of range")
       end
  else Raise (IndexError "list index out of range").

(** [l.remove(x)]: the first occurrence goes; [None] stands for the
    [ValueError] of an absent item. *)
Fixpoint remove (x : string) (l : list string) : option (list string) :=
  match l with
  | [] => None
  | y :: r => if bool_decide (x = y) then Some r else cons y <$> remove x r
  end.

(** The pool after the devices [devs] have left it, one after the
    other. *)
Fixpoint remove_each (devs pool : list string) : option (list string) :=
  match devs with
  | [] => Some pool
  | d :: ds =>
      match remove d pool with
      | Some rest => remove_each ds rest
      | None => None
      end
  end.

End Py.

(** ** State and exceptions *)

(** A computation over a mutable state [S]: it returns a value or raises,
    and the state it leaves is kept in both cases. *)
Definition M (S A : Type) : Type := S → result A * S.

Definition ret {S A} (a : A) : M S A := λ s, (Ok a, s).

Definition raise {S A} (e : exn) : M S A := λ s, (Raise e, s).

Definition bind {S A B} (m : M S A) (k : A → M S B) : M S B :=
  λ s, match m s with
       | (Ok a, s') => k a s'
       | (Raise e, s') => (Raise e, s')
       end.

(** [try: m / except ... as e: handler(e)]; a handler that does not
    catch [e] raises it again. *)
Definition try_except {S A} (m : M S A) (handler : exn → M S A) : M S A :=
  λ s, match m s with
       | (Ok a, s') => (Ok a, s')
       | (Raise e, s') => handler e s'
       end.

Definition of_result {S A} (r : result A) : M S A := λ s, (r, s).

Notation "'let*' x ':=' m 'in' k" := (bind m (fun x => k))
  (at level 10, x pattern, m at level 100, k at level 200).

(** [for x in items: acc = body(acc, x)]. *)
Fixpoint for_each {S A B} (items : list A) (acc : B) (body : B → A → M S B) : M S B :=
  match items with
  | [] => ret acc
  | x :: rest => let* acc' := body acc x in for_each rest acc' body
  end.

(** ** The target machine *)

(** What is known of the machine under test: its own state, which only
    the executor reads and changes, and the commands sent to it so far. *)
Record Target (W : Type) := mkTarget {
  machine : W;
  issued : list string
}.
Arguments mkTarget {W} machine issued.
Arguments machine {W} t.
Arguments issued {W} t.

(** An entry of [fs_utils.parse_ls_output]. *)
Record FsItem := mkFsItem {
  full_path : string
}.

(** The collaborators of the two modules whose code is in other modules
    of the framework: the executor behind [TestRun.executor], and the
    helpers of [fs_utils], [disk_utils], [os_utils] and [Device]. *)
Class Platform := {
  World : Type;
  (** [TestRun.executor.run(cmd)] *)
  executor : string → World → Output * World;
  (** the message of the [CmdException] of a failed command *)
  failure_message : string → Output → string;
  (** [fs_utils] *)
  readlink : string → M (Target World) string;
  check_if_file_exists : string → M (Target World) bool;
  ls_item : string → M (Target World) string;
  parse_ls_output : string → M (Target World) (list (option FsItem));
  (** [disk_utils] *)
  get_block_size : string → M (Target World) Py.scalar;
  get_size : string → M (Target World) Z;
  get_partition_path : string → Z → M (Target World) string;
  (** [os_utils] *)
  get_sys_block_path : M (Target World) string;
  (** [Device.get_device_id], which reads the device's path *)
  get_device_id : option string → M (Target World) string;
  (** the interpreter's limit on nested calls *)
  recursion_limit : nat
}.

(** ** [test_utils/disk_finder.py] *)

(** A record of [devices_result]. *)
Record DiskRecord := mkDiskRecord {
  rec_type : string;
  rec_path : string;
  rec_serial : string;
  rec_blocksize : Py.scalar;
  rec_size : Z
}.

Section DiskFinder.
Context `{Platform}.

Definition run (cmd : string) : M (Target World) Output :=
  λ t, let '(out, w) := executor cmd (machine t) in
       (Ok out, mkTarget w (issued t ++ [cmd])).

(** Modelled from the spec: [TestRun.executor.run_expect_success], the
    variant of [run] that raises on a nonzero exit code; the exception
    carries the output, which [__get_slaves] reads. *)
Definition run_expect_success (cmd : string) : M (Target World) Output :=
  let* out := run cmd in
  if bool_decide (exit_code out = 0) then ret out
  else raise (CmdException (failure_message cmd out) out).

Definition resolve_to_by_id_link (path : string) : M (Target World) string :=
  let* out := run_expect_success "ls /dev/disk/by-id -1" in
  let by_id_paths := Py.splitlines (stdout out) in
  let dev_full_paths := Py.path_join "/dev/disk/by-id" <$> by_id_paths in
  let* found :=
    for_each dev_full_paths None (λ found full_path,
      match found with
      | Some _ => ret found
      | None =>
          let* a := readlink full_path in
          let* b := readlink (Py.path_join "/dev" path) in
          ret (if bool_decide (a = b) then Some full_path else None)
      end) in
  match found with
  | Some full_path => ret full_path
  | None => raise (ValueError ("By-id device link not found for device " +:+ path))
  end.

(** [__get_slaves]; [depth] is the number of nested calls still allowed. *)
Fixpoint __get_slaves (depth : nat) (device_name : string)
  : M (Target World) (option (list string)) :=
  match depth with
  | O => raise (RecursionError "maximum recursion depth exceeded")
  | S depth' =>
      let* listing :=
        try_except
          (let* sys_block_path := get_sys_block_path in
           let* out := run_expect_success
                         ("ls " +:+ sys_block_path +:+ "/" +:+ device_name +:+ "/slaves") in
           ret (Some (Py.splitlines (stdout out))))
          (λ e, match e with
                | CmdException _ output =>
                    if negb (Py.contains "No such file or directory" (stderr output))
                    then raise e
                    else ret None
                | _ => raise e
                end) in
      match listing with
      | None => ret None
      | Some device_names =>
          let* device_list :=
            for_each device_names [] (λ device_list device_name,
              let* slaves := __get_slaves depth' device_name in
              match slaves with
              | Some ((_ :: _) as slaves) => ret (device_list ++ slaves)
              | _ => ret (device_list ++ [device_name])
              end) in
          ret (Some device_list)
      end
  end.

Definition get_system_disks : M (Target World) (list string) :=
  let* out := run_expect_success ("mount | grep " +:+ Py.dq +:+ " / " +:+ Py.dq) in
  let* system_device := of_result (Py.index (Py.words (stdout out)) 0) in
  let* readlink_output := readlink system_device in
  let* device_name := of_result (Py.index (Py.split "/" readlink_output) (-1)) in
  let* sys_block_path := get_sys_block_path in
  let* slaves := __get_slaves recursion_limit device_name in
  let used_device_names :=
    match slaves with
    | Some ((_ :: _) as l) => l
    | _ => [device_name]
    end in
  for_each used_device_names [] (λ disk_names device_name,
    let* is_partition :=
      check_if_file_exists (sys_block_path +:+ "/" +:+ device_name +:+ "/partition") in
    if is_partition then
      let* parent := readlink (sys_block_path +:+ "/" +:+ device_name +:+ "/..") in
      let* parent_device := of_result (Py.index (Py.split "/" parent) (-1)) in
      ret (disk_names ++ [parent_device])
    else ret (disk_names ++ [device_name])).

(** The names of [ls /sys/block] that are candidates, given the disks of
    the running system. *)
Definition is_candidate (os_disks : list string) (dev : string) : bool :=
  (Py.contains "sd" dev || Py.contains "nvme" dev) && negb (bool_decide (dev ∈ os_disks)).

Definition get_block_devices_list : M (Target World) (list string) :=
  let* out := run_expect_success "ls /sys/block -1" in
  let devices := Py.splitlines (stdout out) in
  let* os_disks := get_system_disks in
  for_each devices [] (λ block_devices dev,
    if is_candidate os_disks dev then
      let* dev := resolve_to_by_id_link dev in
      ret (block_devices ++ [dev])
    else ret block_devices).

(** What the HDD pass appends for one device of the pool.  The record
    keeps the block size as it was measured; only the test converts it. *)
Definition hdd_record (dev : string) : M (Target World) DiskRecord :=
  let* target := readlink dev in
  let* block_size := get_block_size (Py.replace "/dev/" "" target) in
  let* as_int := of_result (Py.int block_size) in
  let disk_type := if bool_decide (as_int = 4096) then "hdd4k" else "hdd" in
  let* out := run_expect_success ("sg_inq " +:+ dev +:+ " | grep 'Unit serial number'") in
  let* serial := of_result (Py.index (Py.split ": " (stdout out)) 1) in
  let* target := readlink dev in
  let* size := get_size (Py.replace "/dev/" "" target) in
  ret (mkDiskRecord disk_type dev (Py.strip serial) block_size size).

(** Both lists are changed in place; they are returned as a pair. *)
Definition discover_hdd_devices (block_devices : list string) (devices_res : list DiskRecord)
  : M (Target World) (list string * list DiskRecord) :=
  let* devices_res :=
    for_each block_devices devices_res (λ devices_res dev,
      let* r := hdd_record dev in
      ret (devices_res ++ [r])) in
  ret ([], devices_res).

Definition find_sata_ssd_device_path (serial_number : string) (block_devices : list string)
  : M (Target World) (option string) :=
  for_each block_devices None (λ found dev,
    match found with
    | Some _ => ret found
    | None =>
        let* out := run_expect_success ("sg_inq " +:+ dev +:+ " | grep '[Ss]erial number'") in
        let* field := of_result (Py.index (Py.split ": " (stdout out)) 1) in
        ret (if bool_decide (Py.strip field = serial_number) then Some dev else None)
    end).

Definition isdct_show (i : nat) (pattern : string) : string :=
  "isdct show -intelssd " +:+ pretty i +:+ " | grep " +:+ pattern.

(** One turn of the loop of [discover_ssd_devices] for the vendor tool's
    entry [i]: [None] when the turn ends in [continue], else the device
    taken from the pool and the record appended. *)
Definition ssd_entry (i : nat) (block_devices : list string)
  : M (Target World) (option (string * DiskRecord)) :=
  let* out := run_expect_success (isdct_show i "DevicePath") in
  let* device_path := of_result (Py.index (Py.words (stdout out)) 2) in
  let* dev := resolve_to_by_id_link device_path in
  if negb (bool_decide (dev ∈ block_devices)) then ret None
  else
    let* out := run_expect_success (isdct_show i "SerialNumber") in
    let* field := of_result (Py.index (Py.words (stdout out)) 2) in
    let serial_number := Py.strip field in
    let* classified :=
      if negb (Py.contains "nvme" device_path) then
        let* found := find_sata_ssd_device_path serial_number block_devices in
        match found with
        | None => ret None
        | Some dev =>
            ret (Some ("sata", dev,
                       if Py.contains "sg" device_path then dev else device_path))
        end
      else
        let* out := run (isdct_show i "Optane") in
        if bool_decide (exit_code out = 0)
        then ret (Some ("optane", dev, device_path))
        else ret (Some ("nand", dev, device_path)) in
    match classified with
    | None => ret None
    | Some (disk_type, dev, device_path) =>
        let* path := resolve_to_by_id_link device_path in
        let* target := readlink dev in
        let* block_size := get_block_size (Py.replace "/dev/" "" target) in
        let* target := readlink dev in
        let* size := get_size (Py.replace "/dev/" "" target) in
        ret (Some (dev, mkDiskRecord disk_type path serial_number block_size size))
    end.

(** One turn of the loop on the two lists: a record is appended and its
    device leaves the pool, or both lists stay as they are. *)
Definition ssd_turn (lists : list string * list DiskRecord) (i : nat)
  : M (Target World) (list string * list DiskRecord) :=
  let* entry := ssd_entry i (fst lists) in
  match entry with
  | None => ret lists
  | Some (dev, r) =>
      match Py.remove dev (fst lists) with
      | Some rest => ret (rest, snd lists ++ [r])
      | None => raise (ValueError "list.remove(x): x not in list")
      end
  end.

Definition discover_ssd_devices (block_devices : list string) (devices_res : list DiskRecord)
  : M (Target World) (list string * list DiskRecord) :=
  let* out := run_expect_success "isdct show -intelssd | grep DevicePath | wc -l" in
  let* ssd_count := of_result (Py.int_of_str (stdout out)) in
  for_each (seq 0 (Z.to_nat ssd_count)) (block_devices, devices_res) ssd_turn.

Definition find_disks : M (Target World) (list DiskRecord) :=
  let* output := run "isdct" in
  if negb (bool_decide (exit_code output = 0)) then
    raise (Exception ("Error while executing command: 'isdct'." +:+ Py.nl +:+
                      "stdout: " +:+ stdout output +:+ Py.nl +:+
                      "stderr: " +:+ stderr output))
  else
    let* block_devices := get_block_devices_list in
    let* (_, devices_result) :=
      try_except
        (let* (block_devices, devices_result) := discover_ssd_devices block_devices [] in
         discover_hdd_devices block_devices devices_result)
        (λ e, raise (Exception ("Exception occurred while looking for disks: " +:+ exn_str e))) in
    ret devices_result.

Definition get_disk_serial_number (dev_path : string) : M (Target World) (option string) :=
  let commands := [
    "udevadm info --query=all --name=" +:+ dev_path +:+ " | grep 'SCSI.*_SERIAL' || " +:+
    "udevadm info --query=all --name=" +:+ dev_path +:+ " | grep 'ID_SERIAL_SHORT' | " +:+
    "awk --field-separator '=' '{print $NF}'";
    "sg_inq " +:+ dev_path +:+ " 2> /dev/null | grep '[Ss]erial number:' | " +:+
    "awk '{print $NF}'";
    "udevadm info --query=all --name=" +:+ dev_path +:+ " | grep 'ID_SERIAL' | " +:+
    "awk --field-separator '=' '{print $NF}'"
  ] in
  for_each commands None (λ found command,
    match found with
    | Some _ => ret found
    | None =>
        let* out := run command in
        ret (if negb (bool_decide (stdout out = "")) then Some (stdout out) else None)
    end).

Definition get_all_serial_numbers : M (Target World) (gmap string string) :=
  let* block_devices := get_block_devices_list in
  for_each block_devices ∅ (λ serial_numbers dev,
    let* serial := get_disk_serial_number dev in
    match serial with
    | Some serial => ret (<[serial := dev]> serial_numbers)
    | None => ret (<[dev := dev]> serial_numbers)
    end).

(** The types that the SSD pass gives. *)
Definition ssd_types : list string := ["sata"; "optane"; "nand"].

(** A vendor-tool entry that the pass kept: its index, the device taken
    from the pool and the record appended. *)
Definition Entry : Type := nat * (string * DiskRecord).



(** The HDD pass, device by device, from the target [t] to [t']. *)
Inductive hdd_pass : list string → Target World → list DiskRecord → Target World → Prop :=
| hdd_pass_done t : hdd_pass [] t [] t
| hdd_pass_next dev pool t r t1 recs t' :
    hdd_record dev t = (Ok r, t1) →
    hdd_pass pool t1 recs t' →
    hdd_pass (dev :: pool) t (r :: recs) t'.


End DiskFinder.

(** ** [storage_devices/disk.py]: the [Disk] classes *)

(** The [Disk] instance a method runs on, next to the target machine. *)
Record Harness (W : Type) := mkHarness {
  self : Disk;
  target : Target W
}.
Arguments mkHarness {W} self target.
Arguments self {W} h.
Arguments target {W} h.

Definition Nvme_plug_all_command : string := "echo 1 > /sys/bus/pci/rescan".

Definition Sata_plug_all_command : string :=
  "for i in $(find -H /sys/devices/ -path '*/scsi_host/*/scan' -type f); " +:+
  "do echo '- - -' > $i; done;".

(** [Disk.create_disk]; the constructor of [SataDisk] sets [plug_command]
    to the rescan of every host. *)
Definition create_disk (path : option string) (disk_type : DiskType)
    (serial_number : option string) (block_size : Z) (features : list string) : Disk :=
  if bool_decide (disk_type = nand) || bool_decide (disk_type = optane)
  then mkDisk path disk_type serial_number block_size [] features NvmeDisk
  else mkDisk path disk_type serial_number block_size [] features
         (SataDisk Sata_plug_all_command).

Definition timedelta_minutes (m : nat) : nat := 60 * m.
Definition timedelta_seconds (s : nat) : nat := s.

(** [n] evaluations of the predicate at most, stopping at the first that
    holds. *)
Fixpoint poll {S} (n : nat) (predicate : M S bool) : M S bool :=
  match n with
  | O => ret false
  | S n' =>
      let* r := predicate in
      if r then ret true else poll n' predicate
  end.

(** Modelled from the spec: [os_utils.wait(predicate, timeout, interval)],
    which polls the predicate once per [interval] until it holds or
    [timeout] has passed, and returns whether it held.  Both durations are
    in seconds, and time passes only between two polls, so that the
    predicate is evaluated [timeout / interval] times at most. *)
Definition wait {S} (predicate : M S bool) (timeout interval : nat) : M S bool :=
  poll (timeout / interval)%nat predicate.

(** The match of
    [^(?P<controller>\d+)[-:](?P<port>\d+)[-:](?P<target>\d+)[-:](?P<lun>\d+)$];
    the final anchor also holds before a line feed that ends the string. *)
Definition is_address_separator (c : ascii) : bool :=
  bool_decide (c = "-"%char) || bool_decide (c = ":"%char).

Definition scsi_address_search (s : string) : option (string * string * string * string) :=
  let '(controller, r) := Py.span_digits s in
  match r with
  | String c1 r =>
      let '(port, r) := Py.span_digits r in
      match r with
      | String c2 r =>
          let '(tgt, r) := Py.span_digits r in
          match r with
          | String c3 r =>
              let '(lun, r) := Py.span_digits r in
              if is_address_separator c1 && is_address_separator c2 &&
                 is_address_separator c3 &&
                 negb (bool_decide (controller = "")) && negb (bool_decide (port = "")) &&
                 negb (bool_decide (tgt = "")) && negb (bool_decide (lun = "")) &&
                 (bool_decide (r = "") || bool_decide (r = Py.nl))
              then Some (controller, port, tgt, lun)
              else None
          | "" => None
          end
      | "" => None
      end
  | "" => None
  end.

(** A non-empty run of digits. *)
Definition is_number (s : string) : Prop := s ≠ "" ∧ Py.all_digits s = true.

(** The SCSI address [controller:port:target:lun]: four numbers with a
    dash or a colon between them, and at most a line feed after them. *)
Definition address_tuple (s controller port tgt lun : string) : Prop :=
  ∃ c1 c2 c3 tail,
    s = controller +:+ String c1 (port +:+ String c2 (tgt +:+ String c3 (lun +:+ tail))) ∧
    is_address_separator c1 = true ∧ is_address_separator c2 = true ∧
    is_address_separator c3 = true ∧
    is_number controller ∧ is_number port ∧ is_number tgt ∧ is_number lun ∧
    (tail = "" ∨ tail = Py.nl).

(** The scan command that [get_sysfs_properties] builds. *)
Definition scan_command (host_path controller_id port_id target_id lun : string) : string :=
  "echo '" +:+ port_id +:+ " " +:+ target_id +:+ " " +:+ lun +:+ "' > " +:+
  host_path +:+ "/host" +:+ controller_id +:+ "/scsi_host/host" +:+ controller_id +:+ "/scan".

(** The text of the exception of a transition that timed out. *)
Definition timeout_message (visible : bool) : string :=
  "Timeout occurred while trying to " +:+ (if visible then "plug" else "unplug") +:+ " disk.".

Section DiskMethods.
Context `{Platform}.

Definition on_target {A} (m : M (Target World) A) : M (Harness World) A :=
  λ h, let '(r, t) := m (target h) in (r, mkHarness (self h) t).

Definition get_self : M (Harness World) Disk := λ h, (Ok (self h), h).

Definition set_self (d : Disk) : M (Harness World) unit :=
  λ h, (Ok tt, mkHarness d (target h)).

Definition set_path (p : option string) : M (Harness World) unit :=
  let* d := get_self in
  set_self (mkDisk p (disk_type d) (serial_number d) (block_size d)
                   (partitions d) (features d) (class d)).

Definition set_partitions (ps : list Partition) : M (Harness World) unit :=
  let* d := get_self in
  set_self (mkDisk (path d) (disk_type d) (serial_number d) (block_size d)
                   ps (features d) (class d)).

Definition set_plug_command (cmd : string) : M (Harness World) unit :=
  let* d := get_self in
  set_self (mkDisk (path d) (disk_type d) (serial_number d) (block_size d)
                   (partitions d) (features d) (SataDisk cmd)).

(** [part.path = get_partition_path(part.parent_device.path, part.number)]
    for the partition at position [i]; the parent device of a partition
    of the disk is the disk. *)
Definition refresh_partition (parent_path : string) (i : nat) : M (Harness World) unit :=
  let* d := get_self in
  match partitions d !! i with
  | None => ret tt
  | Some part =>
      let* p := on_target (get_partition_path parent_path (number part)) in
      set_partitions (<[i := mkPartition p (number part)]> (partitions d))
  end.

Definition is_detected : M (Harness World) bool :=
  let* d := get_self in
  if truthy (serial_number d) then
    let* serial_numbers := on_target get_all_serial_numbers in
    match serial_numbers !! default "" (serial_number d) with
    | None => ret false
    | Some p =>
        let* _ := set_path (Some p) in
        let* _ := for_each (seq 0 (length (partitions d))) tt
                    (λ _ i, refresh_partition p i) in
        ret true
    end
  else if truthy (path d) then
    let* output := on_target (ls_item (default "" (path d))) in
    let* items := on_target (parse_ls_output output) in
    let* first := of_result (Py.index items 0) in
    ret (bool_decide (is_Some first))
  else raise (Exception "Couldn't check if device is detected by the system").

Definition wait_for_plug_status (should_be_visible : bool) : M (Harness World) unit :=
  let* held :=
    wait (let* detected := is_detected in
          ret (bool_decide (should_be_visible = detected)))
         (timedelta_minutes 1) (timedelta_seconds 1) in
  if negb held then
    raise (Exception ("Timeout occurred while trying to " +:+
                      (if should_be_visible then "plug" else "unplug") +:+ " disk."))
  else ret tt.

Definition get_sysfs_properties (device_id : string) : M (Harness World) FsItem :=
  let ls_command := "$(find -H /sys/devices/ -name " +:+ device_id +:+ " -type d)" in
  let* output := on_target (ls_item ls_command) in
  let* items := on_target (parse_ls_output output) in
  let* first := of_result (Py.index items 0) in
  match first with
  | None => raise (Exception ("Failed to find sysfs address: ls -l " +:+ ls_command))
  | Some sysfs_addr =>
      let dirs := Py.split "/" (full_path sysfs_addr) in
      let* scsi_address := of_result (Py.index dirs (-3)) in
      match scsi_address_search scsi_address with
      | None => raise (TypeError "'NoneType' object is not subscriptable")
      | Some (controller_id, port_id, target_id, lun) =>
          let host_path :=
            Py.join "/" (Py.takewhile (λ x, negb (Py.startswith "host" x)) dirs) in
          let* _ := set_plug_command
                      (scan_command host_path controller_id port_id target_id lun) in
          ret sysfs_addr
      end
  end.

Definition execute_plug_command : M (Harness World) unit :=
  let* d := get_self in
  match class d with
  | NvmeDisk =>
      let* _ := on_target (run_expect_success Nvme_plug_all_command) in ret tt
  | SataDisk plug_command =>
      let* _ := on_target (run_expect_success plug_command) in ret tt
  end.

Definition execute_unplug_command : M (Harness World) unit :=
  let* d := get_self in
  match class d with
  | NvmeDisk =>
      let* device_id := on_target (get_device_id (path d)) in
      let* out := on_target (run ("echo 1 > /sys/block/" +:+ device_id +:+ "/device/remove")) in
      if negb (bool_decide (exit_code out = 0)) then
        let* device_id := on_target (get_device_id (path d)) in
        let* output :=
          on_target (run ("echo 1 > /sys/block/" +:+ device_id +:+ "/device/device/remove")) in
        if negb (bool_decide (exit_code output = 0))
        then raise (CmdException "Failed to unplug PCI disk using sysfs." output)
        else ret tt
      else ret tt
  | SataDisk _ =>
      let* device_id := on_target (get_device_id (path d)) in
      let* sysfs_addr := get_sysfs_properties device_id in
      let* _ := on_target (run_expect_success
                  ("echo 1 > " +:+ full_path sysfs_addr +:+ "/device/delete")) in
      ret tt
  end.

Definition plug : M (Harness World) unit :=
  let* detected := is_detected in
  if detected then ret tt
  else
    let* _ := execute_plug_command in
    wait_for_plug_status true.

Definition unplug : M (Harness World) unit :=
  let* detected := is_detected in
  if negb detected then ret tt
  else
    let* _ := execute_unplug_command in
    wait_for_plug_status false.

(** A computation that leaves the class of the disk, and so its plug
    command, as it was. *)
Definition keeps_class {A} (m : M (Harness World) A) : Prop :=
  ∀ h r h', m h = (r, h') → class (self h') = class (self h).

(** The state [h1] in which a SATA disk was found attached and the state
    [h'] that its [unplug] left: the sysfs address was resolved, the SCSI
    address read in it, the device deleted, and the scan command for the
    address is the plug command of the disk. *)
Definition scan_command_cached (h1 h' : Harness World) : Prop :=
  ∃ device_id sysfs_addr scsi_address controller port tgt lun,
    (∃ ta tb, get_device_id (path (self h1)) ta = (Ok device_id, tb)) ∧
    (∃ ta output tb tc items,
       ls_item ("$(find -H /sys/devices/ -name " +:+ device_id +:+ " -type d)") ta
         = (Ok output, tb) ∧
       parse_ls_output output tb = (Ok items, tc) ∧
       Py.index items 0 = Ok (Some sysfs_addr)) ∧
    Py.index (Py.split "/" (full_path sysfs_addr)) (-3) = Ok scsi_address ∧
    scsi_address_search scsi_address = Some (controller, port, tgt, lun) ∧
    address_tuple scsi_address controller port tgt lun ∧
    (∃ ta out tb,
       run_expect_success ("echo 1 > " +:+ full_path sysfs_addr +:+ "/device/delete") ta
         = (Ok out, tb) ∧
       issued tb = issued ta ++ ["echo 1 > " +:+ full_path sysfs_addr +:+ "/device/delete"]) ∧
    let host_path :=
      Py.join "/" (Py.takewhile (λ x, negb (Py.startswith "host" x))
                                (Py.split "/" (full_path sysfs_addr))) in
    let cached := scan_command host_path controller port tgt lun in
    cached = "echo '" +:+ port +:+ " " +:+ tgt +:+ " " +:+ lun +:+ "' > " +:+ host_path +:+
             "/host" +:+ controller +:+ "/scsi_host/host" +:+ controller +:+ "/scan" ∧
    class (self h') = SataDisk cached ∧
    cached ≠ Sata_plug_all_command ∧
    ∀ g g1 : Harness World,
      class (self g) = class (self h') →
      is_detected g = (Ok false, g1) →
      ∀ out w, executor cached (machine (target g1)) = (out, w) →
        let g2 := mkHarness (self g1) (mkTarget w (issued (target g1) ++ [cached])) in
        plug g = if bool_decide (exit_code out = 0)
                 then wait_for_plug_status true g2
                 else (Raise (CmdException (failure_message cached out) out), g2).

End DiskMethods.

(** ** Serialization of type-constraint expressions *)

(** The values that [json.dumps] is given here. *)
Local Unset Elimination Schemes.
Inductive JSON :=
| JStr (s : string)
| JList (items : list JSON)
| JDict (fields : list (string * JSON)).
Local Set Elimination Schemes.

Module Json.

Definition hex_digit (n : nat) : ascii :=
  if (n <? 10)%nat then ascii_of_nat (48 + n) else ascii_of_nat (87 + n).

(** A character inside a string literal, as [json.dumps] writes it with
    its default [ensure_ascii]. *)
Definition escape_char (c : ascii) : string :=
  let n := nat_of_ascii c in
  if bool_decide (n = 34)%nat then "\" +:+ Py.dq
  else if bool_decide (n = 92)%nat then "\\"
  else if bool_decide (n = 10)%nat then "\n"
  else if bool_decide (n = 13)%nat then "\r"
  else if bool_decide (n = 9)%nat then "\t"
  else if bool_decide (n = 8)%nat then "\b"
  else if bool_decide (n = 12)%nat then "\f"
  else if (n <? 32)%nat || (126 <? n)%nat
       then "\u00" +:+ String (hex_digit (n / 16)) (String (hex_digit (n mod 16)) "")
       else String c "".

Fixpoint escape (s : string) : string :=
  match s with
  | "" => ""
  | String c s' => escape_char c +:+ escape s'
  end.

Definition quote (s : string) : string := Py.dq +:+ escape s +:+ Py.dq.

(** [json.dumps(v)] with the default separators. *)
Fixpoint dumps (v : JSON) : string :=
  match v with
  | JStr s => quote s
  | JList items => "[" +:+ Py.join ", " (List.map dumps items) +:+ "]"
  | JDict fields =>
      "{" +:+ Py.join ", " (List.map (λ kv, quote (fst kv) +:+ ": " +:+ dumps (snd kv)) fields)
          +:+ "}"
  end.

(** *** Reading a serialized value back

    The reader of the reports: a decoder for the texts that [dumps]
    writes (string literals with two-character escapes and with [\u]
    escapes of the characters below 256, lists and dictionaries, with
    optional blanks between tokens). *)

Definition is_blank (c : ascii) : bool :=
  let n := nat_of_ascii c in
  bool_decide (n = 32)%nat || bool_decide (n = 9)%nat ||
  bool_decide (n = 10)%nat || bool_decide (n = 13)%nat.

Fixpoint skip_blanks (s : string) : string :=
  match s with
  | "" => ""
  | String c s' => if is_blank c then skip_blanks s' else s
  end.

(** The character that a backslash followed by [c] stands for. *)
Definition unescape_char (c : ascii) : option ascii :=
  let n := nat_of_ascii c in
  if bool_decide (n = 34)%nat then Some c
  else if bool_decide (n = 92)%nat then Some c
  else if bool_decide (n = 47)%nat then Some c
  else if bool_decide (c = "n"%char) then Some "010"%char
  else if bool_decide (c = "r"%char) then Some "013"%char
  else if bool_decide (c = "t"%char) then Some "009"%char
  else if bool_decide (c = "b"%char) then Some "008"%char
  else if bool_decide (c = "f"%char) then Some "012"%char
  else None.

(** The value of a hexadecimal digit. *)
Definition hex_value (c : ascii) : option nat :=
  let n := nat_of_ascii c in
  if (48 <=? n)%nat && (n <=? 57)%nat then Some (n - 48)%nat
  else if (97 <=? n)%nat && (n <=? 102)%nat then Some (n - 87)%nat
  else if (65 <=? n)%nat && (n <=? 70)%nat then Some (n - 55)%nat
  else None.

(** The character that [\u] followed by the four digits stands for, when
    it is below 256. *)
Definition unicode_char (a b c d : ascii) : option ascii :=
  match hex_value a, hex_value b, hex_value c, hex_value d with
  | Some O, Some O, Some x, Some y => Some (ascii_of_nat (16 * x + y))
  | _, _, _, _ => None
  end.

Definition push (c : ascii) (r : option (string * string)) : option (string * string) :=
  match r with
  | Some (x, rest) => Some (String c x, rest)
  | None => None
  end.

(** The text of a string literal after its opening quote, and what
    follows its closing quote. *)
Fixpoint string_body (s : string) : option (string * string) :=
  match s with
  | "" => None
  | String c s' =>
      if bool_decide (nat_of_ascii c = 34)%nat then Some ("", s')
      else if bool_decide (nat_of_ascii c = 92)%nat then
        match s' with
        | String "u" (String h1 (String h2 (String h3 (String h4 s'')))) =>
            match unicode_char h1 h2 h3 h4 with
            | Some ch => push ch (string_body s'')
            | None => None
            end
        | String e s'' =>
            match unescape_char e with
            | Some ch => push ch (string_body s'')
            | None => None
            end
        | "" => None
        end
      else push c (string_body s')
  end.

(** [value] reads one value at the head of the text; [elems] and
    [members] read what is left of a list or a dictionary whose next item
    starts at the head of the text.  The [fuel] bounds the nesting of
    calls. *)
Fixpoint value (fuel : nat) (s : string) : option (JSON * string) :=
  match fuel with
  | O => None
  | S fuel =>
      match skip_blanks s with
      | String c r =>
          if bool_decide (nat_of_ascii c = 34)%nat then
            match string_body r with
            | Some (x, r) => Some (JStr x, r)
            | None => None
            end
          else if bool_decide (c = "["%char) then
            match skip_blanks r with
            | String "]" r' => Some (JList [], r')
            | _ =>
                match elems fuel r with
                | Some (items, r') => Some (JList items, r')
                | None => None
                end
            end
          else if bool_decide (c = "{"%char) then
            match skip_blanks r with
            | String "}" r' => Some (JDict [], r')
            | _ =>
                match members fuel r with
                | Some (fields, r') => Some (JDict fields, r')
                | None => None
                end
            end
          else None
      | "" => None
      end
  end
with elems (fuel : nat) (s : string) : option (list JSON * string) :=
  match fuel with
  | O => None
  | S fuel =>
      match value fuel s with
      | Some (v, r) =>
          match skip_blanks r with
          | String "," r' =>
              match elems fuel r' with
              | Some (vs, r'') => Some (v :: vs, r'')
              | None => None
              end
          | String "]" r' => Some ([v], r')
          | _ => None
          end
      | None => None
      end
  end
with members (fuel : nat) (s : string) : option (list (string * JSON) * string) :=
  match fuel with
  | O => None
  | S fuel =>
      match skip_blanks s with
      | String c r =>
          if bool_decide (nat_of_ascii c = 34)%nat then
            match string_body r with
            | Some (k, r) =>
                match skip_blanks r with
                | String ":" r =>
                    match value fuel r with
                    | Some (v, r) =>
                        match skip_blanks r with
                        | String "," r' =>
                            match members fuel r' with
                            | Some (kvs, r'') => Some ((k, v) :: kvs, r'')
                            | None => None
                            end
                        | String "}" r' => Some ([(k, v)], r')
                        | _ => None
                        end
                    | None => None
                    end
                | _ => None
                end
            | None => None
            end
          else None
      | "" => None
      end
  end.

(** The nesting of calls that reading a value back takes at most. *)
Fixpoint size (v : JSON) : nat :=
  match v with
  | JStr _ => 1
  | JList items => S (fold_right (λ x n, S (size x) + n)%nat O items)
  | JDict fields => S (fold_right (λ kv n, S (size (snd kv)) + n)%nat O fields)
  end.

(** [loads(text)]: one value, then blanks only. *)
Definition loads (text : string) : option JSON :=
  match value (String.length text + 1) text with
  | Some (v, rest) => if bool_decide (skip_blanks rest = "") then Some v else None
  | None => None
  end.

(** [d[key]] on a decoded dictionary. *)
Definition field (key : string) (v : JSON) : option JSON :=
  match v with
  | JDict fields => snd <$> List.find (λ kv, bool_decide (fst kv = key)) fields
  | _ => None
  end.

(** A decoded list of strings. *)
Definition strings (v : JSON) : option (list string) :=
  match v with
  | JList items => mapM (λ x, match x with JStr s => Some s | _ => None end) items
  | _ => None
  end.

End Json.

(** The first character of a serialized value. *)
Definition opening (c : ascii) : Prop :=
  c = "034"%char ∨ c = "["%char ∨ c = "{"%char.

(** One member of a dictionary as [dumps] writes it. *)
Definition member_text (kv : string * JSON) : string :=
  Json.quote (fst kv) +:+ ": " +:+ Json.dumps (snd kv).

(** What the round trip of one value says. *)
Definition reads_back (v : JSON) : Prop :=
  ∀ fuel rest, (Json.size v ≤ fuel)%nat →
    Json.value fuel (Json.dumps v +:+ rest) = Some (v, rest).

(** The dictionary that [DiskTypeSetBase.json] serializes for the type
    set [s]. *)
Definition set_report (s : gset DiskType) : JSON :=
  JDict [("type", JStr "set"); ("values", JList ((λ t, JStr (name t)) <$> elements s))].

(** [DiskTypeSetBase.json], and its override in [DiskTypeLowerThan]. *)
Definition json (self : DiskTypeSetBase) : string :=
  match self with
  | DiskTypeSet s => Json.dumps (set_report s)
  | DiskTypeLowerThan disk_name =>
      Json.dumps (JDict [("type", JStr "operator");
                         ("name", JStr "lt");
                         ("args", JList [JStr disk_name])])
  end.

(** ** A laboratory host

    A small machine on which the model can be run: the system disk [sda]
    with the root file system on [sda1], two rotational disks [sdb] (512
    bytes per block) and [sdc] (4096), an Optane drive [nvme0n1] and a SATA
    solid-state drive [sdd].  The vendor tool knows [sda], [nvme0n1] and
    [sdd], in this order.  The state of the machine says whether [sdd] is
    attached, and whether the SCSI bus follows the requests to delete and
    to scan a device. *)

Module Lab.

Record State := mkState {
  attached : bool;
  responsive : bool
}.

Definition ok (text : string) : Output := mkOutput 0 text "".
Definition failed (code : Z) (text : string) : Output := mkOutput code "" text.

Fixpoint lines (l : list string) : string :=
  match l with
  | [] => ""
  | x :: r => x +:+ Py.nl +:+ lines r
  end.

Definition by_id (link : string) : string := "/dev/disk/by-id/" +:+ link.

Definition sdd_sysfs : string :=
  "/sys/devices/pci0000:00/0000:00:1f.2/ata4/host3/target3:0:0/3:0:0:0/block/sdd".

Definition sdd_delete : string := "echo 1 > " +:+ sdd_sysfs +:+ "/device/delete".

Definition sdd_scan : string :=
  "echo '0 0 0' > /sys/devices/pci0000:00/0000:00:1f.2/ata4/host3/scsi_host/host3/scan".

(** The links of [/dev/disk/by-id] with the device each points to and
    its serial number. *)
Definition links (w : State) : list (string * (string * string)) :=
  [("ata-HDD4K", ("/dev/sdc", "H4K")); ("ata-HDD512", ("/dev/sdb", "H512"));
   ("ata-OS", ("/dev/sda", "OS0"))] ++
  (if attached w then [("ata-SSD", ("/dev/sdd", "SSD7"))] else []) ++
  [("nvme-OPT", ("/dev/nvme0n1", "OPT1"))].

Definition block_names (w : State) : list string :=
  ["nvme0n1"; "sda"; "sdb"; "sdc"] ++ (if attached w then ["sdd"] else []).

(** The serial number of the device that the command names, if any. *)
Definition serial_in (w : State) (cmd : string) : option string :=
  (λ l : string * (string * string), snd (snd l)) <$>
    List.find (λ l, Py.contains (by_id (fst l) +:+ " ") cmd) (links w).

Definition isdct_entries : list (string * string * bool) :=
  [("/dev/sda", "OS0", false); ("/dev/nvme0n1", "OPT1", true); ("/dev/sdd", "SSD7", false)].

Definition isdct_answer (cmd : string) : option Output :=
  (λ ie : nat * (string * string * bool), let '(i, (dev, serial, is_optane)) := ie in
     if bool_decide (cmd = isdct_show i "DevicePath") then ok ("DevicePath : " +:+ dev +:+ Py.nl)
     else if bool_decide (cmd = isdct_show i "SerialNumber")
          then ok ("SerialNumber : " +:+ serial +:+ Py.nl)
     else if is_optane then ok ("ProductFamily : Intel Optane SSD" +:+ Py.nl)
     else failed 1 "") <$>
  List.find (λ ie, Py.startswith ("isdct show -intelssd " +:+ pretty (fst ie) +:+ " ") cmd)
            (imap (λ i e, (i, e)) isdct_entries).

Definition answer (cmd : string) (w : State) : Output * State :=
  if bool_decide (cmd = "isdct") then (ok "", w)
  else if bool_decide (cmd = "ls /sys/block -1") then (ok (lines (block_names w)), w)
  else if bool_decide (cmd = "ls /dev/disk/by-id -1") then (ok (lines (fst <$> links w)), w)
  else if Py.startswith "mount | grep" cmd
       then (ok ("/dev/sda1 on / type ext4 (rw,relatime)" +:+ Py.nl), w)
  else if Py.startswith "ls /sys/block/" cmd
       then (failed 2 ("ls: cannot access '" +:+ cmd +:+ "': No such file or directory"), w)
  else if bool_decide (cmd = "isdct show -intelssd | grep DevicePath | wc -l")
       then (ok ("3" +:+ Py.nl), w)
  else if Py.startswith "isdct show -intelssd " cmd
       then (default (failed 1 "") (isdct_answer cmd), w)
  else if Py.startswith "sg_inq " cmd || Py.startswith "udevadm " cmd then
    match serial_in w cmd with
    | Some serial =>
        if Py.startswith "sg_inq " cmd
        then (ok (" Unit serial number: " +:+ serial +:+ Py.nl), w)
        else (ok serial, w)
    | None => (failed 1 "", w)
    end
  else if bool_decide (cmd = sdd_delete)
       then (ok "", if responsive w then mkState false true else w)
  else if bool_decide (cmd = sdd_scan)
       then (ok "", if responsive w then mkState true true else w)
  else (failed 127 "command not found", w).

Definition pure {A} (f : State → A) : M (Target State) A :=
  λ t, (Ok (f (machine t)), t).

Definition link_target (w : State) (p : string) : string :=
  if bool_decide (p = "/sys/block/sda1/..")
  then "/sys/devices/pci0000:00/0000:00:1f.2/ata1/host0/target0:0:0/0:0:0:0/block/sda"
  else default p ((λ l : string * (string * string), fst (snd l)) <$>
                    List.find (λ l, bool_decide (by_id (fst l) = p)) (links w)).

(** The text that [ls -l] prints for an item: its path is the last word. *)
Definition listing (w : State) (p : string) : string :=
  if bool_decide (p = "$(find -H /sys/devices/ -name sdd -type d)")
  then (if attached w then "drwxr-xr-x 9 root root 0 Jan 1 00:00 " +:+ sdd_sysfs else "")
  else if bool_decide (link_target w p = p) && negb (Py.startswith "/dev/sd" p) then ""
  else "lrwxrwxrwx 1 root root 9 Jan 1 00:00 " +:+ p.

Definition parse (text : string) : list (option FsItem) :=
  match last (Py.words text) with
  | Some p => [Some (mkFsItem p)]
  | None => [None]
  end.

(** The float that is a whole number. *)
Definition float (n : Z) : Py.scalar := Py.Float (QArith_base.Qmake n 1).

Global Instance host : Platform := {|
  World := State;
  executor := answer;
  failure_message := λ cmd out, "Command '" +:+ cmd +:+ "' failed: " +:+ stderr out;
  readlink := λ p, pure (λ w, link_target w p);
  check_if_file_exists := λ p, pure (λ _, bool_decide (p = "/sys/block/sda1/partition"));
  ls_item := λ p, pure (λ w, listing w p);
  parse_ls_output := λ text, pure (λ _, parse text);
  get_block_size := λ dev, pure (λ _, if bool_decide (dev = "sdc") then float 4096 else Py.Int 512);
  get_size := λ dev, pure (λ _, if bool_decide (dev = "nvme0n1") then 375000000000 else 1000000000000);
  get_partition_path := λ parent n, pure (λ _, parent +:+ "-part" +:+ pretty n);
  get_sys_block_path := pure (λ _, "/sys/block");
  get_device_id := λ p, pure (λ w, default "" (last (Py.split "/" (link_target w (default "" p)))));
  recursion_limit := 1000
|}.

Definition start (w : State) : Target World := mkTarget w [].

Definition online : State := mkState true true.
Definition stuck_online : State := mkState true false.
Definition stuck_offline : State := mkState false false.

(** The SATA solid-state drive as a [Disk] of the test run. *)
Definition ssd : Disk :=
  create_disk (Some (by_id "ata-SSD")) sata (Some "SSD7") 512 [].

(** The Optane drive, known by its path only. *)
Definition optane_by_path : Disk :=
  create_disk (Some (by_id "nvme-OPT")) optane None 512 [].

(** A disk constructed with neither a serial number nor a path. *)
Definition anonymous : Disk := create_disk None hdd None 512 [].


Definition optane_record : DiskRecord :=
  mkDiskRecord "optane" (by_id "nvme-OPT") "OPT1" (Py.Int 512) 375000000000.
Definition ssd_record : DiskRecord :=
  mkDiskRecord "sata" (by_id "ata-SSD") "SSD7" (Py.Int 512) 1000000000000.
Definition hdd512_record : DiskRecord :=
  mkDiskRecord "hdd" (by_id "ata-HDD512") "H512" (Py.Int 512) 1000000000000.
Definition hdd4k_record : DiskRecord :=
  mkDiskRecord "hdd4k" (by_id "ata-HDD4K") "H4K" (float 4096) 1000000000000.

(** The drive [ssd] of the test run on the host, attached or not, and on
    a host whose bus does not follow requests. *)
Definition ssd_attached : Harness World := mkHarness ssd (start online).
Definition ssd_detached : Harness World := mkHarness ssd (start (mkState false true)).
Definition ssd_stuck : Harness World := mkHarness ssd (start stuck_online).

(** The drive after a request to delete it that the bus did not follow:
    the scan command is in place, and the drive is still attached. *)
Definition ssd_cached : Disk :=
  mkDisk (Some (by_id "ata-SSD")) sata (Some "SSD7") 512 [] [] (SataDisk sdd_scan).

Definition still_attached (n : nat) (x : Harness World) : Prop :=
  self x = ssd_cached ∧ machine (target x) = stuck_online.

End Lab.

(** ** [storage_devices/disk.py]: the required features of a disk *)

(** [Disk.has_features(req_features)]: [req_features] maps a disk type to
    the features that a disk of this type must have. *)
Definition has_features (d : Disk) (req_features : gmap DiskType (list string)) : bool :=
  match req_features !! disk_type d with
  | Some required =>
      let feat : gset string := list_to_set required in
      bool_decide (size (feat ∩ list_to_set (features d)) = size feat)
  | None => true
  end.

(** ** [test_utils/disk_finder.py]: the serial number queries *)

(** The three queries of [get_disk_serial_number], in the order in which
    they are tried. *)
Definition serial_commands (dev_path : string) : list string := [
  "udevadm info --query=all --name=" +:+ dev_path +:+ " | grep 'SCSI.*_SERIAL' || " +:+
  "udevadm info --query=all --name=" +:+ dev_path +:+ " | grep 'ID_SERIAL_SHORT' | " +:+
  "awk --field-separator '=' '{print $NF}'";
  "sg_inq " +:+ dev_path +:+ " 2> /dev/null | grep '[Ss]erial number:' | " +:+
  "awk '{print $NF}'";
  "udevadm info --query=all --name=" +:+ dev_path +:+ " | grep 'ID_SERIAL' | " +:+
  "awk --field-separator '=' '{print $NF}'"
].

(** ** [storage_devices/disk.py]: what detection leaves alone *)

(** The disk [d'] is the disk [d] but for its path and the paths of its
    partitions. *)
Definition same_identity (d d' : Disk) : Prop :=
  serial_number d' = serial_number d ∧ disk_type d' = disk_type d ∧
  block_size d' = block_size d ∧ features d' = features d ∧ class d' = class d ∧
  number <$> partitions d' = number <$> partitions d.

(** The two writes of [NvmeDisk.execute_unplug_command]. *)
Definition nvme_remove (device_id : string) : string :=
  "echo 1 > /sys/block/" +:+ device_id +:+ "/device/remove".
Definition nvme_remove_nested (device_id : string) : string :=
  "echo 1 > /sys/block/" +:+ device_id +:+ "/device/device/remove".

(** ** What the further properties speak of *)

Section Observations.
Context `{Platform}.

(** The outputs of the commands [cmds], sent to the machine [w] one after
    the other, and the machine after the last of them. *)
Fixpoint outputs (cmds : list string) (w : World) : list Output * World :=
  match cmds with
  | [] => ([], w)
  | cmd :: rest =>
      let '(out, w1) := executor cmd w in
      let '(outs, w2) := outputs rest w1 in
      (out :: outs, w2)
  end.

(** The query of [find_sata_ssd_device_path] for the device [dev] gave a
    serial number that is, or is not, [serial_number]. *)
Definition serial_answer (serial_number dev : string) (same : bool) : Prop :=
  ∃ ta out tb field,
    run_expect_success ("sg_inq " +:+ dev +:+ " | grep '[Ss]erial number'") ta = (Ok out, tb) ∧
    Py.index (Py.split ": " (stdout out)) 1 = Ok field ∧
    bool_decide (Py.strip field = serial_number) = same.

(** A device under which [__get_slaves] found no slave. *)
Definition is_leaf (device_name : string) : Prop :=
  ∃ depth ta tb r, __get_slaves depth device_name ta = (Ok r, tb) ∧ (r = None ∨ r = Some []).

(** A computation that changes nothing of the disk but its path and the
    paths of its partitions. *)
Definition keeps_identity {A} (m : M (Harness World) A) : Prop :=
  ∀ h r h', m h = (r, h') → same_identity (self h) (self h').

(** The partition [part'] is the partition [part] with the path that
    [get_partition_path] gave for the parent path [p]. *)
Definition refreshed (p : string) (part part' : Partition) : Prop :=
  number part' = number part ∧
  ∃ ta tb, get_partition_path p (number part) ta = (Ok (part_path part'), tb).

End Observations.

(** ** More hosts

    The laboratory host with other answers to some commands, and a host
    whose root file system is on a device-mapper volume. *)

Module Rig.

Definition host_of (answer : string → Lab.State → Output * Lab.State)
    (block_size : string → Py.scalar) : Platform := {|
  World := Lab.State;
  executor := answer;
  failure_message := @failure_message Lab.host;
  readlink := @readlink Lab.host;
  check_if_file_exists := @check_if_file_exists Lab.host;
  ls_item := @ls_item Lab.host;
  parse_ls_output := @parse_ls_output Lab.host;
  get_block_size := λ dev, Lab.pure (λ _, block_size dev);
  get_size := @get_size Lab.host;
  get_partition_path := @get_partition_path Lab.host;
  get_sys_block_path := @get_sys_block_path Lab.host;
  get_device_id := @get_device_id Lab.host;
  recursion_limit := 50
|}.

Definition host_with (answer : string → Lab.State → Output * Lab.State) : Platform :=
  host_of answer (λ dev, if bool_decide (dev = "sdc") then Lab.float 4096 else Py.Int 512).






(** The vendor tool is not installed. *)
Definition no_tool : Platform :=
  host_with (λ cmd w,
    if bool_decide (cmd = "isdct") then (Lab.failed 127 "isdct: command not found", w)
    else Lab.answer cmd w).

(** [/dev/disk/by-id] is empty. *)
Definition no_links : Platform :=
  host_with (λ cmd w,
    if bool_decide (cmd = "ls /dev/disk/by-id -1") then (Lab.ok "", w)
    else Lab.answer cmd w).

(** Every listing names the volume [dm-0], the listing of the slaves of
    [dm-0] too. *)
Definition maze : Platform := host_with (λ cmd w, (Lab.ok ("dm-0" +:+ Py.nl), w)).


(** The removal file of the Optane drive is the nested one. *)
Definition nested : Platform :=
  host_with (λ cmd w,
    if bool_decide (cmd = nvme_remove "nvme0n1")
    then (Lab.failed 1 "No such file or directory", w)
    else if bool_decide (cmd = nvme_remove_nested "nvme0n1") then (Lab.ok "", w)
    else Lab.answer cmd w).

(** The root file system is on the volume [dm-1], which lies on [dm-0],
    which lies on the partitions [sda2] and [sdb1]. *)
Definition mapped_answer (cmd : string) (w : Lab.State) : Output * Lab.State :=
  if Py.startswith "mount | grep" cmd
  then (Lab.ok ("/dev/mapper/root on / type ext4 (rw,relatime)" +:+ Py.nl), w)
  else if bool_decide (cmd = "ls /sys/block/dm-1/slaves") then (Lab.ok ("dm-0" +:+ Py.nl), w)
  else if bool_decide (cmd = "ls /sys/block/dm-0/slaves")
       then (Lab.ok ("sda2" +:+ Py.nl +:+ "sdb1" +:+ Py.nl), w)
  else Lab.answer cmd w.

Definition mapped_link (w : Lab.State) (p : string) : string :=
  if bool_decide (p = "/dev/mapper/root") then "/dev/dm-1"
  else if bool_decide (p = "/sys/block/sda2/..") then "/sys/devices/pci0000:00/ata1/block/sda"
  else if bool_decide (p = "/sys/block/sdb1/..") then "/sys/devices/pci0000:00/ata2/block/sdb"
  else Lab.link_target w p.

Definition mapped : Platform := {|
  World := Lab.State;
  executor := mapped_answer;
  failure_message := @failure_message Lab.host;
  readlink := λ p, Lab.pure (λ w, mapped_link w p);
  check_if_file_exists := λ p, Lab.pure (λ _,
    bool_decide (p = "/sys/block/sda2/partition") ||
    bool_decide (p = "/sys/block/sdb1/partition"));
  ls_item := @ls_item Lab.host;
  parse_ls_output := @parse_ls_output Lab.host;
  get_block_size := @get_block_size Lab.host;
  get_size := @get_size Lab.host;
  get_partition_path := @get_partition_path Lab.host;
  get_sys_block_path := @get_sys_block_path Lab.host;
  get_device_id := @get_device_id Lab.host;
  recursion_limit := 50
|}.

(** The SATA drive with two partitions, known by stale paths. *)
Definition ssd_with_partitions : Disk :=
  mkDisk (Some "/dev/sdx") sata (Some "SSD7") 512
         [mkPartition "/dev/sdx1" 1; mkPartition "/dev/sdx2" 2] [] (SataDisk Sata_plug_all_command).

(** The Optane drive as a disk of the test run. *)
Definition optane_disk : Disk :=
  create_disk (Some (Lab.by_id "nvme-OPT")) optane (Some "OPT1") 512 [].

(** The candidate devices of the laboratory host, and their serial numbers. *)
Definition pool : list string :=
  [Lab.by_id "nvme-OPT"; Lab.by_id "ata-HDD512"; Lab.by_id "ata-HDD4K"; Lab.by_id "ata-SSD"].

Definition serials : gmap string string :=
  list_to_map [("H4K", Lab.by_id "ata-HDD4K"); ("H512", Lab.by_id "ata-HDD512");
               ("SSD7", Lab.by_id "ata-SSD"); ("OPT1", Lab.by_id "nvme-OPT")].

(** What [find_disks] raises when the vendor tool is not installed. *)
Definition no_tool_error : exn :=
  Exception ("Error while executing command: 'isdct'." +:+ Py.nl +:+
             "stdout: " +:+ Py.nl +:+ "stderr: isdct: command not found").

End Rig.

(** * Properties *)

(** ** The ordinal order of [DiskType] *)

Lemma value_inj (a b : DiskType) : value a = value b → a = b.
Proof. destruct a, b; simpl; intros Hv; try reflexivity; discriminate Hv. Qed.

Lemma DiskType_order : value hdd < value hdd4k < value sata ∧ value sata < value nand < value optane.
Proof. simpl. lia. Qed.

(** ** [min] of a list *)

Lemma fold_lower_le (rest : list DiskType) (x : DiskType) :
  value (fold_left lower rest x) ≤ value x.
Proof.
  revert x. induction rest as [|y rest IH]; intros x; simpl; [lia|].
  etrans; [apply IH|]. unfold lower. case_bool_decide; lia.
Qed.

Lemma fold_lower_elem (rest : list DiskType) (x : DiskType) :
  fold_left lower rest x ∈ x :: rest.
Proof.
  revert x. induction rest as [|y rest IH]; intros x; simpl; [set_solver|].
  specialize (IH (lower x y)). apply elem_of_cons in IH as [Heq|Hin].
  - rewrite Heq. unfold lower. case_bool_decide; set_solver.
  - set_solver.
Qed.

Lemma fold_lower_least (rest : list DiskType) (x y : DiskType) :
  y ∈ rest → value (fold_left lower rest x) ≤ value y.
Proof.
  revert x. induction rest as [|z rest IH]; intros x Hy; [set_solver|].
  simpl. apply elem_of_cons in Hy as [->|Hy].
  - etrans; [apply fold_lower_le|]. unfold lower. case_bool_decide; lia.
  - by apply IH.
Qed.

Lemma least_unique (s : gset DiskType) (a b : DiskType) : least s a → least s b → a = b.
Proof.
  intros [Ha Hla] [Hb Hlb]. apply value_inj.
  specialize (Hla b Hb). specialize (Hlb a Ha). lia.
Qed.

Lemma py_min_elements_empty : py_min (elements (∅ : gset DiskType)) =
  Raise (ValueError "min() arg is an empty sequence").
Proof. by rewrite elements_empty. Qed.

Lemma py_min_elements (s : gset DiskType) :
  s ≠ ∅ → ∃ m, py_min (elements s) = Ok m ∧ least s m.
Proof.
  intros Hne. destruct (elements s) as [|x rest] eqn:E.
  { apply elements_empty_inv in E. apply leibniz_equiv in E. contradiction. }
  exists (fold_left lower rest x). split; [reflexivity|]. split.
  - apply elem_of_elements. rewrite E. apply fold_lower_elem.
  - intros y Hy. apply elem_of_elements in Hy. rewrite E in Hy.
    apply elem_of_cons in Hy as [->|Hy]; [apply fold_lower_le|by apply fold_lower_least].
Qed.

Lemma py_min_elements_inv (s : gset DiskType) (m : DiskType) :
  py_min (elements s) = Ok m → s ≠ ∅.
Proof. intros Hm ->. rewrite py_min_elements_empty in Hm. discriminate. Qed.

(** ** Type-constraint expressions *)

Lemma lower_than_set (bound t : DiskType) :
  t ∈ (list_to_set (filter (λ t, value t < value bound) all_DiskType) : gset DiskType)
  ↔ value t < value bound.
Proof.
  rewrite elem_of_list_to_set, list_elem_of_filter. split; [tauto|].
  intros Hlt. split; [assumption|]. destruct t; unfold all_DiskType; set_solver.
Qed.

Lemma min_types_Ok (disks : gmap string Disk) (e : DiskTypeSetBase) (s : gset DiskType) :
  types disks e = Ok s → s ≠ ∅ → ∃ m, min_types disks e = Ok m ∧ least s m.
Proof. intros Ht Hne. unfold min_types. rewrite Ht. by apply py_min_elements. Qed.

Lemma min_types_empty (disks : gmap string Disk) (e : DiskTypeSetBase) :
  types disks e = Ok ∅ →
  min_types disks e = Raise (ValueError "min() arg is an empty sequence").
Proof. intros Ht. unfold min_types. rewrite Ht. apply py_min_elements_empty. Qed.

Lemma min_types_inv (disks : gmap string Disk) (e : DiskTypeSetBase) (m : DiskType) :
  min_types disks e = Ok m → ∃ s, types disks e = Ok s ∧ s ≠ ∅.
Proof.
  unfold min_types. destruct (types disks e) as [s|err]; [|discriminate].
  intros Hm. exists s. split; [reflexivity|]. by eapply py_min_elements_inv.
Qed.

Lemma on_mins_inv (disks : gmap string Disk) (f : Z → Z → bool)
    (A B : DiskTypeSetBase) (b : bool) :
  on_mins disks f A B = Ok b →
  ∃ sa sb, types disks A = Ok sa ∧ types disks B = Ok sb ∧ sa ≠ ∅ ∧ sb ≠ ∅.
Proof.
  unfold on_mins. destruct (min_types disks A) as [a|] eqn:Ea; [|discriminate].
  destruct (min_types disks B) as [b'|] eqn:Eb; [|discriminate]. intros _.
  apply min_types_inv in Ea as (sa & ? & ?). apply min_types_inv in Eb as (sb & ? & ?).
  by exists sa, sb.
Qed.

Lemma on_mins_empty (disks : gmap string Disk) (f : Z → Z → bool) (A B : DiskTypeSetBase) :
  types disks A = Ok ∅ ∨ types disks B = Ok ∅ → ∃ err, on_mins disks f A B = Raise err.
Proof.
  intros [Ha|Hb]; unfold on_mins.
  - rewrite (min_types_empty _ _ Ha). eauto.
  - destruct (min_types disks A); [|eauto]. rewrite (min_types_empty _ _ Hb). eauto.
Qed.

(** C2: [DiskTypeLowerThan(X).types()] raises a [LookupError] while [X] is
    not in the registry of the test run; once [X] is registered it returns
    exactly the disk types whose ordinal is strictly below that of the
    type of [X]. *)
Theorem lower_than_types (disks : gmap string Disk) (X : string) (d : Disk) :
  disks !! X = None →
  types disks (DiskTypeLowerThan X) = Raise (LookupError "Disk type not resolved!") ∧
  ∃ s, types (<[X := d]> disks) (DiskTypeLowerThan X) = Ok s ∧
       ∀ t, t ∈ s ↔ value t < value (disk_type d).
Proof.
  intros Hnone. split.
  - unfold types, resolved. rewrite bool_decide_eq_false_2; [reflexivity|].
    by apply not_elem_of_dom.
  - eexists. split.
    + unfold types, resolved. rewrite bool_decide_eq_true_2.
      * simpl. rewrite lookup_insert_eq. reflexivity.
      * apply elem_of_dom. rewrite lookup_insert_eq. eauto.
    + intros t. apply lower_than_set.
Qed.

(** C3: when the type sets of both operands are resolved and not empty,
    each of the six operators returns the comparison of the least type of
    the left set with the least type of the right set, whatever else the
    two sets hold. *)
Theorem comparison_of_minima (disks : gmap string Disk) (A B : DiskTypeSetBase)
    (sa sb : gset DiskType) :
  types disks A = Ok sa → types disks B = Ok sb → sa ≠ ∅ → sb ≠ ∅ →
  ∃ a b, least sa a ∧ least sb b ∧
    __lt__ disks A B = Ok (bool_decide (value a < value b)) ∧
    __le__ disks A B = Ok (bool_decide (value a ≤ value b)) ∧
    __eq__ disks A B = Ok (bool_decide (a = b)) ∧
    __ne__ disks A B = Ok (bool_decide (a ≠ b)) ∧
    __gt__ disks A B = Ok (bool_decide (value b < value a)) ∧
    __ge__ disks A B = Ok (bool_decide (value b ≤ value a)).
Proof.
  intros Ha Hb Hna Hnb.
  destruct (min_types_Ok _ _ _ Ha Hna) as (a & Ea & Hla).
  destruct (min_types_Ok _ _ _ Hb Hnb) as (b & Eb & Hlb).
  exists a, b. split; [assumption|]. split; [assumption|].
  unfold __lt__, __le__, __eq__, __ne__, __gt__, __ge__, on_mins. rewrite Ea, Eb.
  repeat split; f_equal; apply bool_decide_ext;
    try lia; split; try congruence; try (intros ->; reflexivity).
  - apply value_inj.
  - intros Hne Hv. apply Hne. by apply value_inj.
Qed.

(** C10: a comparison returns a boolean only when the type sets of both
    operands are resolved and not empty; when either set is empty, each of
    the six operators raises instead.  The set of a [DiskTypeLowerThan]
    over a disk of type [hdd] is such an empty set, and so is that of an
    empty [DiskTypeSet]. *)
Theorem comparison_needs_members (disks : gmap string Disk) (A B : DiskTypeSetBase) :
  (∀ b, __lt__ disks A B = Ok b ∨ __le__ disks A B = Ok b ∨ __eq__ disks A B = Ok b ∨
        __ne__ disks A B = Ok b ∨ __gt__ disks A B = Ok b ∨ __ge__ disks A B = Ok b →
     ∃ sa sb, types disks A = Ok sa ∧ types disks B = Ok sb ∧ sa ≠ ∅ ∧ sb ≠ ∅) ∧
  (types disks A = Ok ∅ ∨ types disks B = Ok ∅ →
     (∃ err, __lt__ disks A B = Raise err) ∧ (∃ err, __le__ disks A B = Raise err) ∧
     (∃ err, __eq__ disks A B = Raise err) ∧ (∃ err, __ne__ disks A B = Raise err) ∧
     (∃ err, __gt__ disks A B = Raise err) ∧ (∃ err, __ge__ disks A B = Raise err)) ∧
  (∀ X d, disks !! X = Some d → disk_type d = hdd →
     types disks (DiskTypeLowerThan X) = Ok ∅) ∧
  types disks (DiskTypeSet_init []) = Ok ∅.
Proof.
  split.
  { intros b Hb. unfold __lt__, __le__, __eq__, __ne__, __gt__, __ge__ in Hb.
    destruct Hb as [Hb|[Hb|[Hb|[Hb|[Hb|Hb]]]]]; by eapply on_mins_inv. }
  split.
  - intros Hempty. unfold __lt__, __le__, __eq__, __ne__, __gt__, __ge__.
    repeat split; by apply on_mins_empty.
  - split; [|reflexivity]. intros X d HX Hd. unfold types, resolved.
    rewrite bool_decide_eq_true_2 by (apply elem_of_dom; eauto).
    simpl. rewrite HX, Hd. reflexivity.
Qed.

(** ** Strings *)

Lemma append_assoc (a b c : string) : (a +:+ b) +:+ c = a +:+ (b +:+ c).
Proof. induction a as [|x a IH]; simpl; [reflexivity|]. by rewrite IH. Qed.

Lemma append_nil_r (a : string) : a +:+ "" = a.
Proof. induction a as [|x a IH]; simpl; [reflexivity|]. by rewrite IH. Qed.

Lemma length_append (a b : string) :
  String.length (a +:+ b) = (String.length a + String.length b)%nat.
Proof. induction a as [|x a IH]; simpl; [reflexivity|]. by rewrite IH. Qed.

(** ** The Python operations on examples *)

Example split_path :
  Py.split "/" "/sys/block/sda" = [""; "sys"; "block"; "sda"].
Proof. reflexivity. Qed.

Example split_serial_line :
  Py.split ": " " Unit serial number: ZA1X: 7" = [" Unit serial number"; "ZA1X"; "7"].
Proof. reflexivity. Qed.

Example words_of_vendor_line :
  Py.words ("DevicePath : /dev/nvme0n1" +:+ Py.nl) = ["DevicePath"; ":"; "/dev/nvme0n1"].
Proof. reflexivity. Qed.

Example splitlines_of_listing :
  Py.splitlines ("sda" +:+ Py.nl +:+ "sdb" +:+ Py.nl +:+ Py.nl +:+ "x") = ["sda"; "sdb"; ""; "x"].
Proof. reflexivity. Qed.

Example replace_dev_prefix : Py.replace "/dev/" "" "/dev/sdb" = "sdb".
Proof. reflexivity. Qed.

Example strip_blanks : Py.strip ("  S3X " +:+ Py.nl) = "S3X".
Proof. reflexivity. Qed.

Example int_of_count : Py.int_of_str ("2" +:+ Py.nl) = Ok 2.
Proof. reflexivity. Qed.

Example int_of_text : ∃ e, Py.int_of_str "two" = Raise (ValueError e).
Proof. eexists. reflexivity. Qed.

Example path_join_absolute : Py.path_join "/dev" "/dev/sda" = "/dev/sda".
Proof. reflexivity. Qed.

Example path_join_relative : Py.path_join "/dev" "sda" = "/dev/sda".
Proof. reflexivity. Qed.

Example index_from_end :
  Py.index ["a"; "b"; "c"; "d"] (-3) = Ok "b" ∧
  Py.index ["a"; "b"] (-3) = Raise (IndexError "list index out of range").
Proof. split; reflexivity. Qed.

Example address_with_colons :
  scsi_address_search "3:0:12:7" = Some ("3", "0", "12", "7").
Proof. reflexivity. Qed.

Example address_with_dashes_and_line_feed :
  scsi_address_search ("3-0-12-7" +:+ Py.nl) = Some ("3", "0", "12", "7").
Proof. reflexivity. Qed.

Example address_of_a_target_directory : scsi_address_search "target3:0:0" = None.
Proof. reflexivity. Qed.

Example scan_command_of_address :
  scan_command "/sys/devices/pci0000:00/ata4" "3" "0" "1" "2" =
  "echo '0 1 2' > /sys/devices/pci0000:00/ata4/host3/scsi_host/host3/scan".
Proof. reflexivity. Qed.

(** ** Reading back what [dumps] writes *)

Section JsonInduction.
Variable P : JSON → Prop.
Hypothesis P_str : ∀ s, P (JStr s).
Hypothesis P_list : ∀ items, Forall P items → P (JList items).
Hypothesis P_dict : ∀ fields, Forall (λ kv, P (snd kv)) fields → P (JDict fields).

Lemma JSON_nested_ind (v : JSON) : P v.
Proof.
  revert v. fix IH 1. intros [s|items|fields].
  - apply P_str.
  - apply P_list. induction items as [|x items IHitems]; constructor; [apply IH|exact IHitems].
  - apply P_dict. induction fields as [|kv fields IHfields]; constructor;
      [apply IH|exact IHfields].
Qed.
End JsonInduction.

Lemma string_body_escape_char (c : ascii) (tl : string) :
  Json.string_body (Json.escape_char c +:+ tl) = Json.push c (Json.string_body tl).
Proof.
  destruct c as [[] [] [] [] [] [] [] []]; reflexivity.
Qed.

Lemma string_body_escape (s rest : string) :
  Json.string_body (Json.escape s +:+ Py.dq +:+ rest) = Some (s, rest).
Proof.
  induction s as [|c s IH]; [reflexivity|].
  cbn [Json.escape]. rewrite append_assoc, string_body_escape_char.
  by rewrite IH.
Qed.

Lemma dumps_head (v : JSON) : ∃ c tl, Json.dumps v = String c tl ∧ opening c.
Proof. destruct v; eexists _, _; (split; [reflexivity|]); unfold opening; auto. Qed.

Lemma join_head (x : JSON) (items : list JSON) (tl : string) :
  ∃ c r, Py.join ", " (List.map Json.dumps (x :: items)) +:+ tl = String c r ∧ opening c.
Proof.
  destruct (dumps_head x) as (c & r & E & Hc).
  destruct items as [|y items]; cbn [List.map Py.join]; rewrite E; simpl; eauto.
Qed.

Lemma value_blank (fuel : nat) (s : string) :
  Json.value fuel (String " " s) = Json.value fuel s.
Proof. destruct fuel; reflexivity. Qed.

Lemma elems_blank (fuel : nat) (s : string) :
  Json.elems fuel (String " " s) = Json.elems fuel s.
Proof. destruct fuel; [reflexivity|]. simpl. by rewrite value_blank. Qed.

Lemma members_blank (fuel : nat) (s : string) :
  Json.members fuel (String " " s) = Json.members fuel s.
Proof. destruct fuel; reflexivity. Qed.

Lemma value_str (fuel : nat) (tl : string) :
  Json.value (S fuel) (String "034" tl) =
  match Json.string_body tl with
  | Some (x, r) => Some (JStr x, r)
  | None => None
  end.
Proof. reflexivity. Qed.

Lemma value_list (fuel : nat) (r : string) :
  (∃ c tl, r = String c tl ∧ opening c) →
  Json.value (S fuel) (String "[" r) =
  match Json.elems fuel r with
  | Some (items, r') => Some (JList items, r')
  | None => None
  end.
Proof. intros (c & tl & -> & [->|[->| ->]]); reflexivity. Qed.

Lemma value_dict (fuel : nat) (tl : string) :
  Json.value (S fuel) (String "{" (String "034" tl)) =
  match Json.members fuel (String "034" tl) with
  | Some (fields, r') => Some (JDict fields, r')
  | None => None
  end.
Proof. reflexivity. Qed.

Lemma elems_S (fuel : nat) (s : string) :
  Json.elems (S fuel) s =
  match Json.value fuel s with
  | Some (v, r) =>
      match Json.skip_blanks r with
      | String "," r' =>
          match Json.elems fuel r' with
          | Some (vs, r'') => Some (v :: vs, r'')
          | None => None
          end
      | String "]" r' => Some ([v], r')
      | _ => None
      end
  | None => None
  end.
Proof. reflexivity. Qed.

Lemma members_S (fuel : nat) (tl : string) :
  Json.members (S fuel) (String "034" tl) =
  match Json.string_body tl with
  | Some (k, r) =>
      match Json.skip_blanks r with
      | String ":" r =>
          match Json.value fuel r with
          | Some (v, r) =>
              match Json.skip_blanks r with
              | String "," r' =>
                  match Json.members fuel r' with
                  | Some (kvs, r'') => Some ((k, v) :: kvs, r'')
                  | None => None
                  end
              | String "}" r' => Some ([(k, v)], r')
              | _ => None
              end
          | None => None
          end
      | _ => None
      end
  | None => None
  end.
Proof. reflexivity. Qed.

Lemma skip_blanks_stop (c : ascii) (s : string) :
  Json.is_blank c = false → Json.skip_blanks (String c s) = String c s.
Proof. intros Hc. simpl. by rewrite Hc. Qed.

Lemma comma_space (s : string) : ", " +:+ s = String "," (String " " s).
Proof. reflexivity. Qed.

Lemma colon_space (s : string) : ": " +:+ s = String ":" (String " " s).
Proof. reflexivity. Qed.

Lemma elems_dumps (items : list JSON) :
  items ≠ [] → Forall reads_back items →
  ∀ fuel rest,
    (fold_right (λ x n, S (Json.size x) + n) O items ≤ fuel)%nat →
    Json.elems fuel (Py.join ", " (List.map Json.dumps items) +:+ String "]" rest)
    = Some (items, rest).
Proof.
  induction items as [|x items IH]; [congruence|]. intros _ Hall fuel rest Hfuel.
  apply Forall_cons in Hall as [Hx Hall]. cbn [fold_right] in Hfuel.
  destruct fuel as [|fuel]; [lia|]. rewrite elems_S.
  destruct items as [|y items].
  - cbn [List.map Py.join]. rewrite Hx by lia.
    rewrite skip_blanks_stop by reflexivity. reflexivity.
  - change (Py.join ", " (List.map Json.dumps (x :: y :: items)))
      with (Json.dumps x +:+ ", " +:+ Py.join ", " (List.map Json.dumps (y :: items))).
    rewrite !append_assoc. rewrite Hx by lia.
    rewrite comma_space, skip_blanks_stop by reflexivity. cbv beta iota.
    rewrite elems_blank, IH; [reflexivity|congruence|assumption|lia].
Qed.

Lemma member_text_unfold (kv : string * JSON) (tl : string) :
  member_text kv +:+ tl =
  String "034" (Json.escape (fst kv) +:+ Py.dq +:+ ": " +:+ Json.dumps (snd kv) +:+ tl).
Proof.
  unfold member_text, Json.quote. rewrite !append_assoc.
  change (Py.dq +:+ ?s) with (String "034" s) at 1. reflexivity.
Qed.

Lemma members_dumps (fields : list (string * JSON)) :
  fields ≠ [] → Forall (λ kv, reads_back (snd kv)) fields →
  ∀ fuel rest,
    (fold_right (λ kv n, S (Json.size (snd kv)) + n) O fields ≤ fuel)%nat →
    Json.members fuel (Py.join ", " (List.map member_text fields) +:+ String "}" rest)
    = Some (fields, rest).
Proof.
  induction fields as [|[k v] fields IH]; [congruence|].
  intros _ Hall fuel rest Hfuel.
  apply Forall_cons in Hall as [Hv Hall]. cbn [fst snd] in Hv.
  cbn [fold_right snd] in Hfuel. destruct fuel as [|fuel]; [lia|].
  destruct fields as [|kv fields].
  - cbn [List.map Py.join]. rewrite member_text_unfold, members_S. cbn [fst snd].
    rewrite string_body_escape.
    rewrite colon_space, skip_blanks_stop by reflexivity. cbv beta iota.
    rewrite value_blank, Hv by lia.
    rewrite skip_blanks_stop by reflexivity. reflexivity.
  - change (Py.join ", " (List.map member_text ((k, v) :: kv :: fields)))
      with (member_text (k, v) +:+ ", " +:+ Py.join ", " (List.map member_text (kv :: fields))).
    rewrite append_assoc, member_text_unfold, members_S. cbn [fst snd].
    rewrite string_body_escape.
    rewrite colon_space, skip_blanks_stop by reflexivity. cbv beta iota.
    rewrite value_blank, !append_assoc, Hv by lia.
    rewrite comma_space, skip_blanks_stop by reflexivity. cbv beta iota.
    rewrite members_blank, IH; [reflexivity|congruence|assumption|lia].
Qed.

Lemma members_head (kv : string * JSON) (fields : list (string * JSON)) (tl : string) :
  ∃ r, Py.join ", " (List.map member_text (kv :: fields)) +:+ tl = String "034" r.
Proof.
  destruct fields as [|kv' fields]; cbn [List.map Py.join].
  - rewrite member_text_unfold. eauto.
  - rewrite append_assoc, member_text_unfold. eauto.
Qed.

Lemma value_dumps (v : JSON) : reads_back v.
Proof.
  induction v as [s|items IH|fields IH] using JSON_nested_ind;
    intros fuel rest Hfuel; (destruct fuel as [|fuel]; [simpl in Hfuel; lia|]).
  - cbn [Json.dumps]. unfold Json.quote. rewrite !append_assoc.
    change (Py.dq +:+ ?s) with (String "034" s) at 1.
    rewrite value_str, string_body_escape. reflexivity.
  - cbn [Json.dumps Json.size] in *. rewrite !append_assoc.
    change ("[" +:+ ?s) with (String "[" s). change ("]" +:+ ?s) with (String "]" s).
    destruct items as [|x items]; [reflexivity|].
    rewrite value_list by apply join_head.
    rewrite elems_dumps; [reflexivity|congruence|assumption|lia].
  - cbn [Json.dumps Json.size] in *. rewrite !append_assoc.
    change ("{" +:+ ?s) with (String "{" s). change ("}" +:+ ?s) with (String "}" s).
    destruct fields as [|kv fields]; [reflexivity|].
    change (List.map (λ kv, Json.quote kv.1 +:+ ": " +:+ Json.dumps kv.2) (kv :: fields))
      with (List.map member_text (kv :: fields)).
    destruct (members_head kv fields (String "}" rest)) as (r & Er).
    rewrite Er, value_dict, <- Er.
    rewrite members_dumps; [reflexivity|congruence|assumption|lia].
Qed.

Lemma fold_size_le {A} (size_of : A → nat) (text : A → string) (items : list A) :
  Forall (λ x, (size_of x ≤ String.length (text x))%nat) items →
  (fold_right (λ x n, S (size_of x) + n) O items
   ≤ String.length (Py.join ", " (List.map text items)) + 1)%nat.
Proof.
  induction items as [|x items IH]; intros Hall; [simpl; lia|].
  apply Forall_cons in Hall as [Hx Hall]. specialize (IH Hall).
  destruct items as [|y items]; cbn [fold_right List.map Py.join] in *; [lia|].
  rewrite !length_append. change (String.length ", ") with 2%nat. lia.
Qed.

Lemma size_le_length (v : JSON) : (Json.size v ≤ String.length (Json.dumps v))%nat.
Proof.
  induction v as [s|items IH|fields IH] using JSON_nested_ind; cbn [Json.dumps Json.size].
  - unfold Json.quote. rewrite !length_append. change (String.length Py.dq) with 1%nat. lia.
  - rewrite !length_append. change (String.length "[") with 1%nat.
    change (String.length "]") with 1%nat.
    pose proof (fold_size_le Json.size Json.dumps items IH). lia.
  - rewrite !length_append. change (String.length "{") with 1%nat.
    change (String.length "}") with 1%nat.
    assert (Forall (λ kv, (Json.size (snd kv) ≤ String.length (member_text kv))%nat) fields)
      as Hall.
    { eapply Forall_impl; [exact IH|]. intros kv Hkv. cbv beta in Hkv. unfold member_text.
      rewrite !length_append. lia. }
    pose proof (fold_size_le (λ kv, Json.size (snd kv)) member_text fields Hall).
    unfold member_text in *. lia.
Qed.

(** Decoding the serialized form of a value gives the value back. *)
Lemma loads_dumps (v : JSON) : Json.loads (Json.dumps v) = Some v.
Proof.
  unfold Json.loads.
  rewrite <- (append_nil_r (Json.dumps v)) at 2.
  rewrite value_dumps; [reflexivity|].
  pose proof (size_le_length v). lia.
Qed.

(** ** Serialization of a [DiskTypeSet] *)

Lemma name_inj (a b : DiskType) : name a = name b → a = b.
Proof. destruct a, b; simpl; intros Hn; try reflexivity; discriminate Hn. Qed.

Lemma strings_of_names (l : list DiskType) :
  Json.strings (JList ((λ t, JStr (name t)) <$> l)) = Some (name <$> l).
Proof.
  unfold Json.strings. induction l as [|t l IH]; [reflexivity|].
  rewrite !fmap_cons. cbn [mapM]. rewrite IH. reflexivity.
Qed.

Lemma decoded_type_set (s : gset DiskType) :
  Json.loads (json (DiskTypeSet s)) = Some (set_report s) ∧
  Json.field "type" (set_report s) = Some (JStr "set") ∧
  Json.field "values" (set_report s) ≫= Json.strings = Some (name <$> elements s).
Proof.
  split; [|split].
  - apply loads_dumps.
  - reflexivity.
  - change (Json.field "values" (set_report s))
      with (Some (JList ((λ t, JStr (name t)) <$> elements s))).
    cbn [mbind option_bind]. apply strings_of_names.
Qed.

(** C7: decoding the serialized form of a [DiskTypeSet] gives a dictionary
    whose ["type"] is ["set"] and whose ["values"] are the names of the
    members of its type set, each once and nothing else, in some order; for
    the set of [sata] and [nand] the values, read as a set, are ["sata"]
    and ["nand"]. *)
Theorem serialized_type_set :
  (∀ s : gset DiskType, ∃ decoded values,
     Json.loads (json (DiskTypeSet s)) = Some decoded ∧
     Json.field "type" decoded = Some (JStr "set") ∧
     Json.field "values" decoded ≫= Json.strings = Some values ∧
     NoDup values ∧
     ∀ x, x ∈ values ↔ ∃ t, t ∈ s ∧ x = name t) ∧
  (∃ decoded values,
     Json.loads (json (DiskTypeSet_init [sata; nand])) = Some decoded ∧
     Json.field "type" decoded = Some (JStr "set") ∧
     Json.field "values" decoded ≫= Json.strings = Some values ∧
     list_to_set values =@{gset string} {["sata"; "nand"]}).
Proof.
  split.
  - intros s. destruct (decoded_type_set s) as (Hl & Ht & Hv).
    exists (set_report s), (name <$> elements s). repeat split; try assumption.
    + apply NoDup_fmap_2; [intros a b; apply name_inj|apply NoDup_elements].
    + intros (t & -> & Ht')%list_elem_of_fmap. exists t.
      by rewrite <- elem_of_elements.
    + intros (t & Ht' & ->). apply list_elem_of_fmap. exists t.
      by rewrite elem_of_elements.
  - destruct (decoded_type_set (list_to_set [sata; nand])) as (Hl & Ht & Hv).
    exists (set_report (list_to_set [sata; nand])),
           (name <$> elements (list_to_set [sata; nand] : gset DiskType)).
    split; [exact Hl|]. split; [exact Ht|]. split; [exact Hv|].
    apply set_eq. intros x. rewrite elem_of_list_to_set, list_elem_of_fmap.
    setoid_rewrite elem_of_elements. split.
    + intros (t & -> & Ht'). rewrite elem_of_list_to_set in Ht'.
      apply elem_of_cons in Ht' as [->|Ht']; [apply elem_of_union_l; by apply elem_of_singleton|].
      apply list_elem_of_singleton in Ht' as ->. apply elem_of_union_r. by apply elem_of_singleton.
    + intros Hx. apply elem_of_union in Hx as [Hx|Hx]; apply elem_of_singleton in Hx as ->;
        [exists sata|exists nand]; (split; [reflexivity|]);
        rewrite elem_of_list_to_set; repeat constructor.
Qed.

(** ** Computations *)

Lemma bind_Ok_inv {S A B} (m : M S A) (k : A → M S B) (s s' : S) (b : B) :
  bind m k s = (Ok b, s') → ∃ a s1, m s = (Ok a, s1) ∧ k a s1 = (Ok b, s').
Proof.
  unfold bind. destruct (m s) as [[a|e] s1]; [eauto|discriminate].
Qed.

Lemma bind_Ok {S A B} (m : M S A) (k : A → M S B) (s s1 : S) (a : A) :
  m s = (Ok a, s1) → bind m k s = k a s1.
Proof. unfold bind. by intros ->. Qed.

Lemma bind_Raise {S A B} (m : M S A) (k : A → M S B) (s s1 : S) (e : exn) :
  m s = (Raise e, s1) → bind m k s = (Raise e, s1).
Proof. unfold bind. by intros ->. Qed.

Lemma ret_inv {S A} (a b : A) (s s' : S) : ret a s = (Ok b, s') → a = b ∧ s = s'.
Proof. unfold ret. intros [= -> ->]. auto. Qed.

Lemma of_result_inv {S A} (r : result A) (a : A) (s s' : S) :
  of_result r s = (Ok a, s') → r = Ok a ∧ s = s'.
Proof. unfold of_result. intros [= -> ->]. auto. Qed.

Lemma try_except_Ok_inv {S A} (m : M S A) (handler : exn → M S A) (s s' : S) (a : A) :
  (∀ e s1, fst (handler e s1) ≠ Ok a) →
  try_except m handler s = (Ok a, s') → m s = (Ok a, s').
Proof.
  intros Hh. unfold try_except. destruct (m s) as [[x|e] s1]; [done|].
  intros Heq. specialize (Hh e s1). rewrite Heq in Hh. by destruct Hh.
Qed.

(** Unpacks a hypothesis that a sequence of steps returned a value. *)
Ltac step H x s Hx :=
  apply bind_Ok_inv in H as (x & s & Hx & H).

Section DiskFinderProperties.
Context `{Platform}.

(** *** The HDD pass *)



Lemma hdd_loop_inv (pool : list string) (res res' : list DiskRecord) (t t' : Target World) :
  for_each pool res (λ devices_res dev,
    let* r := hdd_record dev in ret (devices_res ++ [r])) t = (Ok res', t') →
  ∃ recs, res' = res ++ recs ∧ hdd_pass pool t recs t' ∧
    Forall2 (λ dev r, ∃ ta tb, hdd_record dev ta = (Ok r, tb)) pool recs.
Proof.
  revert res t. induction pool as [|dev pool IH]; intros res t Hloop; simpl in Hloop.
  - apply ret_inv in Hloop as [<- <-]. exists []. rewrite app_nil_r.
    repeat split; constructor.
  - step Hloop res1 t1 Hturn. step Hturn r t2 Hrec. apply ret_inv in Hturn as [<- <-].
    apply IH in Hloop as (recs & -> & Hpass & Hall). exists (r :: recs).
    split; [by rewrite <- app_assoc|]. split; [by econstructor|]. constructor; eauto.
Qed.

Lemma discover_hdd_devices_inv (pool pool' : list string) (res res' : list DiskRecord)
    (t t' : Target World) :
  discover_hdd_devices pool res t = (Ok (pool', res'), t') →
  pool' = [] ∧
  ∃ recs, res' = res ++ recs ∧ hdd_pass pool t recs t' ∧
    Forall2 (λ dev r, ∃ ta tb, hdd_record dev ta = (Ok r, tb)) pool recs.
Proof.
  unfold discover_hdd_devices. intros Hd. step Hd res1 t1 Hloop.
  apply ret_inv in Hd as [[= <- <-] <-]. split; [reflexivity|]. by eapply hdd_loop_inv.
Qed.


(** *** The pool *)

Lemma remove_Some (x : string) (l rest : list string) :
  Py.remove x l = Some rest → x ∈ l ∧ l ≡ₚ x :: rest ∧ rest `sublist_of` l.
Proof.
  revert rest. induction l as [|y l IH]; intros rest; simpl; [discriminate|].
  case_bool_decide as Hxy.
  - intros [= <-]. subst y. split; [left|]. split; [reflexivity|by apply sublist_cons].
  - destruct (Py.remove x l) as [rest'|]; [|discriminate]. intros [= <-].
    destruct (IH rest' eq_refl) as (Hin & Hperm & Hsub).
    split; [by right|]. split; [|by apply sublist_skip].
    rewrite Hperm. apply perm_swap.
Qed.

Lemma remove_member (x : string) (l : list string) : x ∈ l → is_Some (Py.remove x l).
Proof.
  induction l as [|y l IH]; [by intros ?%elem_of_nil|]. simpl.
  case_bool_decide as Hxy; [eauto|]. intros [?|Hin]%elem_of_cons; [done|].
  destruct (IH Hin) as [rest ->]. eauto.
Qed.

Lemma remove_each_Some (devs pool rest : list string) :
  Py.remove_each devs pool = Some rest →
  pool ≡ₚ devs ++ rest ∧ rest `sublist_of` pool.
Proof.
  revert pool. induction devs as [|d devs IH]; intros pool; simpl.
  - intros [= <-]. split; reflexivity.
  - destruct (Py.remove d pool) as [mid|] eqn:Hrm; [|discriminate]. intros Hrest.
    apply remove_Some in Hrm as (_ & Hperm & Hsub).
    apply IH in Hrest as (Hperm' & Hsub'). split.
    + by rewrite Hperm, Hperm'.
    + by etrans.
Qed.


(** *** The SSD pass *)

Lemma find_sata_ssd_device_path_inv (serial : string) (pool : list string)
    (t t' : Target World) (dev : string) :
  find_sata_ssd_device_path serial pool t = (Ok (Some dev), t') → dev ∈ pool.
Proof.
  unfold find_sata_ssd_device_path.
  assert (∀ (found : option string) t,
    for_each pool found (λ found dev,
      match found with
      | Some _ => ret found
      | None =>
          let* out := run_expect_success
                        ("sg_inq " +:+ dev +:+ " | grep '[Ss]erial number'") in
          let* field := of_result (Py.index (Py.split ": " (stdout out)) 1) in
          ret (if bool_decide (Py.strip field = serial) then Some dev else None)
      end) t = (Ok (Some dev), t') →
    found = Some dev ∨ dev ∈ pool) as Hgen.
  { induction pool as [|d pool IH]; intros found t0 Hloop; simpl in Hloop.
    - apply ret_inv in Hloop as [-> _]. by left.
    - step Hloop found1 t1 Hturn. apply IH in Hloop as [->|Hin]; [|right; by right].
      destruct found as [x|].
      + apply ret_inv in Hturn as [-> _]. by left.
      + step Hturn out t2 Hout. step Hturn field t3 Hfield.
        apply ret_inv in Hturn as [Heq _]. case_bool_decide; [|discriminate].
        injection Heq as ->. right. by left. }
  intros Hloop. apply Hgen in Hloop as [?|?]; [discriminate|assumption].
Qed.

Lemma ssd_entry_inv (i : nat) (pool : list string) (t t' : Target World)
    (dev : string) (r : DiskRecord) :
  ssd_entry i pool t = (Ok (Some (dev, r)), t') → dev ∈ pool ∧ rec_type r ∈ ssd_types.
Proof.
  unfold ssd_entry. intros He.
  step He out t1 Hout. step He device_path t2 Hpath. step He dev0 t3 Hdev0.
  case_bool_decide as Hin; cbn [negb] in He; [|by apply ret_inv in He as [? _]].
  step He out' t4 Hout'. step He field t5 Hfield. step He classified t6 Hclass.
  destruct classified as [[[ty d] dp]|]; [|by apply ret_inv in He as [? _]].
  step He p t7 Hp. step He l1 t8 Hl1. step He bs t9 Hbs. step He l2 t10 Hl2.
  step He sz t11 Hsz. apply ret_inv in He as [[= <- <-] _]. cbn [rec_type].
  destruct (negb (Py.contains "nvme" device_path)).
  - step Hclass found t12 Hfound. destruct found as [d'|].
    + apply ret_inv in Hclass as [[= <- <- _] _].
      apply find_sata_ssd_device_path_inv in Hfound. split; [assumption|].
      unfold ssd_types. set_solver.
    + by apply ret_inv in Hclass as [? _].
  - step Hclass out'' t12 Hout''.
    case_bool_decide; apply ret_inv in Hclass as [[= <- <- _] _];
      (split; [assumption|unfold ssd_types; set_solver]).
Qed.


Lemma ssd_loop_inv (idxs : list nat) (pool pool' : list string) (res res' : list DiskRecord)
    (t t' : Target World) :
  for_each idxs (pool, res) ssd_turn t = (Ok (pool', res'), t') →
  ∃ entries : list Entry,
    res' = res ++ ((λ e, snd (snd e)) <$> entries) ∧
    Py.remove_each ((λ e, fst (snd e)) <$> entries) pool = Some pool' ∧
    fst <$> entries `sublist_of` idxs ∧
    Forall (λ e : Entry, ∃ pool_i ta tb,
              pool_i `sublist_of` pool ∧
              ssd_entry (fst e) pool_i ta = (Ok (Some (snd e)), tb)) entries.
Proof.
  revert pool res t. induction idxs as [|i idxs IH]; intros pool res t Hloop; simpl in Hloop.
  - apply ret_inv in Hloop as [[= <- <-] _]. exists []. rewrite app_nil_r.
    repeat split; constructor.
  - step Hloop lists t1 Hturn. destruct lists as [pool1 res1].
    apply IH in Hloop as (entries & -> & Hrm & Hsub & Hall).
    unfold ssd_turn in Hturn. cbn [fst snd] in Hturn. step Hturn entry t2 Hentry.
    destruct entry as [[dev r]|].
    + destruct (Py.remove dev pool) as [rest|] eqn:Hrest; [|discriminate].
      apply ret_inv in Hturn as [[= <- <-] _]. exists ((i, (dev, r)) :: entries).
      rewrite !fmap_cons. cbn [fst snd Py.remove_each]. rewrite Hrest.
      split; [by rewrite <- app_assoc|]. split; [assumption|].
      split; [by apply sublist_skip|]. constructor.
      * exists pool, t, t2. split; [reflexivity|assumption].
      * eapply Forall_impl; [exact Hall|]. intros e (pool_i & ta & tb & Hp & He).
        exists pool_i, ta, tb. split; [|assumption].
        etrans; [exact Hp|]. by apply remove_Some in Hrest as (_ & _ & ?).
    + apply ret_inv in Hturn as [[= <- <-] _]. exists entries.
      split; [reflexivity|]. split; [assumption|]. split; [by apply sublist_cons|assumption].
Qed.

(** *** The candidate pool and the whole discovery *)


Lemma find_disks_inv (result : list DiskRecord) (t t' : Target World) :
  find_disks t = (Ok result, t') →
  ∃ pool t1 t2 count pool1 res1 t3 t4,
    get_block_devices_list t1 = (Ok pool, t2) ∧
    for_each (seq 0 count) (pool, []) ssd_turn t3 = (Ok (pool1, res1), t4) ∧
    discover_hdd_devices pool1 res1 t4 = (Ok ([], result), t').
Proof.
  unfold find_disks. intros Hf. step Hf output t1 Hisdct.
  case_bool_decide; cbn [negb] in Hf; [|discriminate].
  step Hf pool t2 Hpool. step Hf lists t3 Htry. destruct lists as [pool2 result'].
  apply ret_inv in Hf as [<- <-].
  apply try_except_Ok_inv in Htry; [|intros e s1; discriminate].
  step Htry lists t4 Hssd. destruct lists as [pool1 res1].
  pose proof Htry as Hhdd. apply discover_hdd_devices_inv in Hhdd as (-> & _).
  unfold discover_ssd_devices in Hssd. step Hssd out t5 Hcount. step Hssd n t6 Hn.
  exists pool, t1, t2, (Z.to_nat n), pool1, res1, t6, t4. auto.
Qed.







End DiskFinderProperties.

(** ** The SCSI address in a sysfs path *)

Lemma span_digits_spec (s d r : string) :
  Py.span_digits s = (d, r) → s = d +:+ r ∧ Py.all_digits d = true.
Proof.
  revert d r. induction s as [|c s IH]; intros d r; simpl.
  - intros [= <- <-]. auto.
  - destruct (Py.isdigit c) eqn:Hc.
    + destruct (Py.span_digits s) as [d' r']. intros [= <- <-].
      destruct (IH d' r' eq_refl) as (-> & Hd). simpl. rewrite Hc. auto.
    + intros [= <- <-]. auto.
Qed.

Lemma scsi_address_search_spec (s controller port tgt lun : string) :
  scsi_address_search s = Some (controller, port, tgt, lun) →
  address_tuple s controller port tgt lun.
Proof.
  unfold scsi_address_search.
  destruct (Py.span_digits s) as [d1 r1] eqn:E1. destruct r1 as [|c1 r1]; [discriminate|].
  destruct (Py.span_digits r1) as [d2 r2] eqn:E2. destruct r2 as [|c2 r2]; [discriminate|].
  destruct (Py.span_digits r2) as [d3 r3] eqn:E3. destruct r3 as [|c3 r3]; [discriminate|].
  destruct (Py.span_digits r3) as [d4 r4] eqn:E4.
  destruct (_ && _) eqn:Hcond; [|discriminate]. intros [= <- <- <- <-].
  apply andb_true_iff in Hcond as [Hcond Htail].
  apply andb_true_iff in Hcond as [Hcond Hn4]. apply andb_true_iff in Hcond as [Hcond Hn3].
  apply andb_true_iff in Hcond as [Hcond Hn2]. apply andb_true_iff in Hcond as [Hcond Hn1].
  apply andb_true_iff in Hcond as [Hcond Hs3]. apply andb_true_iff in Hcond as [Hs1 Hs2].
  apply negb_true_iff, bool_decide_eq_false in Hn1, Hn2, Hn3, Hn4.
  apply span_digits_spec in E1 as (-> & Hd1). apply span_digits_spec in E2 as (-> & Hd2).
  apply span_digits_spec in E3 as (-> & Hd3). apply span_digits_spec in E4 as (-> & Hd4).
  exists c1, c2, c3, r4. unfold is_number. repeat split; try assumption.
  apply orb_true_iff in Htail as [Ht|Ht]; apply bool_decide_eq_true in Ht; auto.
Qed.

Lemma scan_command_not_rescan (host_path controller port tgt lun : string) :
  scan_command host_path controller port tgt lun ≠ Sata_plug_all_command.
Proof. unfold scan_command, Sata_plug_all_command. simpl. discriminate. Qed.

(** ** Detection, plug and unplug *)

Section DiskProperties.
Context `{Platform}.

Lemma on_target_self {A} (m : M (Target World) A) (h h' : Harness World) (r : result A) :
  on_target m h = (r, h') → self h' = self h.
Proof. unfold on_target. destruct (m (target h)) as [r' t']. by intros [= _ <-]. Qed.

(** C8: on a disk that has neither a serial number nor a path,
    [is_detected] raises the exception that says the check cannot be made,
    and leaves the disk and the target as they were: no command is sent. *)
Theorem is_detected_needs_identity (h : Harness World) :
  truthy (serial_number (self h)) = false →
  truthy (path (self h)) = false →
  is_detected h =
    (Raise (Exception "Couldn't check if device is detected by the system"), h).
Proof.
  intros Hserial Hpath. unfold is_detected, bind, get_self. rewrite Hserial, Hpath.
  reflexivity.
Qed.

(** C4: [plug] on a disk that the detection check finds does nothing after
    that check, and neither does [unplug] on a disk that the check does not
    find: the disk and the target, with the commands sent to it, are left
    as the check left them. *)
Theorem plug_unplug_idempotent (h h' : Harness World) :
  (is_detected h = (Ok true, h') → plug h = (Ok tt, h')) ∧
  (is_detected h = (Ok false, h') → unplug h = (Ok tt, h')).
Proof.
  split; intros Hd; unfold plug, unplug; rewrite (bind_Ok _ _ _ _ _ Hd); reflexivity.
Qed.

(** *** What leaves the class of the disk, and so its plug command, alone *)

Lemma keeps_class_ret {A} (a : A) : keeps_class (ret a).
Proof. intros h r h' [= _ <-]. reflexivity. Qed.

Lemma keeps_class_raise {A} (e : exn) : keeps_class (@raise _ A e).
Proof. intros h r h' [= _ <-]. reflexivity. Qed.

Lemma keeps_class_of_result {A} (x : result A) : keeps_class (of_result x).
Proof. intros h r h' [= _ <-]. reflexivity. Qed.

Lemma keeps_class_on_target {A} (m : M (Target World) A) : keeps_class (on_target m).
Proof. intros h r h' Hm. by rewrite (on_target_self _ _ _ _ Hm). Qed.

Lemma keeps_class_bind {A B} (m : M (Harness World) A) (k : A → M (Harness World) B) :
  keeps_class m → (∀ a, keeps_class (k a)) → keeps_class (bind m k).
Proof.
  intros Hm Hk h r h'. unfold bind. destruct (m h) as [[a|e] h1] eqn:E.
  - intros Hka. rewrite (Hk _ _ _ _ Hka). by eapply Hm.
  - intros [= _ <-]. by eapply Hm.
Qed.

Lemma keeps_class_for_each {A B} (items : list A) (acc : B)
    (body : B → A → M (Harness World) B) :
  (∀ b a, keeps_class (body b a)) → keeps_class (for_each items acc body).
Proof.
  intros Hbody. revert acc. induction items as [|x items IH]; intros acc; simpl.
  - apply keeps_class_ret.
  - apply keeps_class_bind; [apply Hbody|intros b; apply IH].
Qed.

Lemma keeps_class_poll (n : nat) (predicate : M (Harness World) bool) :
  keeps_class predicate → keeps_class (poll n predicate).
Proof.
  intros Hp. induction n as [|n IH]; simpl; [apply keeps_class_ret|].
  apply keeps_class_bind; [assumption|]. intros []; [apply keeps_class_ret|assumption].
Qed.

Lemma keeps_class_get_self : keeps_class get_self.
Proof. intros h r h' [= _ <-]. reflexivity. Qed.

Lemma keeps_class_set_path (p : option string) : keeps_class (set_path p).
Proof. intros h r h' [= _ <-]. reflexivity. Qed.

Lemma keeps_class_set_partitions (ps : list Partition) : keeps_class (set_partitions ps).
Proof. intros h r h' [= _ <-]. reflexivity. Qed.

Lemma keeps_class_refresh_partition (p : string) (i : nat) :
  keeps_class (refresh_partition p i).
Proof.
  unfold refresh_partition. apply keeps_class_bind; [apply keeps_class_get_self|].
  intros d. destruct (partitions d !! i); [|apply keeps_class_ret].
  apply keeps_class_bind; [apply keeps_class_on_target|].
  intros a. apply keeps_class_set_partitions.
Qed.

Lemma keeps_class_is_detected : keeps_class is_detected.
Proof.
  unfold is_detected. apply keeps_class_bind; [apply keeps_class_get_self|]. intros d.
  destruct (truthy (serial_number d)).
  - apply keeps_class_bind; [apply keeps_class_on_target|]. intros serial_numbers.
    destruct (serial_numbers !! _); [|apply keeps_class_ret].
    apply keeps_class_bind; [apply keeps_class_set_path|]. intros _.
    apply keeps_class_bind; [|intros _; apply keeps_class_ret].
    apply keeps_class_for_each. intros _ i. apply keeps_class_refresh_partition.
  - destruct (truthy (path d)); [|apply keeps_class_raise].
    apply keeps_class_bind; [apply keeps_class_on_target|]. intros output.
    apply keeps_class_bind; [apply keeps_class_on_target|]. intros items.
    apply keeps_class_bind; [apply keeps_class_of_result|]. intros first.
    apply keeps_class_ret.
Qed.

Lemma keeps_class_wait_for_plug_status (visible : bool) :
  keeps_class (wait_for_plug_status visible).
Proof.
  unfold wait_for_plug_status, wait. apply keeps_class_bind.
  - apply keeps_class_poll. apply keeps_class_bind; [apply keeps_class_is_detected|].
    intros d. apply keeps_class_ret.
  - intros []; [apply keeps_class_ret|apply keeps_class_raise].
Qed.

(** *** Unplugging a SATA disk *)

Lemma on_target_Ok_inv {A} (m : M (Target World) A) (h h' : Harness World) (a : A) :
  on_target m h = (Ok a, h') →
  ∃ t', m (target h) = (Ok a, t') ∧ h' = mkHarness (self h) t'.
Proof.
  unfold on_target. destruct (m (target h)) as [r t']. intros [= -> <-]. eauto.
Qed.

Lemma run_issues (cmd : string) (t t' : Target World) (r : result Output) :
  run_expect_success cmd t = (r, t') → issued t' = issued t ++ [cmd].
Proof.
  unfold run_expect_success, bind, run. destruct (executor cmd (machine t)) as [out w].
  case_bool_decide; intros [= _ <-]; reflexivity.
Qed.

Lemma get_sysfs_properties_inv (device_id : string) (h h' : Harness World) (addr : FsItem) :
  get_sysfs_properties device_id h = (Ok addr, h') →
  ∃ scsi_address controller port tgt lun,
    (∃ ta output tb tc items,
       ls_item ("$(find -H /sys/devices/ -name " +:+ device_id +:+ " -type d)") ta
         = (Ok output, tb) ∧
       parse_ls_output output tb = (Ok items, tc) ∧
       Py.index items 0 = Ok (Some addr)) ∧
    Py.index (Py.split "/" (full_path addr)) (-3) = Ok scsi_address ∧
    scsi_address_search scsi_address = Some (controller, port, tgt, lun) ∧
    class (self h') =
      SataDisk (scan_command
                  (Py.join "/" (Py.takewhile (λ x, negb (Py.startswith "host" x))
                                             (Py.split "/" (full_path addr))))
                  controller port tgt lun).
Proof.
  unfold get_sysfs_properties. intros Hg.
  step Hg output h1 Hls. step Hg items h2 Hparse. step Hg item0 h3 Hfirst.
  apply on_target_Ok_inv in Hls as (t1 & Hls & ->).
  apply on_target_Ok_inv in Hparse as (t2 & Hparse & ->).
  apply of_result_inv in Hfirst as (Hfirst & <-). cbn [target self] in *.
  destruct item0 as [sysfs_addr|]; [|discriminate].
  step Hg scsi_address h4 Haddr. apply of_result_inv in Haddr as (Haddr & <-).
  destruct (scsi_address_search scsi_address) as [[[[controller port] tgt] lun]|] eqn:Hre;
    [|discriminate].
  step Hg u h5 Hset. apply ret_inv in Hg as [<- <-].
  exists scsi_address, controller, port, tgt, lun.
  split; [eauto 10|]. split; [assumption|]. split; [assumption|].
  unfold set_plug_command, bind, get_self, set_self in Hset.
  injection Hset as _ <-. reflexivity.
Qed.

(** C9: an [unplug] of a SATA disk that the detection check finds and that
    returns without an exception has resolved the sysfs address of the
    device, read the SCSI address [controller:port:target:lun] in the third
    component from the end of its path, sent the request to delete the
    device, and left in [plug_command] the scan command for that address,
    which writes [port target lun] to the scan file of the host; this is
    the command that a later [plug] sends when the check does not find the
    disk, in place of the rescan of every host. *)
Theorem sata_unplug_caches_scan_command (h h1 h' : Harness World) (old : string) :
  class (self h) = SataDisk old →
  is_detected h = (Ok true, h1) →
  unplug h = (Ok tt, h') →
  scan_command_cached h1 h'.
Proof.
  intros Hclass Hd Hu. unfold unplug in Hu. rewrite (bind_Ok _ _ _ _ _ Hd) in Hu.
  cbn [negb] in Hu. step Hu u h2 Hcmd.
  pose proof (keeps_class_is_detected _ _ _ Hd) as Hclass1. rewrite Hclass in Hclass1.
  pose proof (keeps_class_wait_for_plug_status _ _ _ _ Hu) as Hclass'.
  unfold execute_unplug_command in Hcmd. unfold bind at 1, get_self at 1 in Hcmd.
  rewrite Hclass1 in Hcmd.
  step Hcmd device_id h3 Hid. step Hcmd sysfs_addr h4 Hsys. step Hcmd out h5 Hdel.
  apply ret_inv in Hcmd as [_ <-].
  apply on_target_Ok_inv in Hid as (t3 & Hid & ->).
  pose proof (on_target_self _ _ _ _ Hdel) as Hself5.
  apply on_target_Ok_inv in Hdel as (t5 & Hdel & ->).
  apply get_sysfs_properties_inv in Hsys
    as (scsi_address & controller & port & tgt & lun & Hres & Haddr & Hre & Hcached).
  unfold scan_command_cached.
  exists device_id, sysfs_addr, scsi_address, controller, port, tgt, lun.
  split; [eauto|]. split; [exact Hres|]. split; [exact Haddr|]. split; [exact Hre|].
  split; [by apply scsi_address_search_spec|].
  split; [exists (target h4), out, t5; split; [exact Hdel|by eapply run_issues]|].
  cbv zeta. split; [reflexivity|].
  cbn [self] in Hclass'. rewrite Hcached in Hclass'.
  split; [exact Hclass'|]. split; [apply scan_command_not_rescan|].
  intros g g1 Hg Hdg out' w Hexec. rewrite Hclass' in Hg.
  pose proof (keeps_class_is_detected _ _ _ Hdg) as Hg1. rewrite Hg in Hg1.
  unfold plug. rewrite (bind_Ok _ _ _ _ _ Hdg).
  unfold execute_plug_command, bind, get_self. rewrite Hg1.
  unfold on_target, run_expect_success, bind, run. rewrite Hexec.
  case_bool_decide; reflexivity.
Qed.

(** *** Polling *)

Lemma poll_never {S} (Inv : nat → S → Prop) (predicate : M S bool) (n k : nat) (x : S) :
  (∀ j y, (k ≤ j < k + n)%nat → Inv j y →
     ∃ y', predicate y = (Ok false, y') ∧ Inv (Datatypes.S j) y') →
  Inv k x → ∃ x', poll n predicate x = (Ok false, x') ∧ Inv (k + n)%nat x'.
Proof.
  revert k x. induction n as [|n IH]; intros k x Hstep Hinv.
  - exists x. rewrite Nat.add_0_r. auto.
  - destruct (Hstep k x) as (x1 & Hp & Hinv1); [lia|assumption|].
    destruct (IH (Datatypes.S k) x1) as (x' & Hpoll & Hinv'); [|assumption|].
    { intros j y Hj. apply Hstep. lia. }
    exists x'. cbn [poll]. rewrite (bind_Ok _ _ _ _ _ Hp).
    split; [assumption|]. by rewrite Nat.add_succ_r.
Qed.

Lemma wait_for_plug_status_timeout (Inv : nat → Harness World → Prop) (visible : bool)
    (h : Harness World) :
  (∀ n x, (n < 60)%nat → Inv n x →
     ∃ x', is_detected x = (Ok (negb visible), x') ∧ Inv (Datatypes.S n) x') →
  Inv O h →
  ∃ h', wait_for_plug_status visible h = (Raise (Exception (timeout_message visible)), h') ∧
        Inv 60%nat h'.
Proof.
  intros Hstep Hinv. unfold wait_for_plug_status, wait.
  change (timedelta_minutes 1 / timedelta_seconds 1)%nat with 60%nat.
  destruct (poll_never Inv
              (let* detected := is_detected in ret (bool_decide (visible = detected)))
              60 0 h) as (h' & Hpoll & Hinv'); [|assumption|].
  - intros j y Hj Hy. destruct (Hstep j y) as (y' & Hd & Hy'); [lia|assumption|].
    exists y'. split; [|assumption]. rewrite (bind_Ok _ _ _ _ _ Hd).
    unfold ret. by destruct visible.
  - exists h'. split; [|assumption]. rewrite (bind_Ok _ _ _ _ _ Hpoll). reflexivity.
Qed.

(** C5 (as the code has it): when the detection check, made once per
    second for the 60 seconds that follow the command, keeps finding the
    disk, [unplug] raises a timeout exception whose message names the
    action, "unplug"; [plug] does the same, with "plug", when the check
    keeps missing the disk.  The message is the same for every type of
    disk.  [Inv n] holds of the state after [n] checks. *)
Theorem transition_timeout (Inv : nat → Harness World → Prop) (visible : bool)
    (h h1 h2 : Harness World) :
  is_detected h = (Ok (negb visible), h1) →
  (if visible then execute_plug_command else execute_unplug_command) h1 = (Ok tt, h2) →
  Inv O h2 →
  (∀ n x, (n < 60)%nat → Inv n x →
     ∃ x', is_detected x = (Ok (negb visible), x') ∧ Inv (Datatypes.S n) x') →
  ∃ h3,
    (if visible then plug else unplug) h =
      (Raise (Exception ("Timeout occurred while trying to " +:+
                         (if visible then "plug" else "unplug") +:+ " disk.")), h3) ∧
    Inv 60%nat h3.
Proof.
  intros Hd Hcmd Hinv Hstep.
  destruct (wait_for_plug_status_timeout Inv visible h2 Hstep Hinv) as (h3 & Hw & Hinv3).
  exists h3. split; [|assumption].
  destruct visible; unfold plug, unplug; rewrite (bind_Ok _ _ _ _ _ Hd); cbn [negb];
    rewrite (bind_Ok _ _ _ _ _ Hcmd); exact Hw.
Qed.

End DiskProperties.

(** ** The properties on the laboratory host *)



Lemma lower_than_types_witness :
  types ∅ (DiskTypeLowerThan "cache") = Raise (LookupError "Disk type not resolved!") ∧
  ∃ s, types (<["cache" := Lab.ssd]> ∅) (DiskTypeLowerThan "cache") = Ok s ∧
       ∀ t, t ∈ s ↔ value t < value (disk_type Lab.ssd).
Proof. apply (lower_than_types ∅ "cache" Lab.ssd). reflexivity. Defined.

Lemma comparison_of_minima_witness :
  ∃ a b, least {[sata; nand]} a ∧ least {[hdd4k; optane]} b ∧
    __lt__ ∅ (DiskTypeSet {[sata; nand]}) (DiskTypeSet {[hdd4k; optane]})
      = Ok (bool_decide (value a < value b)) ∧
    __le__ ∅ (DiskTypeSet {[sata; nand]}) (DiskTypeSet {[hdd4k; optane]})
      = Ok (bool_decide (value a ≤ value b)) ∧
    __eq__ ∅ (DiskTypeSet {[sata; nand]}) (DiskTypeSet {[hdd4k; optane]})
      = Ok (bool_decide (a = b)) ∧
    __ne__ ∅ (DiskTypeSet {[sata; nand]}) (DiskTypeSet {[hdd4k; optane]})
      = Ok (bool_decide (a ≠ b)) ∧
    __gt__ ∅ (DiskTypeSet {[sata; nand]}) (DiskTypeSet {[hdd4k; optane]})
      = Ok (bool_decide (value b < value a)) ∧
    __ge__ ∅ (DiskTypeSet {[sata; nand]}) (DiskTypeSet {[hdd4k; optane]})
      = Ok (bool_decide (value b ≤ value a)).
Proof.
  apply (comparison_of_minima ∅ (DiskTypeSet {[sata; nand]}) (DiskTypeSet {[hdd4k; optane]})
           {[sata; nand]} {[hdd4k; optane]}); try reflexivity.
  - intros Heq. apply (f_equal elements) in Heq. vm_compute in Heq. discriminate Heq.
  - intros Heq. apply (f_equal elements) in Heq. vm_compute in Heq. discriminate Heq.
Defined.

Example comparison_of_minima_values :
  __lt__ ∅ (DiskTypeSet {[sata; nand]}) (DiskTypeSet {[hdd4k; optane]}) = Ok false ∧
  __gt__ ∅ (DiskTypeSet {[sata; nand]}) (DiskTypeSet {[hdd4k; optane]}) = Ok true ∧
  __eq__ ∅ (DiskTypeSet {[sata; nand]}) (DiskTypeSet {[sata; optane]}) = Ok true.
Proof. repeat split; vm_compute; reflexivity. Qed.

Lemma comparison_needs_members_witness :
  (∃ err, __lt__ (<["core" := Lab.anonymous]> ∅)
            (DiskTypeLowerThan "core") (DiskTypeSet {[sata]}) = Raise err) ∧
  (∃ err, __eq__ (<["core" := Lab.anonymous]> ∅)
            (DiskTypeSet {[sata]}) (DiskTypeSet_init []) = Raise err).
Proof.
  split.
  - apply (proj1 (proj2 (comparison_needs_members (<["core" := Lab.anonymous]> ∅)
                           (DiskTypeLowerThan "core") (DiskTypeSet {[sata]})))).
    left. vm_compute. reflexivity.
  - apply (proj1 (proj2 (comparison_needs_members (<["core" := Lab.anonymous]> ∅)
                           (DiskTypeSet {[sata]}) (DiskTypeSet_init [])))).
    right. reflexivity.
Defined.

Lemma is_detected_needs_identity_witness :
  is_detected (mkHarness Lab.anonymous (Lab.start Lab.online)) =
    (Raise (Exception "Couldn't check if device is detected by the system"),
     mkHarness Lab.anonymous (Lab.start Lab.online)).
Proof.
  apply (is_detected_needs_identity (H:=Lab.host) (mkHarness Lab.anonymous (Lab.start Lab.online)));
    reflexivity.
Defined.

Lemma plug_unplug_idempotent_witness :
  plug Lab.ssd_attached = (Ok tt, snd (is_detected Lab.ssd_attached)) ∧
  unplug Lab.ssd_detached = (Ok tt, snd (is_detected Lab.ssd_detached)).
Proof.
  split.
  - apply (proj1 (plug_unplug_idempotent (H:=Lab.host) Lab.ssd_attached (snd (is_detected Lab.ssd_attached)))).
    vm_compute. reflexivity.
  - apply (proj2 (plug_unplug_idempotent (H:=Lab.host) Lab.ssd_detached (snd (is_detected Lab.ssd_detached)))).
    vm_compute. reflexivity.
Defined.



Lemma sata_unplug_caches_scan_command_witness :
  scan_command_cached (snd (is_detected Lab.ssd_attached)) (snd (unplug Lab.ssd_attached)).
Proof.
  apply (sata_unplug_caches_scan_command (H:=Lab.host) Lab.ssd_attached _ _ Sata_plug_all_command);
    vm_compute; reflexivity.
Defined.

Example sata_unplug_then_plug :
  class (self (snd (unplug Lab.ssd_attached))) = SataDisk Lab.sdd_scan ∧
  fst ((let* _ := unplug in plug) Lab.ssd_attached) = Ok tt ∧
  last (issued (target (snd (execute_plug_command (snd (unplug Lab.ssd_attached))))))
    = Some Lab.sdd_scan.
Proof. repeat split; vm_compute; reflexivity. Qed.

Lemma transition_timeout_witness :
  ∃ h3, unplug Lab.ssd_stuck =
          (Raise (Exception ("Timeout occurred while trying to " +:+ "unplug" +:+ " disk.")), h3) ∧
        Lab.still_attached 60 h3.
Proof.
  apply (transition_timeout (H:=Lab.host) Lab.still_attached false Lab.ssd_stuck
           (snd (is_detected Lab.ssd_stuck))
           (snd (execute_unplug_command (snd (is_detected Lab.ssd_stuck))))).
  - vm_compute. reflexivity.
  - vm_compute. reflexivity.
  - split; vm_compute; reflexivity.
  - intros n [d [w log]] _ [Hd Hw]. simpl in Hd, Hw. subst d w.
    eexists. split; [vm_compute; reflexivity|]. split; reflexivity.
Defined.

(** C5, as stated, fails: the message of the timeout of [unplug] on the
    SATA drive of the laboratory host does not name the type of the disk,
    nor the name of any other type. *)
Lemma timeout_message_omits_disk_type :
  fst (unplug Lab.ssd_stuck) = Raise (Exception "Timeout occurred while trying to unplug disk.") ∧
  disk_type (self (snd (unplug Lab.ssd_stuck))) = sata ∧
  Py.contains (name sata) "Timeout occurred while trying to unplug disk." = false ∧
  forallb (λ t, negb (Py.contains (name t) "Timeout occurred while trying to unplug disk."))
          all_DiskType = true.
Proof. repeat split; vm_compute; reflexivity. Qed.

(** ** Further properties of the code *)

(** * Further properties of the two modules *)

(** ** Type-constraint expressions *)

(** X1: the six operators fail alike, and with the exception of the first
    operand, from the left, whose [min(types())] raises: that of the left
    operand when it raises, and that of the right operand only when the
    left operand gave a minimum.  When they return they agree with one
    another: [<=] is [<] or [==], [!=] is the negation of [==], [>] that
    of [<=], [>=] that of [<], and [<] and [==] never both hold. *)
Theorem operators_agree (disks : gmap string Disk) (A B : DiskTypeSetBase) :
  (∃ e, (min_types disks A = Raise e ∨
         ((∃ a, min_types disks A = Ok a) ∧ min_types disks B = Raise e)) ∧
        __lt__ disks A B = Raise e ∧ __le__ disks A B = Raise e ∧
        __eq__ disks A B = Raise e ∧ __ne__ disks A B = Raise e ∧
        __gt__ disks A B = Raise e ∧ __ge__ disks A B = Raise e) ∨
  (∃ (a b : DiskType) (l e : bool),
      min_types disks A = Ok a ∧ min_types disks B = Ok b ∧
      __lt__ disks A B = Ok l ∧ __eq__ disks A B = Ok e ∧
      __le__ disks A B = Ok (l || e) ∧ __ne__ disks A B = Ok (negb e) ∧
      __gt__ disks A B = Ok (negb (l || e)) ∧ __ge__ disks A B = Ok (negb l) ∧
      (l && e) = false ∧
      __gt__ disks B A = Ok l ∧ __eq__ disks B A = Ok e).
Proof.
  unfold __lt__, __le__, __eq__, __ne__, __gt__, __ge__, on_mins.
  destruct (min_types disks A) as [a|ea]; [|left; eauto 10].
  destruct (min_types disks B) as [b|eb]; [|left; exists eb; eauto 12].
  right. exists a, b, (bool_decide (value a < value b)), (bool_decide (value a = value b)).
  repeat split; f_equal; repeat case_bool_decide; simpl; try reflexivity; lia.
Qed.

(** X2: [types] returns a set exactly when [resolved] holds, and the set
    of a [DiskTypeLowerThan] over a registered disk leaves out the type of
    the disk, is closed under going down the order, and has as many
    members as the ordinal of that type. *)
Theorem resolved_types (disks : gmap string Disk) (e : DiskTypeSetBase) :
  (resolved disks e = true ↔ (∃ s, types disks e = Ok s)) ∧
  (∀ X d s, e = DiskTypeLowerThan X → disks !! X = Some d → types disks e = Ok s →
     (disk_type d ∉ s) ∧
     (∀ a b, b ∈ s → value a ≤ value b → a ∈ s) ∧
     Z.of_nat (size s) = value (disk_type d)).
Proof.
  split.
  - destruct e as [s|X]; simpl.
    + split; eauto.
    + case_bool_decide as HX; simpl.
      * apply elem_of_dom in HX as [d ->]. split; eauto.
      * split; [discriminate|]. intros [s [=]].
  - intros X d s -> HX. simpl. rewrite bool_decide_eq_true_2 by (apply elem_of_dom; eauto).
    simpl. rewrite HX. intros [= <-]. split; [|split].
    + rewrite lower_than_set. lia.
    + intros a b. rewrite !lower_than_set. lia.
    + destruct (disk_type d); reflexivity.
Qed.

Lemma resolved_types_witness :
  (disk_type Lab.ssd ∉ ({[hdd; hdd4k]} : gset DiskType)) ∧
  (∀ a b, b ∈ ({[hdd; hdd4k]} : gset DiskType) → value a ≤ value b →
          a ∈ ({[hdd; hdd4k]} : gset DiskType)) ∧
  Z.of_nat (size ({[hdd; hdd4k]} : gset DiskType)) = value (disk_type Lab.ssd).
Proof.
  apply (proj2 (resolved_types (<["cache" := Lab.ssd]> ∅) (DiskTypeLowerThan "cache"))
           "cache" Lab.ssd); reflexivity.
Defined.

(** X3: decoding the serialized form of a [DiskTypeLowerThan] gives the
    operator ["lt"] with the name of the disk as its only argument,
    whatever the name; the serialization does not need the disk to be
    registered. *)
Theorem serialized_lower_than (disks : gmap string Disk) (disk_name : string) :
  ∃ decoded,
    Json.loads (json (DiskTypeLowerThan disk_name)) = Some decoded ∧
    Json.field "type" decoded = Some (JStr "operator") ∧
    Json.field "name" decoded = Some (JStr "lt") ∧
    Json.field "args" decoded ≫= Json.strings = Some [disk_name] ∧
    (disks !! disk_name = None → types disks (DiskTypeLowerThan disk_name)
                                  = Raise (LookupError "Disk type not resolved!")).
Proof.
  exists (JDict [("type", JStr "operator"); ("name", JStr "lt");
                 ("args", JList [JStr disk_name])]).
  split; [apply loads_dumps|]. do 3 (split; [reflexivity|]).
  intros Hnone. simpl. rewrite bool_decide_eq_false_2; [reflexivity|].
  intros [d Hd]%elem_of_dom. congruence.
Qed.

(** ** The required features of a disk *)

Lemma size_intersection_subseteq (X Y : gset string) : size (X ∩ Y) = size X ↔ X ⊆ Y.
Proof.
  split.
  - intros Hsize x Hx. assert (X ∩ Y ≡ X) as Heq.
    { apply set_subseteq_size_equiv; [apply intersection_subseteq_l|lia]. }
    apply Heq in Hx. by apply elem_of_intersection in Hx as [_ ?].
  - intros Hsub. f_equal. apply set_eq. intros x. rewrite elem_of_intersection.
    split; [tauto|]. intros Hx. split; [assumption|by apply Hsub].
Qed.

(** X4: [has_features] holds exactly when every feature required of the
    type of the disk is a feature of the disk; a type of which nothing is
    required, or with an empty requirement, always passes. *)
Theorem has_features_spec (d : Disk) (req_features : gmap DiskType (list string)) :
  has_features d req_features = true ↔
  ∀ required, req_features !! disk_type d = Some required →
    ∀ f, f ∈ required → f ∈ features d.
Proof.
  unfold has_features. destruct (req_features !! disk_type d) as [required|].
  - cbv zeta. rewrite bool_decide_eq_true, size_intersection_subseteq. split.
    + intros Hsub ? [= <-] f Hf. specialize (Hsub f). rewrite !elem_of_list_to_set in Hsub. auto.
    + intros Hall f. rewrite !elem_of_list_to_set. by apply Hall.
  - split; [intros _ ? [=]|reflexivity].
Qed.

(** ** Discovery *)

Section DiscoveryProperties.
Context `{Platform}.

Lemma run_expect_success_Ok_inv (cmd : string) (t t' : Target World) (out : Output) :
  run_expect_success cmd t = (Ok out, t') →
  executor cmd (machine t) = (out, machine t') ∧ exit_code out = 0 ∧
  issued t' = issued t ++ [cmd].
Proof.
  unfold run_expect_success, bind, run. destruct (executor cmd (machine t)) as [o w].
  case_bool_decide; [|discriminate]. intros [= <- <-]. auto.
Qed.

Lemma run_expect_success_fails (cmd : string) (t : Target World) (out : Output) (w : World) :
  executor cmd (machine t) = (out, w) → exit_code out ≠ 0 →
  run_expect_success cmd t =
    (Raise (CmdException (failure_message cmd out) out), mkTarget w (issued t ++ [cmd])).
Proof.
  intros Hex Hcode. unfold run_expect_success, bind, run. rewrite Hex.
  by rewrite bool_decide_eq_false_2.
Qed.

Lemma run_expect_success_succeeds (cmd : string) (t : Target World) (out : Output) (w : World) :
  executor cmd (machine t) = (out, w) → exit_code out = 0 →
  run_expect_success cmd t = (Ok out, mkTarget w (issued t ++ [cmd])).
Proof.
  intros Hex Hcode. unfold run_expect_success, bind, run. rewrite Hex.
  by rewrite bool_decide_eq_true_2.
Qed.

(** X5: when the vendor tool cannot be run, [find_disks] raises an
    exception that names the command and carries its two outputs, and
    sends nothing else to the target. *)
Theorem find_disks_without_vendor_tool (t : Target World) (out : Output) (w : World) :
  executor "isdct" (machine t) = (out, w) →
  exit_code out ≠ 0 →
  find_disks t =
    (Raise (Exception ("Error while executing command: 'isdct'." +:+ Py.nl +:+
                       "stdout: " +:+ stdout out +:+ Py.nl +:+
                       "stderr: " +:+ stderr out)),
     mkTarget w (issued t ++ ["isdct"])).
Proof.
  intros Hex Hcode. unfold find_disks, bind, run. rewrite Hex.
  by rewrite bool_decide_eq_false_2.
Qed.

(** X6: an exception of [find_disks] is either the one that listing the
    candidate devices raised, unchanged, or a plain [Exception]: whatever
    the two passes raise comes out as an [Exception] whose message is the
    fixed prefix followed by the message of what was raised. *)
Theorem find_disks_exceptions (t t' : Target World) (e : exn) :
  find_disks t = (Raise e, t') →
  (∃ ta tb, get_block_devices_list ta = (Raise e, tb)) ∨
  (∃ msg, e = Exception ("Error while executing command: 'isdct'." +:+ msg)) ∨
  (∃ cause pool ta tb,
     e = Exception ("Exception occurred while looking for disks: " +:+ exn_str cause) ∧
     ((discover_ssd_devices pool [] ta = (Raise cause, tb)) ∨
      (∃ res, discover_hdd_devices pool res ta = (Raise cause, tb)))).
Proof.
  unfold find_disks. unfold bind at 1. unfold run at 1.
  destruct (executor "isdct" (machine t)) as [out w].
  case_bool_decide; cbn [negb].
  2:{ intros [= <- _]. right. left. eauto. }
  unfold bind at 1. destruct (get_block_devices_list _) as [[pool|e0] t1] eqn:Hpool.
  2:{ intros [= <- _]. left. eauto. }
  unfold bind at 1, try_except.
  unfold bind at 1. destruct (discover_ssd_devices pool [] t1) as [[[pool1 res1]|e1] t2] eqn:Hssd.
  - destruct (discover_hdd_devices pool1 res1 t2) as [[[pool2 res2]|e2] t3] eqn:Hhdd.
    + discriminate.
    + intros [= <- _]. right. right. exists e2, pool1, t2, t3. eauto.
  - intros [= <- _]. right. right. exists e1, pool, t1, t2. eauto.
Qed.


(** *** Stable links *)

Lemma resolve_loop_inv (path : string) (links : list string) (found : option string)
    (link : string) (t t' : Target World) :
  for_each links found (λ found full_path,
    match found with
    | Some _ => ret found
    | None =>
        let* a := readlink full_path in
        let* b := readlink (Py.path_join "/dev" path) in
        ret (if bool_decide (a = b) then Some full_path else None)
    end) t = (Ok (Some link), t') →
  found = Some link ∨
  (link ∈ links ∧ ∃ ta tb tc target,
     readlink link ta = (Ok target, tb) ∧
     readlink (Py.path_join "/dev" path) tb = (Ok target, tc)).
Proof.
  revert found t. induction links as [|l links IH]; intros found t Hloop; simpl in Hloop.
  - apply ret_inv in Hloop as [-> _]. by left.
  - step Hloop found1 t1 Hturn. apply IH in Hloop as [->|(Hin & Hread)].
    + destruct found as [x|].
      * apply ret_inv in Hturn as [-> _]. by left.
      * step Hturn a t2 Ha. step Hturn b t3 Hb. apply ret_inv in Hturn as [Heq _].
        case_bool_decide as Hab; [|discriminate]. injection Heq as ->. subst b.
        right. split; [by left|]. eauto 10.
    + right. split; [by right|assumption].
Qed.

(** X7: the link that [resolve_to_by_id_link] returns is one of the
    entries of [/dev/disk/by-id], and reading it gave the same target as
    reading the device under [/dev]. *)
Theorem resolved_link_points_to_device (path link : string) (t t' : Target World) :
  resolve_to_by_id_link path t = (Ok link, t') →
  ∃ out t1 entry,
    run_expect_success "ls /dev/disk/by-id -1" t = (Ok out, t1) ∧
    entry ∈ Py.splitlines (stdout out) ∧
    link = Py.path_join "/dev/disk/by-id" entry ∧
    ∃ ta tb tc target,
      readlink link ta = (Ok target, tb) ∧
      readlink (Py.path_join "/dev" path) tb = (Ok target, tc).
Proof.
  unfold resolve_to_by_id_link. intros Hr. step Hr out t1 Hout. step Hr found t2 Hloop.
  destruct found as [l|]; [|discriminate]. apply ret_inv in Hr as [-> _].
  apply resolve_loop_inv in Hloop as [?|(Hin & Hread)]; [discriminate|].
  apply list_elem_of_fmap in Hin as (entry & -> & Hentry). eauto 10.
Qed.

(** X8: when [/dev/disk/by-id] has no entry, [resolve_to_by_id_link]
    raises a [ValueError] that names the device, after the listing alone. *)
Theorem no_link_without_entries (path : string) (t : Target World) (out : Output) (w : World) :
  executor "ls /dev/disk/by-id -1" (machine t) = (out, w) →
  exit_code out = 0 →
  Py.splitlines (stdout out) = [] →
  resolve_to_by_id_link path t =
    (Raise (ValueError ("By-id device link not found for device " +:+ path)),
     mkTarget w (issued t ++ ["ls /dev/disk/by-id -1"])).
Proof.
  intros Hex Hcode Hlines. unfold resolve_to_by_id_link.
  rewrite (bind_Ok _ _ _ _ _ (run_expect_success_succeeds _ _ _ _ Hex Hcode)).
  rewrite Hlines. reflexivity.
Qed.

(** *** Serial numbers *)

(** X9: [get_disk_serial_number] never raises.  It sends the first [k]
    of its three queries, one after the other, where every output before
    the last one was empty; the last output is empty only when all three
    queries were sent.  Its result is the last output, and [None] when
    that too is empty, and nothing but the [k] queries reached the
    target. *)
Theorem serial_number_queries (dev_path : string) (t : Target World) :
  ∃ (k : nat) (before : list Output) (final : Output) (w' : World),
    (1 ≤ k ≤ 3)%nat ∧
    outputs (take k (serial_commands dev_path)) (machine t) = (before ++ [final], w') ∧
    Forall (λ out, stdout out = "") before ∧
    (stdout final = "" → k = 3%nat) ∧
    get_disk_serial_number dev_path t =
      (Ok (if bool_decide (stdout final = "") then None else Some (stdout final)),
       mkTarget w' (issued t ++ take k (serial_commands dev_path))).
Proof.
  unfold get_disk_serial_number. fold (serial_commands dev_path).
  destruct (serial_commands dev_path) as [|c1 [|c2 [|c3 [|]]]] eqn:Hcmds; try discriminate Hcmds.
  cbn [for_each]. unfold bind, run, ret.
  destruct (executor c1 (machine t)) as [o1 w1] eqn:E1. cbn [machine issued negb].
  destruct (decide (stdout o1 = "")) as [H1|H1].
  - rewrite (bool_decide_eq_true_2 _ H1). cbn [negb machine issued].
    destruct (executor c2 w1) as [o2 w2] eqn:E2. cbn [machine issued negb].
    destruct (decide (stdout o2 = "")) as [H2|H2].
    + rewrite (bool_decide_eq_true_2 _ H2). cbn [negb machine issued].
      destruct (executor c3 w2) as [o3 w3] eqn:E3. cbn [machine issued negb].
      exists 3%nat, [o1; o2], o3, w3. split; [lia|].
      split; [cbn [take outputs]; by rewrite E1, E2, E3|].
      split; [by repeat constructor|]. split; [reflexivity|].
      rewrite <- !app_assoc. by destruct (bool_decide (stdout o3 = "")).
    + rewrite (bool_decide_eq_false_2 _ H2). cbn [negb machine issued].
      exists 2%nat, [o1], o2, w2. split; [lia|].
      split; [cbn [take outputs]; by rewrite E1, E2|].
      split; [by repeat constructor|]. split; [done|].
      rewrite <- !app_assoc, (bool_decide_eq_false_2 _ H2). reflexivity.
  - rewrite (bool_decide_eq_false_2 _ H1). cbn [negb machine issued].
    exists 1%nat, [], o1, w1. split; [lia|].
    split; [cbn [take outputs]; by rewrite E1|].
    split; [constructor|]. split; [done|].
    rewrite (bool_decide_eq_false_2 _ H1). reflexivity.
Qed.

Lemma serial_map_inv (pool : list string) (m m' : gmap string string) (t t' : Target World) :
  for_each pool m (λ serial_numbers dev,
    let* serial := get_disk_serial_number dev in
    match serial with
    | Some serial => ret (<[serial := dev]> serial_numbers)
    | None => ret (<[dev := dev]> serial_numbers)
    end) t = (Ok m', t') →
  (∀ k v, m' !! k = Some v →
     m !! k = Some v ∨
     (v ∈ pool ∧ (k = v ∨ ∃ ta tb, get_disk_serial_number v ta = (Ok (Some k), tb)))) ∧
  (∀ k, is_Some (m !! k) → is_Some (m' !! k)) ∧
  (∀ dev, dev ∈ pool →
     ∃ k, is_Some (m' !! k) ∧
          (k = dev ∨ ∃ ta tb, get_disk_serial_number dev ta = (Ok (Some k), tb))).
Proof.
  revert m t. induction pool as [|dev pool IH]; intros m t Hloop; simpl in Hloop.
  - apply ret_inv in Hloop as [<- _]. split; [auto|]. split; [auto|].
    intros dev Hin. by apply elem_of_nil in Hin.
  - step Hloop m1 t1 Hturn. step Hturn serial t2 Hserial.
    apply IH in Hloop as (Hvals & Hkeys & Hcover).
    assert (∃ key, m1 = <[key := dev]> m ∧
              (key = dev ∨ ∃ ta tb, get_disk_serial_number dev ta = (Ok (Some key), tb)))
      as (key & -> & Hkey).
    { destruct serial as [s|]; apply ret_inv in Hturn as [<- _]; eauto 10. }
    split; [|split].
    + intros k v Hkv. apply Hvals in Hkv as [Hkv|(Hin & Hk)].
      * destruct (decide (key = k)) as [->|Hne].
        -- rewrite lookup_insert_eq in Hkv. injection Hkv as <-.
           right. split; [by left|assumption].
        -- rewrite lookup_insert_ne in Hkv by assumption. by left.
      * right. split; [by right|assumption].
    + intros k Hk. apply Hkeys. destruct (decide (key = k)) as [->|Hne].
      * rewrite lookup_insert_eq. eauto.
      * by rewrite lookup_insert_ne.
    + intros d [->|Hin]%elem_of_cons; [|by apply Hcover].
      exists key. split; [|assumption]. apply Hkeys. rewrite lookup_insert_eq. eauto.
Qed.

(** X10: in the dictionary of [get_all_serial_numbers] every value is a
    candidate device, under the serial number that a query gave for it or
    under its own path; and every candidate device has such a key in the
    dictionary. *)
Theorem serial_numbers_of_pool (m : gmap string string) (t t' : Target World) :
  get_all_serial_numbers t = (Ok m, t') →
  ∃ pool t1,
    get_block_devices_list t = (Ok pool, t1) ∧
    (∀ k v, m !! k = Some v →
       v ∈ pool ∧ (k = v ∨ ∃ ta tb, get_disk_serial_number v ta = (Ok (Some k), tb))) ∧
    (∀ dev, dev ∈ pool →
       ∃ k, is_Some (m !! k) ∧
            (k = dev ∨ ∃ ta tb, get_disk_serial_number dev ta = (Ok (Some k), tb))).
Proof.
  unfold get_all_serial_numbers. intros Hm. step Hm pool t1 Hpool.
  apply serial_map_inv in Hm as (Hvals & _ & Hcover).
  exists pool, t1. split; [assumption|]. split; [|assumption].
  intros k v Hkv. apply Hvals in Hkv as [Hkv|?]; [|assumption].
  by rewrite lookup_empty in Hkv.
Qed.


(** *** The search of a SATA drive by its serial number *)

Lemma find_sata_loop_inv (serial_number : string) (pool : list string)
    (found r : option string) (t t' : Target World) :
  for_each pool found (λ found dev,
    match found with
    | Some _ => ret found
    | None =>
        let* out := run_expect_success
                      ("sg_inq " +:+ dev +:+ " | grep '[Ss]erial number'") in
        let* field := of_result (Py.index (Py.split ": " (stdout out)) 1) in
        ret (if bool_decide (Py.strip field = serial_number) then Some dev else None)
    end) t = (Ok r, t') →
  match found with
  | Some _ => r = found ∧ t' = t
  | None =>
      match r with
      | Some dev =>
          ∃ before after, pool = before ++ dev :: after ∧
            Forall (λ d, serial_answer serial_number d false) before ∧
            serial_answer serial_number dev true
      | None => Forall (λ d, serial_answer serial_number d false) pool
      end
  end.
Proof.
  revert found t. induction pool as [|d pool IH]; intros found t Hloop; simpl in Hloop.
  - apply ret_inv in Hloop as [<- <-]. destruct found; [auto|constructor].
  - step Hloop found1 t1 Hturn. apply IH in Hloop. destruct found as [x|].
    + apply ret_inv in Hturn as [<- <-]. exact Hloop.
    + step Hturn out t2 Hout. step Hturn field t3 Hfield.
      apply of_result_inv in Hfield as [Hfield <-]. apply ret_inv in Hturn as [<- <-].
      destruct (bool_decide (Py.strip field = serial_number)) eqn:Hsame.
      * destruct Hloop as [-> _]. exists [], pool. split; [reflexivity|].
        split; [constructor|]. exists t, out, t2, field. auto.
      * assert (serial_answer serial_number d false) as Hd
          by (exists t, out, t2, field; auto).
        destruct r as [dev|].
        -- destruct Hloop as (before & after & -> & Hbefore & Hdev).
           exists (d :: before), after. split; [reflexivity|]. split; [by constructor|assumption].
        -- by constructor.
Qed.

(** X11: [find_sata_ssd_device_path] returns the first device of the pool
    whose serial number, as [sg_inq] reports it, is the one looked for:
    the devices before it were asked and answered otherwise, and the
    devices after it are not asked.  It returns [None] when every device
    answered otherwise, and so for an empty pool. *)
Theorem first_device_with_serial (serial_number : string) (pool : list string)
    (r : option string) (t t' : Target World) :
  find_sata_ssd_device_path serial_number pool t = (Ok r, t') →
  match r with
  | Some dev =>
      ∃ before after, pool = before ++ dev :: after ∧
        Forall (λ d, serial_answer serial_number d false) before ∧
        serial_answer serial_number dev true
  | None => Forall (λ d, serial_answer serial_number d false) pool
  end.
Proof. intros Hf. by apply find_sata_loop_inv in Hf. Qed.

(** *** The devices under the root file system *)

(** X12: when the listing of the slaves of a device fails, [__get_slaves]
    returns [None] if the error output says that there is no such file or
    directory, and lets the exception of the command through otherwise. *)
Theorem slaves_of_plain_device (depth : nat) (device_name sys_block_path : string)
    (t t1 : Target World) (out : Output) (w : World) :
  get_sys_block_path t = (Ok sys_block_path, t1) →
  executor ("ls " +:+ sys_block_path +:+ "/" +:+ device_name +:+ "/slaves") (machine t1)
    = (out, w) →
  exit_code out ≠ 0 →
  __get_slaves (S depth) device_name t =
    (if Py.contains "No such file or directory" (stderr out)
     then Ok None
     else Raise (CmdException
                   (failure_message
                      ("ls " +:+ sys_block_path +:+ "/" +:+ device_name +:+ "/slaves") out)
                   out),
     mkTarget w (issued t1 ++ ["ls " +:+ sys_block_path +:+ "/" +:+ device_name +:+ "/slaves"])).
Proof.
  intros Hpath Hex Hcode. cbn [__get_slaves]. unfold bind at 1. unfold try_except.
  rewrite (bind_Ok _ _ _ _ _ Hpath).
  rewrite (bind_Raise _ _ _ _ _ (run_expect_success_fails _ _ _ _ Hex Hcode)).
  destruct (Py.contains "No such file or directory" (stderr out)); reflexivity.
Qed.

(** X13: on a machine where every device lists at least one slave, the
    descent of [__get_slaves] does not end: it stops with a
    [RecursionError], whatever the depth allowed. *)
Theorem slaves_without_end (depth : nat) (device_name : string) (t : Target World) :
  (∀ s, ∃ p s', get_sys_block_path s = (Ok p, s')) →
  (∀ cmd w, exit_code (fst (executor cmd w)) = 0 ∧
            Py.splitlines (stdout (fst (executor cmd w))) ≠ []) →
  ∃ t', __get_slaves depth device_name t =
          (Raise (RecursionError "maximum recursion depth exceeded"), t').
Proof.
  intros Hpath Hex. revert device_name t.
  induction depth as [|depth IH]; intros device_name t; [eexists; reflexivity|].
  cbn [__get_slaves]. unfold bind at 1. unfold try_except.
  destruct (Hpath t) as (p & t1 & Hp). rewrite (bind_Ok _ _ _ _ _ Hp).
  destruct (executor ("ls " +:+ p +:+ "/" +:+ device_name +:+ "/slaves") (machine t1))
    as [out w] eqn:Hout.
  destruct (Hex ("ls " +:+ p +:+ "/" +:+ device_name +:+ "/slaves") (machine t1)) as [Hcode Hlines].
  rewrite Hout in Hcode, Hlines. cbn [fst] in Hcode, Hlines.
  rewrite (bind_Ok _ _ _ _ _ (run_expect_success_succeeds _ _ _ _ Hout Hcode)).
  unfold ret at 1. destruct (Py.splitlines (stdout out)) as [|name names]; [done|].
  cbn [for_each]. destruct (IH name (mkTarget w (issued t1 ++
    ["ls " +:+ p +:+ "/" +:+ device_name +:+ "/slaves"]))) as (t' & Hrec).
  exists t'. unfold bind at 1. unfold bind at 1. unfold bind at 1. rewrite Hrec. reflexivity.
Qed.

Lemma slaves_loop_inv (depth : nat) (device_names acc acc' : list string)
    (t t' : Target World) :
  (∀ name ta tb l, __get_slaves depth name ta = (Ok (Some l), tb) → Forall is_leaf l) →
  for_each device_names acc (λ device_list device_name,
    let* slaves := __get_slaves depth device_name in
    match slaves with
    | Some ((_ :: _) as slaves) => ret (device_list ++ slaves)
    | _ => ret (device_list ++ [device_name])
    end) t = (Ok acc', t') →
  ∃ more, acc' = acc ++ more ∧ Forall is_leaf more ∧
          (device_names ≠ [] → more ≠ []).
Proof.
  intros IH. revert acc t. induction device_names as [|name names IHn];
    intros acc t Hloop; simpl in Hloop.
  - apply ret_inv in Hloop as [<- _]. exists []. rewrite app_nil_r. split; [done|].
    split; [constructor|done].
  - step Hloop acc1 t1 Hturn. step Hturn slaves t2 Hslaves.
    apply IHn in Hloop as (more & -> & Hmore & _).
    assert (∃ new, acc1 = acc ++ new ∧ Forall is_leaf new ∧ new ≠ []) as (new & -> & Hnew & Hne).
    { destruct slaves as [[|x l]|]; apply ret_inv in Hturn as [<- _].
      - exists [name]. split; [done|]. split; [|done]. constructor; [|constructor].
        exists depth, t, t2, (Some []). auto.
      - exists (x :: l). split; [done|]. split; [by eapply IH|done].
      - exists [name]. split; [done|]. split; [|done]. constructor; [|constructor].
        exists depth, t, t2, None. auto. }
    exists (new ++ more). split; [by rewrite app_assoc|]. split; [by apply Forall_app|].
    intros _. destruct new; [done|discriminate].
Qed.

(** X14: every name that [__get_slaves] returns is a device under which
    the descent found no slave of its own, and the list it returns is
    empty only when the device lists no slave at all. *)
Theorem slaves_are_leaves (depth : nat) (device_name : string) (l : list string)
    (t t' : Target World) :
  __get_slaves depth device_name t = (Ok (Some l), t') →
  Forall is_leaf l ∧
  (l = [] → ∃ ta out tb, run_expect_success ("ls " +:+ ta +:+ "/" +:+ device_name +:+ "/slaves") tb
                           = (Ok out, t') ∧ Py.splitlines (stdout out) = []).
Proof.
  revert device_name l t t'. induction depth as [|depth IH]; intros device_name l t t' Hs;
    [discriminate|].
  cbn [__get_slaves] in Hs. step Hs listing t1 Hlist.
  destruct listing as [device_names|]; [|discriminate].
  step Hs device_list t2 Hloop. apply ret_inv in Hs as [[= ->] ->].
  destruct device_names as [|n ns].
  - simpl in Hloop. apply ret_inv in Hloop as [<- <-]. split; [constructor|]. intros _.
    unfold try_except in Hlist.
    destruct (bind get_sys_block_path _ t) as [[x|e] t3] eqn:Htry.
    + injection Hlist as -> ->. step Htry p t4 Hp. step Htry out t5 Hout.
      apply ret_inv in Htry as [[= Hlines] <-]. exists p, out, t4. auto.
    + destruct e; try discriminate. destruct (negb _); discriminate.
  - apply slaves_loop_inv in Hloop as (more & -> & Hleaves & Hne);
      [|intros name ta tb l' Hl'; by apply IH in Hl' as [? _]].
    cbn [app]. split; [assumption|]. intros ->. by destruct Hne.
Qed.

Lemma system_disks_loop_length (sys_block_path : string) (names acc acc' : list string)
    (t t' : Target World) :
  for_each names acc (λ disk_names device_name,
    let* is_partition :=
      check_if_file_exists (sys_block_path +:+ "/" +:+ device_name +:+ "/partition") in
    if is_partition then
      let* parent := readlink (sys_block_path +:+ "/" +:+ device_name +:+ "/..") in
      let* parent_device := of_result (Py.index (Py.split "/" parent) (-1)) in
      ret (disk_names ++ [parent_device])
    else ret (disk_names ++ [device_name])) t = (Ok acc', t') →
  length acc' = (length acc + length names)%nat.
Proof.
  revert acc t. induction names as [|n names IH]; intros acc t Hloop; simpl in Hloop.
  - apply ret_inv in Hloop as [<- _]. simpl. lia.
  - step Hloop acc1 t1 Hturn. apply IH in Hloop. rewrite Hloop. simpl.
    step Hturn is_partition t2 Hpart. destruct is_partition.
    + step Hturn parent t3 Hparent. step Hturn pd t4 Hpd. apply ret_inv in Hturn as [<- _].
      rewrite length_app. simpl. lia.
    + apply ret_inv in Hturn as [<- _]. rewrite length_app. simpl. lia.
Qed.

(** X15: [get_system_disks] never returns an empty list: the device of
    the root file system, or each of the devices under it, gives one name. *)
Theorem system_disks_not_empty (disks : list string) (t t' : Target World) :
  get_system_disks t = (Ok disks, t') → disks ≠ [].
Proof.
  unfold get_system_disks. intros Hg. step Hg out t1 Hout. step Hg dev t2 Hdev.
  step Hg rl t3 Hrl. step Hg dn t4 Hname. step Hg p t5 Hp. step Hg slaves t6 Hslaves.
  apply system_disks_loop_length in Hg. intros ->. simpl in Hg.
  destruct slaves as [[|x l]|]; simpl in Hg; lia.
Qed.


(** *** The SSD pass and the number of records *)

(** X16: the type of an SSD record follows the vendor tool: it is [sata]
    exactly when the device path that the tool reports does not contain
    [nvme]; otherwise it is [optane] when the search of "Optane" in the
    entry succeeds and [nand] when it fails.  The serial number of the
    record is the one that the tool reports. *)
Theorem ssd_record_type (i : nat) (pool : list string) (dev : string) (r : DiskRecord)
    (t t' : Target World) :
  ssd_entry i pool t = (Ok (Some (dev, r)), t') →
  ∃ out t1 device_path,
    run_expect_success (isdct_show i "DevicePath") t = (Ok out, t1) ∧
    Py.index (Py.words (stdout out)) 2 = Ok device_path ∧
    (rec_type r = "sata" ↔ Py.contains "nvme" device_path = false) ∧
    (Py.contains "nvme" device_path = true →
       ∃ ta o tb, run (isdct_show i "Optane") ta = (Ok o, tb) ∧
                  rec_type r = if bool_decide (exit_code o = 0) then "optane" else "nand") ∧
    (∃ ta o tb field,
       run_expect_success (isdct_show i "SerialNumber") ta = (Ok o, tb) ∧
       Py.index (Py.words (stdout o)) 2 = Ok field ∧
       rec_serial r = Py.strip field).
Proof.
  unfold ssd_entry. intros He.
  step He out t1 Hout. step He device_path t2 Hpath. apply of_result_inv in Hpath as [Hpath <-].
  step He dev0 t3 Hdev0.
  case_bool_decide as Hin; cbn [negb] in He; [|by apply ret_inv in He as [? _]].
  step He out' t4 Hout'. step He field t5 Hfield. apply of_result_inv in Hfield as [Hfield <-].
  step He classified t6 Hclass.
  destruct classified as [[[ty d] dp]|]; [|by apply ret_inv in He as [? _]].
  step He p t7 Hp. step He l1 t8 Hl1. step He bs t9 Hbs. step He l2 t10 Hl2.
  step He sz t11 Hsz. apply ret_inv in He as [[= <- <-] _]. cbn [rec_type rec_serial].
  exists out, t1, device_path. split; [assumption|]. split; [assumption|].
  destruct (Py.contains "nvme" device_path) eqn:Hnvme; cbn [negb] in Hclass.
  - step Hclass o t12 Ho. split; [|split; [|eauto 10]].
    + case_bool_decide; apply ret_inv in Hclass as [[= <- _ _] _]; split; discriminate.
    + intros _. exists t4, o, t12. split; [assumption|].
      case_bool_decide; by apply ret_inv in Hclass as [[= <- _ _] _].
  - step Hclass found t12 Hfound. destruct found as [d'|]; [|by apply ret_inv in Hclass as [? _]].
    apply ret_inv in Hclass as [[= <- _ _] _]. split; [done|]. split; [discriminate|eauto 10].
Qed.

(** X17: a vendor-tool entry that the pass keeps always shortens the pool:
    its device is found in the pool, so that the removal cannot fail, and
    the turn appends the record and takes one occurrence of the device out
    of the pool. *)
Theorem kept_entry_leaves_pool (i : nat) (pool : list string) (res : list DiskRecord)
    (dev : string) (r : DiskRecord) (t t' : Target World) :
  ssd_entry i pool t = (Ok (Some (dev, r)), t') →
  ∃ rest, ssd_turn (pool, res) i t = (Ok (rest, res ++ [r]), t') ∧
          pool ≡ₚ dev :: rest ∧ length pool = S (length rest).
Proof.
  intros He. pose proof He as (Hin & _)%ssd_entry_inv.
  destruct (remove_member dev pool Hin) as [rest Hrest]. exists rest.
  pose proof Hrest as (_ & Hperm & _)%remove_Some.
  split; [|split; [assumption|by rewrite Hperm]].
  unfold ssd_turn. cbn [fst snd]. rewrite (bind_Ok _ _ _ _ _ He), Hrest. reflexivity.
Qed.

(** X18: a discovery makes exactly one record for each candidate device:
    the list that [find_disks] returns is as long as the pool. *)
Theorem one_record_per_device (result : list DiskRecord) (t t' : Target World) :
  find_disks t = (Ok result, t') →
  ∃ pool ta tb, get_block_devices_list ta = (Ok pool, tb) ∧ length result = length pool.
Proof.
  intros Hf.
  apply find_disks_inv in Hf as (pool & t1 & t2 & count & pool1 & res1 & t3 & t4 &
                                 Hpool & Hssd & Hhdd).
  exists pool, t1, t2. split; [assumption|].
  apply ssd_loop_inv in Hssd as (entries & -> & Hrm & _).
  apply discover_hdd_devices_inv in Hhdd as (_ & hdds & -> & _ & Hhdds).
  apply remove_each_Some in Hrm as (Hperm & _). apply Forall2_length in Hhdds.
  rewrite Hperm. rewrite !length_app, !length_fmap. simpl. lia.
Qed.

End DiscoveryProperties.

(** ** The [Disk] classes *)

Section DiskClassProperties.
Context `{Platform}.

(** *** Detection *)

Lemma same_identity_refl (d : Disk) : same_identity d d.
Proof. by repeat split. Qed.

Lemma same_identity_trans (a b c : Disk) :
  same_identity a b → same_identity b c → same_identity a c.
Proof.
  intros (?&?&?&?&?&?) (?&?&?&?&?&?). repeat split; congruence.
Qed.

Lemma keeps_identity_pure {A} (m : M (Harness World) A) :
  (∀ h r h', m h = (r, h') → self h' = self h) → keeps_identity m.
Proof. intros Hm h r h' Hh. rewrite (Hm _ _ _ Hh). apply same_identity_refl. Qed.

Lemma keeps_identity_bind {A B} (m : M (Harness World) A) (k : A → M (Harness World) B) :
  keeps_identity m → (∀ a, keeps_identity (k a)) → keeps_identity (bind m k).
Proof.
  intros Hm Hk h r h'. unfold bind. destruct (m h) as [[a|e] h1] eqn:E.
  - intros Hka. eapply same_identity_trans; [by eapply Hm|by eapply Hk].
  - intros [= _ <-]. by eapply Hm.
Qed.

Lemma keeps_identity_for_each {A B} (items : list A) (acc : B)
    (body : B → A → M (Harness World) B) :
  (∀ b a, keeps_identity (body b a)) → keeps_identity (for_each items acc body).
Proof.
  intros Hbody. revert acc. induction items as [|x items IH]; intros acc; simpl.
  - apply keeps_identity_pure. by intros h r h' [= _ <-].
  - apply keeps_identity_bind; [apply Hbody|intros b; apply IH].
Qed.

Lemma keeps_identity_refresh_partition (p : string) (i : nat) :
  keeps_identity (refresh_partition p i).
Proof.
  intros h r h'. unfold refresh_partition, bind, get_self.
  destruct (partitions (self h) !! i) as [part|] eqn:Hpart.
  - unfold on_target. destruct (get_partition_path p (number part) (target h)) as [[q|e] t1].
    + unfold set_partitions, bind, get_self, set_self. intros [= _ <-]. cbn [self].
      repeat split. cbn [partitions]. rewrite list_fmap_insert. cbn [number].
      apply list_insert_id. by rewrite list_lookup_fmap, Hpart.
    + intros [= _ <-]. apply same_identity_refl.
  - intros [= _ <-]. apply same_identity_refl.
Qed.

Lemma is_detected_cases (h h' : Harness World) (r : result bool) :
  is_detected h = (r, h') →
  same_identity (self h) (self h') ∧
  (r = Ok false → self h' = self h) ∧
  (truthy (serial_number (self h)) = false → self h' = self h).
Proof.
  unfold is_detected. unfold bind at 1, get_self at 1.
  destruct (truthy (serial_number (self h))) eqn:Hserial.
  - unfold bind at 1.
    destruct (on_target get_all_serial_numbers h) as [[m|e] h1] eqn:Hmap.
    2:{ intros [= <- <-]. rewrite (on_target_self _ _ _ _ Hmap).
        split; [apply same_identity_refl|]. split; [discriminate|done]. }
    pose proof (on_target_self _ _ _ _ Hmap) as Hself1.
    destruct (m !! default "" (serial_number (self h))) as [p|].
    2:{ intros [= <- <-]. rewrite Hself1. split; [apply same_identity_refl|]. auto. }
    intros Hrest. split; [|split; [|discriminate]].
    + rewrite <- Hself1. revert Hrest. apply keeps_identity_bind.
      * intros x rx x' [= _ <-]. by repeat split.
      * intros _. apply keeps_identity_bind.
        -- apply keeps_identity_for_each. intros _ i. apply keeps_identity_refresh_partition.
        -- intros _. apply keeps_identity_pure. by intros x rx x' [= _ <-].
    + intros ->. unfold bind at 1 in Hrest. unfold set_path at 1, bind at 1, get_self, set_self in Hrest.
      unfold bind at 1 in Hrest. destruct (for_each _ _ _ _) as [[u|e] h2]; discriminate.
  - destruct (truthy (path (self h))).
    + intros Hrest. assert (self h' = self h) as ->; [|by split; [apply same_identity_refl|]].
      revert Hrest. unfold bind at 1.
      destruct (on_target (ls_item _) h) as [[output|e] h1] eqn:Hls;
        pose proof (on_target_self _ _ _ _ Hls) as Hs1; [|by intros [= _ <-]].
      unfold bind at 1.
      destruct (on_target (parse_ls_output output) h1) as [[items|e] h2] eqn:Hparse;
        pose proof (on_target_self _ _ _ _ Hparse) as Hs2; [|intros [= _ <-]; congruence].
      unfold bind, of_result, ret. destruct (Py.index items 0); intros [= _ <-]; congruence.
    + intros [= <- <-]. by split; [apply same_identity_refl|].
Qed.

(** X19: whatever it returns or raises, [is_detected] changes nothing of
    the disk but its path and the paths of its partitions; it changes
    nothing at all when it returns [False], and nothing when the disk has
    no serial number. *)
Theorem detection_keeps_identity (h h' : Harness World) (r : result bool) :
  is_detected h = (r, h') →
  serial_number (self h') = serial_number (self h) ∧
  disk_type (self h') = disk_type (self h) ∧
  block_size (self h') = block_size (self h) ∧
  features (self h') = features (self h) ∧
  class (self h') = class (self h) ∧
  number <$> partitions (self h') = number <$> partitions (self h) ∧
  (r = Ok false → self h' = self h) ∧
  (truthy (serial_number (self h)) = false → self h' = self h).
Proof.
  intros Hd. apply is_detected_cases in Hd as ((?&?&?&?&?&?) & ? & ?). auto 10.
Qed.


Lemma refresh_partition_Ok (p : string) (i : nat) (h h' : Harness World) (u : unit) :
  refresh_partition p i h = (Ok u, h') →
  path (self h') = path (self h) ∧
  match partitions (self h) !! i with
  | Some part =>
      ∃ part', refreshed p part part' ∧
               partitions (self h') = <[i := part']> (partitions (self h))
  | None => partitions (self h') = partitions (self h)
  end.
Proof.
  unfold refresh_partition, bind, get_self.
  destruct (partitions (self h) !! i) as [part|] eqn:Hpart.
  - unfold on_target. destruct (get_partition_path p (number part) (target h)) as [[q|e] t1] eqn:Hq;
      [|discriminate].
    unfold set_partitions, bind, get_self, set_self. intros [= _ <-]. cbn [self path partitions].
    split; [reflexivity|]. exists (mkPartition q (number part)). split; [|reflexivity].
    split; [reflexivity|]. cbn [part_path]. eauto.
  - intros [= _ <-]. auto.
Qed.

Lemma refresh_loop (p : string) (m k : nat) (h h' : Harness World) (u : unit) :
  for_each (seq k m) tt (λ _ i, refresh_partition p i) h = (Ok u, h') →
  path (self h') = path (self h) ∧
  length (partitions (self h')) = length (partitions (self h)) ∧
  ∀ i part, partitions (self h) !! i = Some part →
    if bool_decide (k ≤ i < k + m)%nat
    then ∃ part', partitions (self h') !! i = Some part' ∧ refreshed p part part'
    else partitions (self h') !! i = Some part.
Proof.
  revert k h. induction m as [|m IH]; intros k h Hloop; simpl in Hloop.
  - apply ret_inv in Hloop as [_ <-]. split; [done|]. split; [done|]. intros i part Hi.
    rewrite bool_decide_eq_false_2 by lia. assumption.
  - step Hloop u1 h1 Hturn. destruct u1.
    apply refresh_partition_Ok in Hturn as (Hpath1 & Hturn).
    apply IH in Hloop as (Hpath & Hlen & Hparts).
    assert (length (partitions (self h1)) = length (partitions (self h))) as Hlen1.
    { destruct (partitions (self h) !! k); [|by rewrite Hturn].
      destruct Hturn as (part' & _ & ->). apply length_insert. }
    split; [congruence|]. split; [congruence|]. intros i part Hi.
    destruct (decide (i = k)) as [->|Hne].
    + rewrite bool_decide_eq_true_2 by lia. rewrite Hi in Hturn.
      destruct Hturn as (part' & Hfresh & Hps).
      assert (partitions (self h1) !! k = Some part') as Hk.
      { rewrite Hps. apply list_lookup_insert_eq. by eapply lookup_lt_Some. }
      specialize (Hparts k part' Hk). rewrite bool_decide_eq_false_2 in Hparts by lia. eauto.
    + assert (partitions (self h1) !! i = Some part) as Hi1.
      { destruct (partitions (self h) !! k); [|by rewrite Hturn].
        destruct Hturn as (part' & _ & ->). by rewrite list_lookup_insert_ne. }
      specialize (Hparts i part Hi1).
      destruct (decide (k ≤ i < k + S m)%nat).
      * rewrite bool_decide_eq_true_2 by assumption.
        rewrite bool_decide_eq_true_2 in Hparts by lia. assumption.
      * rewrite bool_decide_eq_false_2 by assumption.
        rewrite bool_decide_eq_false_2 in Hparts by lia. assumption.
Qed.

(** X20: when [is_detected] finds a disk by its serial number, the path
    of the disk becomes the device that [get_all_serial_numbers] has under
    that serial number, and every partition keeps its number and gets the
    path that [get_partition_path] gives for the new path of the disk. *)
Theorem detection_refreshes_paths (h h' : Harness World) :
  truthy (serial_number (self h)) = true →
  is_detected h = (Ok true, h') →
  ∃ serial m p,
    serial_number (self h) = Some serial ∧
    (∃ t1, get_all_serial_numbers (target h) = (Ok m, t1)) ∧
    m !! serial = Some p ∧
    path (self h') = Some p ∧
    Forall2 (refreshed p) (partitions (self h)) (partitions (self h')).
Proof.
  intros Hserial. unfold is_detected. unfold bind at 1, get_self at 1. rewrite Hserial.
  intros Hd. step Hd m h1 Hmap. apply on_target_Ok_inv in Hmap as (t1 & Hmap & ->).
  destruct (serial_number (self h)) as [serial|] eqn:Hsn; [|discriminate].
  change (default "" (Some serial)) with serial in Hd.
  destruct (m !! serial) as [p|] eqn:Hp; [|by apply ret_inv in Hd as [? _]].
  step Hd u h2 Hset. step Hd u' h3 Hloop. apply ret_inv in Hd as [_ <-].
  unfold set_path, bind, get_self, set_self in Hset. injection Hset as _ <-.
  apply refresh_loop in Hloop as (Hpath & Hlen & Hparts). cbn [self path partitions] in *.
  exists serial, m, p. split; [reflexivity|]. split; [eauto|]. split; [assumption|].
  split; [assumption|]. apply Forall2_same_length_lookup. split; [by rewrite Hlen|].
  intros i part part' Hi Hi'. specialize (Hparts i part Hi).
  rewrite bool_decide_eq_true_2 in Hparts by (apply lookup_lt_Some in Hi; lia).
  destruct Hparts as (q & Hq & Hfresh). congruence.
Qed.


(** *** The commands of [plug] and [unplug] *)

(** X21: the unplug command of an NVMe disk writes to the removal file of
    the device and is done if this succeeds; only if it fails does it
    write to the nested removal file, and only if this fails too does it
    raise, with the output of the second write. *)
Theorem nvme_unplug_falls_back (h : Harness World) (device_id : string)
    (t1 : Target World) (o1 : Output) (w1 : World) :
  class (self h) = NvmeDisk →
  get_device_id (path (self h)) (target h) = (Ok device_id, t1) →
  executor (nvme_remove device_id) (machine t1) = (o1, w1) →
  (exit_code o1 = 0 →
     execute_unplug_command h =
       (Ok tt, mkHarness (self h) (mkTarget w1 (issued t1 ++ [nvme_remove device_id])))) ∧
  (exit_code o1 ≠ 0 →
     ∀ device_id' t2 o2 w2,
       get_device_id (path (self h)) (mkTarget w1 (issued t1 ++ [nvme_remove device_id]))
         = (Ok device_id', t2) →
       executor (nvme_remove_nested device_id') (machine t2) = (o2, w2) →
       execute_unplug_command h =
         (if bool_decide (exit_code o2 = 0) then Ok tt
          else Raise (CmdException "Failed to unplug PCI disk using sysfs." o2),
          mkHarness (self h) (mkTarget w2 (issued t2 ++ [nvme_remove_nested device_id'])))).
Proof.
  intros Hclass Hid Hex.
  assert (on_target (get_device_id (path (self h))) h = (Ok device_id, mkHarness (self h) t1))
    as Hid1 by (unfold on_target; by rewrite Hid).
  assert (on_target (run (nvme_remove device_id)) (mkHarness (self h) t1) =
          (Ok o1, mkHarness (self h) (mkTarget w1 (issued t1 ++ [nvme_remove device_id]))))
    as Hrun1 by (unfold on_target, run; cbn [target self]; by rewrite Hex).
  split.
  - intros Hcode. unfold execute_unplug_command. unfold bind at 1, get_self at 1.
    rewrite Hclass, (bind_Ok _ _ _ _ _ Hid1). fold (nvme_remove device_id).
    rewrite (bind_Ok _ _ _ _ _ Hrun1), bool_decide_eq_true_2 by assumption. reflexivity.
  - intros Hcode device_id' t2 o2 w2 Hid' Hex'.
    unfold execute_unplug_command. unfold bind at 1, get_self at 1.
    rewrite Hclass, (bind_Ok _ _ _ _ _ Hid1). fold (nvme_remove device_id).
    rewrite (bind_Ok _ _ _ _ _ Hrun1), bool_decide_eq_false_2 by assumption. cbn [negb].
    assert (on_target (get_device_id (path (self h)))
              (mkHarness (self h) (mkTarget w1 (issued t1 ++ [nvme_remove device_id])))
            = (Ok device_id', mkHarness (self h) t2))
      as Hid2 by (unfold on_target; cbn [target self]; by rewrite Hid').
    rewrite (bind_Ok _ _ _ _ _ Hid2). fold (nvme_remove_nested device_id').
    assert (on_target (run (nvme_remove_nested device_id')) (mkHarness (self h) t2) =
            (Ok o2, mkHarness (self h)
                      (mkTarget w2 (issued t2 ++ [nvme_remove_nested device_id']))))
      as Hrun2 by (unfold on_target, run; cbn [target self]; by rewrite Hex').
    rewrite (bind_Ok _ _ _ _ _ Hrun2). case_bool_decide; reflexivity.
Qed.

Lemma run_expect_success_Raise_inv (cmd : string) (t t' : Target World) (e : exn) :
  run_expect_success cmd t = (Raise e, t') →
  ∃ out, e = CmdException (failure_message cmd out) out ∧ exit_code out ≠ 0.
Proof.
  unfold run_expect_success, bind, run. destruct (executor cmd (machine t)) as [o w].
  case_bool_decide; [discriminate|]. intros [= <- _]. eauto.
Qed.


(** What a successful [get_sysfs_properties] did, step by step. *)
Lemma get_sysfs_properties_run (device_id : string) (h h' : Harness World) (addr : FsItem) :
  get_sysfs_properties device_id h = (Ok addr, h') →
  ∃ output t1 items t2 scsi_address controller port tgt lun,
    ls_item ("$(find -H /sys/devices/ -name " +:+ device_id +:+ " -type d)") (target h)
      = (Ok output, t1) ∧
    parse_ls_output output t1 = (Ok items, t2) ∧
    Py.index items 0 = Ok (Some addr) ∧
    Py.index (Py.split "/" (full_path addr)) (-3) = Ok scsi_address ∧
    scsi_address_search scsi_address = Some (controller, port, tgt, lun) ∧
    target h' = t2 ∧
    class (self h') =
      SataDisk (scan_command
                  (Py.join "/" (Py.takewhile (λ x, negb (Py.startswith "host" x))
                                             (Py.split "/" (full_path addr))))
                  controller port tgt lun).
Proof.
  unfold get_sysfs_properties. intros Hg.
  step Hg output h1 Hls. step Hg items h2 Hparse. step Hg item0 h3 Hfirst.
  apply on_target_Ok_inv in Hls as (t1 & Hls & ->).
  apply on_target_Ok_inv in Hparse as (t2 & Hparse & ->).
  apply of_result_inv in Hfirst as (Hfirst & <-). cbn [target self] in *.
  destruct item0 as [sysfs_addr|]; [|discriminate].
  step Hg scsi_address h4 Haddr. apply of_result_inv in Haddr as (Haddr & <-).
  destruct (scsi_address_search scsi_address) as [[[[controller port] tgt] lun]|] eqn:Hre;
    [|discriminate].
  step Hg u h5 Hset. apply ret_inv in Hg as [<- <-].
  exists output, t1, items, t2, scsi_address, controller, port, tgt, lun.
  do 5 (split; [assumption|]).
  unfold set_plug_command, bind, get_self, set_self in Hset.
  injection Hset as _ <-. split; reflexivity.
Qed.


(** X23: a disk made by [create_disk] that the detection check does not
    find is plugged with the rescan of the PCI bus when its type is [nand]
    or [optane], and with the rescan of every SCSI host otherwise; when
    this command fails, [plug] raises its exception without any polling. *)
Theorem plug_command_of_new_disk (path : option string) (ty : DiskType)
    (serial : option string) (size : Z) (feats : list string)
    (t : Target World) (h1 : Harness World) (out : Output) (w : World) :
  let cmd := if bool_decide (ty = nand ∨ ty = optane)
             then Nvme_plug_all_command else Sata_plug_all_command in
  let h := mkHarness (create_disk path ty serial size feats) t in
  let h2 := mkHarness (self h1) (mkTarget w (issued (target h1) ++ [cmd])) in
  is_detected h = (Ok false, h1) →
  executor cmd (machine (target h1)) = (out, w) →
  plug h = if bool_decide (exit_code out = 0)
           then wait_for_plug_status true h2
           else (Raise (CmdException (failure_message cmd out) out), h2).
Proof.
  intros cmd h h2 Hd Hex. unfold plug. rewrite (bind_Ok _ _ _ _ _ Hd).
  pose proof (keeps_class_is_detected _ _ _ Hd) as Hclass.
  assert (class (self h) = if bool_decide (ty = nand ∨ ty = optane)
                           then NvmeDisk else SataDisk Sata_plug_all_command) as Hnew
    by (subst h; destruct ty; reflexivity).
  rewrite Hnew in Hclass. unfold execute_plug_command. unfold bind at 1. unfold bind at 1.
  unfold get_self at 1. rewrite Hclass. subst cmd h2.
  destruct (bool_decide (ty = nand ∨ ty = optane));
    unfold on_target, run_expect_success, bind, run; rewrite Hex;
    case_bool_decide; reflexivity.
Qed.


(** *** The directory of the scan file *)

Lemma prefix_nil (s : string) : String.prefix "" s = true.
Proof. by destruct s. Qed.

Lemma prefix_append_r (a b c : string) :
  String.prefix a b = true → String.prefix a (b +:+ c) = true.
Proof.
  revert b. induction a as [|x a IH]; intros b; [intros _; apply prefix_nil|].
  destruct b as [|y b]; [discriminate|]. simpl. destruct (ascii_dec x y); [apply IH|done].
Qed.

Lemma split_go_not_nil (sep : string) (skip : nat) (cur s : string) :
  Py.split_go sep skip cur s ≠ [].
Proof.
  revert skip cur. induction s as [|c s IH]; intros skip cur; [done|].
  cbn [Py.split_go]. destruct skip; [|apply IH].
  destruct (String.prefix sep (String c s)); [done|apply IH].
Qed.

Lemma join_cons (sep x : string) (l : list string) :
  l ≠ [] → Py.join sep (x :: l) = x +:+ sep +:+ Py.join sep l.
Proof. by destruct l. Qed.

Lemma join_split_go (cur s : string) : Py.join "/" (Py.split_go "/" 0 cur s) = cur +:+ s.
Proof.
  revert cur. induction s as [|c s IH]; intros cur.
  - simpl. by rewrite append_nil_r.
  - cbn [Py.split_go]. cbn [String.prefix]. destruct (ascii_dec "/" c) as [<-|Hc].
    + rewrite prefix_nil. change (String.length "/" - 1)%nat with 0%nat.
      rewrite join_cons by apply split_go_not_nil. by rewrite IH.
    + rewrite IH. unfold Py.snoc. by rewrite append_assoc.
Qed.

(** Joining the components of a path gives the path back. *)
Lemma join_split (s : string) : Py.join "/" (Py.split "/" s) = s.
Proof. apply join_split_go. Qed.

Lemma prefix_append (a b : string) : String.prefix a (a +:+ b) = true.
Proof.
  induction a as [|x a IH]; [apply prefix_nil|]. simpl. by destruct (ascii_dec x x).
Qed.

Lemma prefix_trans (a b c : string) :
  String.prefix a b = true → String.prefix b c = true → String.prefix a c = true.
Proof.
  revert b c. induction a as [|x a IH]; intros b c; [intros _ _; apply prefix_nil|].
  destruct b as [|y b]; [discriminate|]. destruct c as [|z c]; [discriminate|]. simpl.
  destruct (ascii_dec x y) as [->|]; [|discriminate]. destruct (ascii_dec y z); [apply IH|done].
Qed.

Lemma join_head_prefix (y : string) (l : list string) :
  String.prefix y (Py.join "/" (y :: l)) = true.
Proof.
  destruct l; [|rewrite join_cons by done; apply prefix_append].
  cbn [Py.join]. rewrite <- (append_nil_r y) at 2. apply prefix_append.
Qed.

Lemma prefix_slash (a b : string) :
  String.prefix a b = true → String.prefix ("/" +:+ a) ("/" +:+ b) = true.
Proof. intros Hab. simpl. by destruct (ascii_dec "/" "/"). Qed.

(** The components taken from the head of a path, joined, are the path
    up to the first component that is not taken. *)
Lemma join_takewhile (p : string → bool) (l : list string) :
  ∃ rest, Py.join "/" l = Py.join "/" (Py.takewhile p l) +:+ rest ∧
          (rest = "" ∨
           (∃ y, p y = false ∧
                 (String.prefix y rest = true ∨ String.prefix ("/" +:+ y) rest = true))).
Proof.
  induction l as [|x l IH]; [exists ""; auto|]. cbn [Py.takewhile].
  destruct (p x) eqn:Hx.
  - destruct IH as (rest & Hjoin & Hrest). destruct l as [|y l].
    + exists "". split; [by rewrite append_nil_r|by left].
    + rewrite (join_cons "/" x (y :: l)) by done. cbn [Py.takewhile] in *.
      destruct (p y) eqn:Hy.
      * rewrite (join_cons "/" x (y :: Py.takewhile p l)) by done. exists rest. split; [by rewrite Hjoin, !append_assoc|].
        assumption.
      * exists ("/" +:+ Py.join "/" (y :: l)). split; [done|]. right. exists y.
        split; [assumption|]. right. apply prefix_slash, join_head_prefix.
  - exists (Py.join "/" (x :: l)). split; [done|]. right. exists x. split; [assumption|].
    left. apply join_head_prefix.
Qed.

Lemma takewhile_split {A} (p : A → bool) (l : list A) :
  ∃ after, l = Py.takewhile p l ++ after ∧
           Forall (λ x, p x = true) (Py.takewhile p l) ∧
           match after with
           | [] => True
           | x :: _ => p x = false
           end.
Proof.
  induction l as [|x l (after & Hl & Hall & Hafter)]; [exists []; by repeat split|].
  cbn [Py.takewhile]. destruct (p x) eqn:Hx.
  - exists after. split; [cbn [app]; by f_equal|]. split; [by constructor|assumption].
  - exists (x :: l). by repeat split.
Qed.

(** X24: [get_sysfs_properties] takes the first item that the listing of
    the device directory gave, reads the SCSI address in the last but two
    of the components of its path, and leaves in [plug_command] the scan
    command of that address whose scan file is under the host path: the
    components of the sysfs path before the first one that starts with
    [host], joined, or the whole path when it has no such component.
    The host path is thus the sysfs path cut before that component. *)
Theorem scan_file_under_device_path (device_id : string) (h h' : Harness World)
    (addr : FsItem) :
  get_sysfs_properties device_id h = (Ok addr, h') →
  ∃ output t1 items scsi_address controller port tgt lun before after rest,
    ls_item ("$(find -H /sys/devices/ -name " +:+ device_id +:+ " -type d)") (target h)
      = (Ok output, t1) ∧
    parse_ls_output output t1 = (Ok items, target h') ∧
    Py.index items 0 = Ok (Some addr) ∧
    Py.index (Py.split "/" (full_path addr)) (-3) = Ok scsi_address ∧
    scsi_address_search scsi_address = Some (controller, port, tgt, lun) ∧
    Py.split "/" (full_path addr) = before ++ after ∧
    Forall (λ x, Py.startswith "host" x = false) before ∧
    match after with
    | [] => True
    | x :: _ => Py.startswith "host" x = true
    end ∧
    class (self h') = SataDisk (scan_command (Py.join "/" before) controller port tgt lun) ∧
    full_path addr = Py.join "/" before +:+ rest ∧
    (rest = "" ∨ Py.startswith "host" rest = true ∨ Py.startswith "/host" rest = true).
Proof.
  intros Hg.
  apply get_sysfs_properties_run in Hg
    as (output & t1 & items & t2 & a & c & p & tg & l & Hls & Hparse & Hfirst & Ha & Hre &
        Ht & Hclass).
  destruct (takewhile_split (λ x, negb (Py.startswith "host" x)) (Py.split "/" (full_path addr)))
    as (after & Hsplit & Hbefore & Hafter).
  destruct (join_takewhile (λ x, negb (Py.startswith "host" x)) (Py.split "/" (full_path addr)))
    as (rest & Hjoin & Hrest).
  rewrite join_split in Hjoin.
  exists output, t1, items, a, c, p, tg, l,
    (Py.takewhile (λ x, negb (Py.startswith "host" x)) (Py.split "/" (full_path addr))),
    after, rest.
  rewrite Ht. do 5 (split; [assumption|]). split; [exact Hsplit|].
  split; [eapply Forall_impl; [exact Hbefore|]; intros x Hx; by apply negb_true_iff in Hx|].
  split; [destruct after as [|x after]; [exact I|by apply negb_false_iff in Hafter]|].
  split; [exact Hclass|]. split; [exact Hjoin|].
  destruct Hrest as [?|(y & Hy & Hpre)]; [by left|right].
  apply negb_false_iff in Hy. unfold Py.startswith in *.
  destruct Hpre as [Hpre|Hpre]; [left|right].
  - by eapply prefix_trans.
  - eapply prefix_trans; [|exact Hpre]. by apply prefix_slash.
Qed.

(** *** Polling *)

Lemma poll_reaches {S} (Inv : nat → S → Prop) (Final : S → Prop) (predicate : M S bool)
    (n k j : nat) (x : S) :
  (k < n)%nat →
  (∀ i y, (j ≤ i < j + k)%nat → Inv i y →
     ∃ y', predicate y = (Ok false, y') ∧ Inv (Datatypes.S i) y') →
  (∀ y, Inv (j + k)%nat y → ∃ y', predicate y = (Ok true, y') ∧ Final y') →
  Inv j x →
  ∃ x', poll n predicate x = (Ok true, x') ∧ Final x'.
Proof.
  revert n j x. induction k as [|k IH]; intros n j x Hk Hfalse Htrue Hinv.
  - destruct n as [|n]; [lia|]. rewrite Nat.add_0_r in Htrue.
    destruct (Htrue x Hinv) as (x' & Hp & Hfinal). exists x'. cbn [poll].
    by rewrite (bind_Ok _ _ _ _ _ Hp).
  - destruct n as [|n]; [lia|].
    destruct (Hfalse j x) as (x1 & Hp & Hinv1); [lia|assumption|].
    destruct (IH n (Datatypes.S j) x1) as (x' & Hpoll & Hfinal); [lia| | |assumption|].
    + intros i y Hi. apply Hfalse. lia.
    + intros y Hy. apply Htrue. by rewrite Nat.add_succ_r.
    + exists x'. cbn [poll]. by rewrite (bind_Ok _ _ _ _ _ Hp).
Qed.

(** X25: [wait_for_plug_status] returns at the first check that gives
    the awaited answer, provided it is one of the first 60: the checks
    before it gave the other answer, and no check is made after it.
    [Inv n] holds of the state after [n] checks and [Final] of the state
    after the check that succeeds. *)
Theorem status_reached (Inv : nat → Harness World → Prop) (Final : Harness World → Prop)
    (visible : bool) (k : nat) (h : Harness World) :
  (k < 60)%nat →
  Inv O h →
  (∀ n x, (n < k)%nat → Inv n x →
     ∃ x', is_detected x = (Ok (negb visible), x') ∧ Inv (Datatypes.S n) x') →
  (∀ x, Inv k x → ∃ x', is_detected x = (Ok visible, x') ∧ Final x') →
  ∃ h', wait_for_plug_status visible h = (Ok tt, h') ∧ Final h'.
Proof.
  intros Hk Hinv Hfalse Htrue. unfold wait_for_plug_status, wait.
  change (timedelta_minutes 1 / timedelta_seconds 1)%nat with 60%nat.
  destruct (poll_reaches Inv Final
              (let* detected := is_detected in ret (bool_decide (visible = detected)))
              60 k 0 h) as (h' & Hpoll & Hfinal); [assumption| | |assumption|].
  - intros i y Hi Hy. destruct (Hfalse i y) as (y' & Hd & Hy'); [lia|assumption|].
    exists y'. split; [|assumption]. rewrite (bind_Ok _ _ _ _ _ Hd).
    unfold ret. by destruct visible.
  - intros y Hy. destruct (Htrue y Hy) as (y' & Hd & Hy').
    exists y'. split; [|assumption]. rewrite (bind_Ok _ _ _ _ _ Hd).
    unfold ret. by destruct visible.
  - exists h'. split; [|assumption]. rewrite (bind_Ok _ _ _ _ _ Hpoll). reflexivity.
Qed.

End DiskClassProperties.

(** ** The further properties on the hosts *)

Lemma find_disks_without_vendor_tool_witness :
  find_disks (H:=Rig.no_tool) (Lab.start Lab.online) =
    (Raise (Exception ("Error while executing command: 'isdct'." +:+ Py.nl +:+
                       "stdout: " +:+ "" +:+ Py.nl +:+
                       "stderr: " +:+ "isdct: command not found")),
     mkTarget Lab.online ([] ++ ["isdct"])).
Proof.
  apply (find_disks_without_vendor_tool (H:=Rig.no_tool) (Lab.start Lab.online)
           (Lab.failed 127 "isdct: command not found") Lab.online).
  - reflexivity.
  - vm_compute. discriminate.
Defined.

Lemma find_disks_exceptions_witness :
  (∃ ta tb, get_block_devices_list (H:=Rig.no_tool) ta = (Raise Rig.no_tool_error, tb)) ∨
  (∃ msg, Rig.no_tool_error = Exception ("Error while executing command: 'isdct'." +:+ msg)) ∨
  (∃ cause pool ta tb,
     Rig.no_tool_error
       = Exception ("Exception occurred while looking for disks: " +:+ exn_str cause) ∧
     ((discover_ssd_devices (H:=Rig.no_tool) pool [] ta = (Raise cause, tb)) ∨
      (∃ res, discover_hdd_devices (H:=Rig.no_tool) pool res ta = (Raise cause, tb)))).
Proof.
  apply (find_disks_exceptions (H:=Rig.no_tool) (Lab.start Lab.online)
           (snd (find_disks (H:=Rig.no_tool) (Lab.start Lab.online)))).
  vm_compute. reflexivity.
Defined.

Lemma resolved_link_points_to_device_witness :
  ∃ out t1 entry,
    run_expect_success "ls /dev/disk/by-id -1" (Lab.start Lab.online) = (Ok out, t1) ∧
    entry ∈ Py.splitlines (stdout out) ∧
    Lab.by_id "ata-HDD512" = Py.path_join "/dev/disk/by-id" entry ∧
    ∃ ta tb tc target,
      readlink (Lab.by_id "ata-HDD512") ta = (Ok target, tb) ∧
      readlink (Py.path_join "/dev" "sdb") tb = (Ok target, tc).
Proof.
  apply (resolved_link_points_to_device (H:=Lab.host) "sdb" _ (Lab.start Lab.online)
           (snd (resolve_to_by_id_link "sdb" (Lab.start Lab.online)))).
  vm_compute. reflexivity.
Defined.

Lemma no_link_without_entries_witness :
  resolve_to_by_id_link (H:=Rig.no_links) "sdb" (Lab.start Lab.online) =
    (Raise (ValueError ("By-id device link not found for device " +:+ "sdb")),
     mkTarget Lab.online ([] ++ ["ls /dev/disk/by-id -1"])).
Proof.
  apply (no_link_without_entries (H:=Rig.no_links) "sdb" (Lab.start Lab.online)
           (Lab.ok "") Lab.online); reflexivity.
Defined.

Lemma serial_numbers_of_pool_witness :
  ∃ pool t1,
    get_block_devices_list (Lab.start Lab.online) = (Ok pool, t1) ∧
    (∀ k v, Rig.serials !! k = Some v →
       v ∈ pool ∧ (k = v ∨ ∃ ta tb, get_disk_serial_number v ta = (Ok (Some k), tb))) ∧
    (∀ dev, dev ∈ pool →
       ∃ k, is_Some (Rig.serials !! k) ∧
            (k = dev ∨ ∃ ta tb, get_disk_serial_number dev ta = (Ok (Some k), tb))).
Proof.
  apply (serial_numbers_of_pool (H:=Lab.host) Rig.serials (Lab.start Lab.online)
           (snd (get_all_serial_numbers (Lab.start Lab.online)))).
  vm_compute. reflexivity.
Defined.

Lemma first_device_with_serial_witness :
  ∃ before after, Rig.pool = before ++ Lab.by_id "ata-SSD" :: after ∧
    Forall (λ d, serial_answer "SSD7" d false) before ∧
    serial_answer "SSD7" (Lab.by_id "ata-SSD") true.
Proof.
  apply (first_device_with_serial (H:=Lab.host) "SSD7" Rig.pool (Some (Lab.by_id "ata-SSD"))
           (Lab.start Lab.online)
           (snd (find_sata_ssd_device_path "SSD7" Rig.pool (Lab.start Lab.online)))).
  vm_compute. reflexivity.
Defined.

Lemma slaves_of_plain_device_witness :
  __get_slaves 1 "sda1" (Lab.start Lab.online) =
    (Ok None, mkTarget Lab.online ([] ++ ["ls /sys/block/sda1/slaves"])).
Proof.
  apply (slaves_of_plain_device (H:=Lab.host) 0 "sda1" "/sys/block"
           (Lab.start Lab.online) (Lab.start Lab.online)
           (fst (Lab.answer "ls /sys/block/sda1/slaves" Lab.online)) Lab.online).
  - reflexivity.
  - vm_compute. reflexivity.
  - vm_compute. discriminate.
Defined.

Lemma slaves_without_end_witness :
  ∃ t', __get_slaves (H:=Rig.maze) 3 "dm-0" (Lab.start Lab.online) =
          (Raise (RecursionError "maximum recursion depth exceeded"), t').
Proof.
  apply (slaves_without_end (H:=Rig.maze) 3 "dm-0" (Lab.start Lab.online)).
  - intros s. eexists _, _. reflexivity.
  - intros cmd w. split; [reflexivity | vm_compute; discriminate].
Defined.

Lemma slaves_are_leaves_witness :
  Forall (is_leaf (H:=Rig.mapped)) ["sda2"; "sdb1"] ∧
  (["sda2"; "sdb1"] = [] →
   ∃ ta out tb,
     run_expect_success (H:=Rig.mapped) ("ls " +:+ ta +:+ "/" +:+ "dm-1" +:+ "/slaves") tb
       = (Ok out, snd (__get_slaves (H:=Rig.mapped) 5 "dm-1" (Lab.start Lab.online))) ∧
     Py.splitlines (stdout out) = []).
Proof.
  apply (slaves_are_leaves (H:=Rig.mapped) 5 "dm-1" ["sda2"; "sdb1"] (Lab.start Lab.online)).
  vm_compute. reflexivity.
Defined.

Lemma system_disks_not_empty_witness :
  fst (get_system_disks (H:=Rig.mapped) (Lab.start Lab.online)) = Ok ["sda"; "sdb"] ∧
  ["sda"; "sdb"] ≠ [].
Proof.
  split; [vm_compute; reflexivity|].
  apply (system_disks_not_empty (H:=Rig.mapped) ["sda"; "sdb"] (Lab.start Lab.online)
           (snd (get_system_disks (H:=Rig.mapped) (Lab.start Lab.online)))).
  vm_compute. reflexivity.
Defined.

Lemma ssd_record_type_witness :
  ∃ out t1 device_path,
    run_expect_success (isdct_show 1 "DevicePath") (Lab.start Lab.online) = (Ok out, t1) ∧
    Py.index (Py.words (stdout out)) 2 = Ok device_path ∧
    (rec_type Lab.optane_record = "sata" ↔ Py.contains "nvme" device_path = false) ∧
    (Py.contains "nvme" device_path = true →
       ∃ ta o tb, run (isdct_show 1 "Optane") ta = (Ok o, tb) ∧
                  rec_type Lab.optane_record
                    = if bool_decide (exit_code o = 0) then "optane" else "nand") ∧
    (∃ ta o tb field,
       run_expect_success (isdct_show 1 "SerialNumber") ta = (Ok o, tb) ∧
       Py.index (Py.words (stdout o)) 2 = Ok field ∧
       rec_serial Lab.optane_record = Py.strip field).
Proof.
  apply (ssd_record_type (H:=Lab.host) 1 Rig.pool (Lab.by_id "nvme-OPT") Lab.optane_record
           (Lab.start Lab.online) (snd (ssd_entry 1 Rig.pool (Lab.start Lab.online)))).
  vm_compute. reflexivity.
Defined.

Lemma kept_entry_leaves_pool_witness :
  ∃ rest, ssd_turn (Rig.pool, []) 1 (Lab.start Lab.online)
            = (Ok (rest, [] ++ [Lab.optane_record]),
               snd (ssd_entry 1 Rig.pool (Lab.start Lab.online))) ∧
          Rig.pool ≡ₚ Lab.by_id "nvme-OPT" :: rest ∧ length Rig.pool = S (length rest).
Proof.
  apply (kept_entry_leaves_pool (H:=Lab.host) 1 Rig.pool [] (Lab.by_id "nvme-OPT")
           Lab.optane_record (Lab.start Lab.online)).
  vm_compute. reflexivity.
Defined.

Lemma one_record_per_device_witness :
  ∃ pool ta tb,
    get_block_devices_list ta = (Ok pool, tb) ∧
    length [Lab.optane_record; Lab.ssd_record; Lab.hdd512_record; Lab.hdd4k_record]
      = length pool.
Proof.
  apply (one_record_per_device (H:=Lab.host) _ (Lab.start Lab.online)
           (snd (find_disks (Lab.start Lab.online)))).
  vm_compute. reflexivity.
Defined.

Lemma detection_keeps_identity_witness :
  serial_number (self (snd (is_detected Lab.ssd_detached))) = serial_number Lab.ssd ∧
  disk_type (self (snd (is_detected Lab.ssd_detached))) = disk_type Lab.ssd ∧
  block_size (self (snd (is_detected Lab.ssd_detached))) = block_size Lab.ssd ∧
  features (self (snd (is_detected Lab.ssd_detached))) = features Lab.ssd ∧
  class (self (snd (is_detected Lab.ssd_detached))) = class Lab.ssd ∧
  number <$> partitions (self (snd (is_detected Lab.ssd_detached)))
    = number <$> partitions Lab.ssd ∧
  (fst (is_detected Lab.ssd_detached) = Ok false →
   self (snd (is_detected Lab.ssd_detached)) = Lab.ssd) ∧
  (truthy (serial_number Lab.ssd) = false →
   self (snd (is_detected Lab.ssd_detached)) = Lab.ssd).
Proof.
  apply (detection_keeps_identity (H:=Lab.host) Lab.ssd_detached
           (snd (is_detected Lab.ssd_detached)) (fst (is_detected Lab.ssd_detached))).
  vm_compute. reflexivity.
Defined.

Lemma detection_refreshes_paths_witness :
  ∃ serial m p,
    serial_number Rig.ssd_with_partitions = Some serial ∧
    (∃ t1, get_all_serial_numbers (Lab.start Lab.online) = (Ok m, t1)) ∧
    m !! serial = Some p ∧
    path (self (snd (is_detected (mkHarness Rig.ssd_with_partitions (Lab.start Lab.online)))))
      = Some p ∧
    Forall2 (refreshed p) (partitions Rig.ssd_with_partitions)
      (partitions (self (snd (is_detected
                                (mkHarness Rig.ssd_with_partitions (Lab.start Lab.online)))))).
Proof.
  apply (detection_refreshes_paths (H:=Lab.host)
           (mkHarness Rig.ssd_with_partitions (Lab.start Lab.online))
           (snd (is_detected (mkHarness Rig.ssd_with_partitions (Lab.start Lab.online))))).
  - reflexivity.
  - vm_compute. reflexivity.
Defined.

Lemma nvme_unplug_falls_back_witness :
  execute_unplug_command (H:=Rig.nested) (mkHarness Rig.optane_disk (Lab.start Lab.online)) =
    (Ok tt,
     mkHarness Rig.optane_disk
       (mkTarget Lab.online (([] ++ [nvme_remove "nvme0n1"]) ++ [nvme_remove_nested "nvme0n1"]))).
Proof.
  apply (proj2 (nvme_unplug_falls_back (H:=Rig.nested)
                  (mkHarness Rig.optane_disk (Lab.start Lab.online)) "nvme0n1"
                  (Lab.start Lab.online) (Lab.failed 1 "No such file or directory") Lab.online
                  eq_refl eq_refl eq_refl)
           ltac:(vm_compute; discriminate)
           "nvme0n1" (mkTarget Lab.online ([] ++ [nvme_remove "nvme0n1"])) (Lab.ok "") Lab.online
           eq_refl eq_refl).
Defined.


Lemma plug_command_of_new_disk_witness :
  plug Lab.ssd_detached =
    (Raise (CmdException (failure_message Sata_plug_all_command (Lab.failed 127 "command not found"))
                         (Lab.failed 127 "command not found")),
     mkHarness Lab.ssd
       (mkTarget (Lab.mkState false true)
          (issued (target (snd (is_detected Lab.ssd_detached))) ++ [Sata_plug_all_command]))).
Proof.
  apply (plug_command_of_new_disk (H:=Lab.host) (Some (Lab.by_id "ata-SSD")) sata (Some "SSD7")
           512 [] (Lab.start (Lab.mkState false true)) (snd (is_detected Lab.ssd_detached))
           (Lab.failed 127 "command not found") (Lab.mkState false true)).
  - vm_compute. reflexivity.
  - vm_compute. reflexivity.
Defined.

Lemma scan_file_under_device_path_witness :
  ∃ output t1 items scsi_address controller port tgt lun before after rest,
    ls_item "$(find -H /sys/devices/ -name sdd -type d)" (target Lab.ssd_attached)
      = (Ok output, t1) ∧
    parse_ls_output output t1
      = (Ok items, target (snd (get_sysfs_properties "sdd" Lab.ssd_attached))) ∧
    Py.index items 0 = Ok (Some (mkFsItem Lab.sdd_sysfs)) ∧
    Py.index (Py.split "/" Lab.sdd_sysfs) (-3) = Ok scsi_address ∧
    scsi_address_search scsi_address = Some (controller, port, tgt, lun) ∧
    Py.split "/" Lab.sdd_sysfs = before ++ after ∧
    Forall (λ x, Py.startswith "host" x = false) before ∧
    match after with
    | [] => True
    | x :: _ => Py.startswith "host" x = true
    end ∧
    class (self (snd (get_sysfs_properties "sdd" Lab.ssd_attached)))
      = SataDisk (scan_command (Py.join "/" before) controller port tgt lun) ∧
    Lab.sdd_sysfs = Py.join "/" before +:+ rest ∧
    (rest = "" ∨ Py.startswith "host" rest = true ∨ Py.startswith "/host" rest = true).
Proof.
  apply (scan_file_under_device_path (H:=Lab.host) "sdd" Lab.ssd_attached
           (snd (get_sysfs_properties "sdd" Lab.ssd_attached)) (mkFsItem Lab.sdd_sysfs)).
  vm_compute. reflexivity.
Defined.

Lemma status_reached_witness :
  ∃ h', wait_for_plug_status true Lab.ssd_attached = (Ok tt, h') ∧
        machine (target h') = Lab.online.
Proof.
  apply (status_reached (H:=Lab.host) (λ _ x, x = Lab.ssd_attached)
           (λ x, machine (target x) = Lab.online) true 0 Lab.ssd_attached).
  - lia.
  - reflexivity.
  - intros n x Hn. lia.
  - intros x ->. eexists. split; vm_compute; reflexivity.
Defined.
